(** * FixieDashBrooklyn: the pedal-timing physics and the level state machine

    A shallow embedding of [client/game/core/physics.py], of the
    simulation core of [client/game/services/game_service.py] with the
    part of [background_service.py] it reads back, of its caller
    [client/game/states/game_state.py], of the geometry computed by
    [client/game/ui/physics_bars.py], and of the rhythm bar of
    [client/game/core/timing_system.py].

    Numbers.  Python [float] values are idealised as exact rationals ([Q]),
    Python [int] values are [Z].  [int(x)] on a float truncates toward
    zero ([py_int]).  Equality of rationals is [Qeq] (written [==]).
    Python's [min]/[max] return their first argument unless the second is
    strictly smaller/greater, which is what [Qmin]/[Qmax] compute.  Where
    a property depends on the rounding of binary64, the operations are
    those of an [Arithmetic] with a bounded relative error.

    Mutation.  A Python object is a record; a method is a function from the
    object to the updated object (and a result, when it returns one). *)

From Stdlib Require Import QArith Qround Qminmax Qabs Lqa ZArith Lia.
From stdpp Require Import gmap strings.

Local Open Scope Q_scope.

(** ** Python numerics *)

(** [int(x)] for a float [x]: truncation toward zero. *)
Definition py_int (x : Q) : Z :=
  if Qle_bool 0 x then Qfloor x else Qceiling x.

(** Python's [x < y] on floats, as a boolean. *)
Definition Qltb (x y : Q) : bool := negb (Qle_bool y x).

(** ** physics.py *)

(** [@dataclass class PhysicsState] *)
Record PhysicsState := mkPhysicsState {
  speed : Q;
  distance_traveled : Q;
  stamina : Q;
  last_pedal_side : option string;
  last_pedal_time : Z;
  last_pedal_interval : Z
}.

(** [PhysicsState()] with the dataclass defaults. *)
Definition PhysicsState_default : PhysicsState :=
  {| speed := 0.0;
     distance_traveled := 0.0;
     stamina := 100.0;
     last_pedal_side := None;
     last_pedal_time := 0;
     last_pedal_interval := 0 |}.

(** The attributes of a [Physics] object. *)
Record Physics := mkPhysics {
  max_speed : Q;
  state : PhysicsState;
  min_speed : Q;
  min_moving_speed : Q;
  max_stamina : Q;
  min_stamina : Q;
  min_pedal_interval : Z;
  max_pedal_interval : Z;
  speed_at_0ms : Q
}.

(** [Physics.__init__(self, max_speed)].  The attribute assignments are
    kept in source order: [self.max_speed] is assigned the argument first
    and the constant 35.0 afterwards. *)
Definition Physics_init (max_speed_arg : Q) : Physics :=
  let self_max_speed := max_speed_arg in
  let self_state := PhysicsState_default in
  let self_min_speed := 0.0 in
  let self_min_moving_speed := 1.0 in
  let self_max_speed := 35.0 in
  let self_max_stamina := 100.0 in
  let self_min_stamina := 0.0 in
  let self_min_pedal_interval := 150%Z in
  let self_max_pedal_interval := 3000%Z in
  let self_speed_at_0ms :=
    self_max_speed
    + self_max_speed * inject_Z self_min_pedal_interval
      / inject_Z (self_max_pedal_interval - self_min_pedal_interval) in
  {| max_speed := self_max_speed;
     state := self_state;
     min_speed := self_min_speed;
     min_moving_speed := self_min_moving_speed;
     max_stamina := self_max_stamina;
     min_stamina := self_min_stamina;
     min_pedal_interval := self_min_pedal_interval;
     max_pedal_interval := self_max_pedal_interval;
     speed_at_0ms := self_speed_at_0ms |}.

(** Attribute assignment [self.state = st]. *)
Definition set_state (st : PhysicsState) (self : Physics) : Physics :=
  {| max_speed := max_speed self;
     state := st;
     min_speed := min_speed self;
     min_moving_speed := min_moving_speed self;
     max_stamina := max_stamina self;
     min_stamina := min_stamina self;
     min_pedal_interval := min_pedal_interval self;
     max_pedal_interval := max_pedal_interval self;
     speed_at_0ms := speed_at_0ms self |}.

(** [self.state.speed = v] and its siblings. *)
Definition set_speed (v : Q) (self : Physics) : Physics :=
  let st := state self in
  set_state {| speed := v;
               distance_traveled := distance_traveled st;
               stamina := stamina st;
               last_pedal_side := last_pedal_side st;
               last_pedal_time := last_pedal_time st;
               last_pedal_interval := last_pedal_interval st |} self.

Definition set_distance_traveled (v : Q) (self : Physics) : Physics :=
  let st := state self in
  set_state {| speed := speed st;
               distance_traveled := v;
               stamina := stamina st;
               last_pedal_side := last_pedal_side st;
               last_pedal_time := last_pedal_time st;
               last_pedal_interval := last_pedal_interval st |} self.

Definition set_stamina (v : Q) (self : Physics) : Physics :=
  let st := state self in
  set_state {| speed := speed st;
               distance_traveled := distance_traveled st;
               stamina := v;
               last_pedal_side := last_pedal_side st;
               last_pedal_time := last_pedal_time st;
               last_pedal_interval := last_pedal_interval st |} self.

Definition set_last_pedal_side (v : option string) (self : Physics) : Physics :=
  let st := state self in
  set_state {| speed := speed st;
               distance_traveled := distance_traveled st;
               stamina := stamina st;
               last_pedal_side := v;
               last_pedal_time := last_pedal_time st;
               last_pedal_interval := last_pedal_interval st |} self.

Definition set_last_pedal_time (v : Z) (self : Physics) : Physics :=
  let st := state self in
  set_state {| speed := speed st;
               distance_traveled := distance_traveled st;
               stamina := stamina st;
               last_pedal_side := last_pedal_side st;
               last_pedal_time := v;
               last_pedal_interval := last_pedal_interval st |} self.

(** [Physics.reset] *)
Definition reset (self : Physics) : Physics :=
  set_state PhysicsState_default self.

(** [Physics.get_curr_interval], with the quotient computed without
    rounding; [get_curr_interval_in] below computes it in a floating-point
    arithmetic. *)
Definition get_curr_interval (self : Physics) : Z :=
  py_int
    ((speed_at_0ms self - speed (state self))
     * inject_Z (max_pedal_interval self - min_pedal_interval self)
     / max_speed self).

(** [Physics.get_time_since_last_pedal] *)
Definition get_time_since_last_pedal (current_time : Z) (self : Physics) : Z :=
  if (last_pedal_time (state self) =? 0)%Z then 0%Z
  else (current_time - last_pedal_time (state self))%Z.

(** [Physics.get_last_pedal_interval] *)
Definition get_last_pedal_interval (self : Physics) : Z :=
  last_pedal_interval (state self).

(** The local [speed_for_interval] of [predict_speed_change], as a
    function of the interval. *)
Definition speed_for_interval (self : Physics) (new_interval : Z) : Q :=
  speed_at_0ms self
  - inject_Z new_interval * max_speed self
    / inject_Z (max_pedal_interval self - min_pedal_interval self).

(** [Physics.predict_speed_change] *)
Definition predict_speed_change (current_time : Z) (self : Physics) : Q :=
  if (last_pedal_time (state self) =? 0)%Z then min_moving_speed self
  else
    let new_interval := (current_time - last_pedal_time (state self))%Z in
    let current_speed := speed (state self) in
    let speed_for_interval := speed_for_interval self new_interval in
    if (new_interval <? min_pedal_interval self)%Z then 0
    else speed_for_interval - current_speed.

(** [Physics.predict_stamina_change].  Every return value is a Python
    [int]: the literals 0 and -100, or the result of [int(...)]. *)
Definition predict_stamina_change (current_time : Z) (self : Physics) : Z :=
  if (last_pedal_time (state self) =? 0)%Z then 0%Z
  else
    let new_interval := (current_time - last_pedal_time (state self))%Z in
    let current_interval := get_curr_interval self in
    if (new_interval <? min_pedal_interval self)%Z then (-100)%Z
    else
      let timing_diff := (new_interval - current_interval)%Z in
      if (0 <? timing_diff)%Z
      then py_int (-3 / 40.0 * inject_Z timing_diff + 15)
      else py_int (3 / 40.0 * inject_Z (timing_diff + 200)).

(** [Physics.handle_pedal]: the acceptance flag and the engine afterwards. *)
Definition handle_pedal (side : string) (current_time : Z) (self : Physics)
  : bool * Physics :=
  if match last_pedal_side (state self) with
     | Some last => String.eqb side last
     | None => false
     end
  then (false, self)
  else
    let self :=
      if (0 <? last_pedal_time (state self))%Z then
        let stamina_change := predict_stamina_change current_time self in
        let speed_change := predict_speed_change current_time self in
        let self :=
          set_speed
            (Qmin (Qmax (min_speed self) (speed (state self) + speed_change))
                  (max_speed self)) self in
        set_stamina
          (Qmin (Qmax (min_stamina self)
                      (stamina (state self) + inject_Z stamina_change))
                (max_stamina self)) self
      else set_speed (min_moving_speed self) self in
    let self := set_last_pedal_side (Some side) self in
    let self := set_last_pedal_time current_time self in
    (true, self).

(** [Physics.update] *)
Definition update (dt : Q) (current_time : Z) (self : Physics) : Physics :=
  if (0 <? last_pedal_time (state self))%Z
     && (max_pedal_interval self
         <? current_time - last_pedal_time (state self))%Z
  then set_stamina (min_stamina self) self
  else if Qltb 0 (speed (state self)) then
    let pixels_per_second := speed (state self) * 10 in
    let distance_delta := pixels_per_second * (dt / 1000.0) in
    set_distance_traveled (distance_traveled (state self) + distance_delta) self
  else self.

(** [get_speed_mph], [get_distance_meters], [get_stamina] *)
Definition get_speed_mph (self : Physics) : Q := speed (state self).
Definition get_distance_meters (self : Physics) : Q :=
  distance_traveled (state self) / 3.0.
Definition get_stamina (self : Physics) : Q := stamina (state self).

(** ** The host: clock and session-reporting service

    [pygame.time.get_ticks()] and the backend behind [api_client] are
    outside the program.  Their answers are taken from a [Host]: the
    successive clock readings made by the simulation, the successive
    answers of [is_server_available()] and [start_game_session()], and the
    log of the [end_game_session] calls made so far. *)
Record Host := mkHost {
  ticks : nat -> Z;
  reads : nat;
  server_available : nat -> bool;
  new_session : nat -> option string;
  requests : nat;
  ended : list (string * Q * Q * Q)
}.

(** A method of an object with attributes [St] that may consult the host:
    the result, the host afterwards and the object afterwards. *)
Definition Run (St A : Type) : Type := Host -> St -> A * Host * St.

Definition result {St A} (r : A * Host * St) : A := fst (fst r).
Definition host_after {St A} (r : A * Host * St) : Host := snd (fst r).
Definition after {St A} (r : A * Host * St) : St := snd r.

Definition ret {St A} (a : A) : Run St A := fun h s => (a, h, s).

Definition bind {St A B} (m : Run St A) (k : A -> Run St B) : Run St B :=
  fun h s => let r := m h s in k (result r) (host_after r) (after r).

Notation "x <- m ;; k" := (bind m (fun x => k))
  (at level 100, m at next level, right associativity).
Notation "m ;; k" := (bind m (fun _ => k))
  (at level 100, right associativity).

Definition get {St} : Run St St := fun h s => (s, h, s).
Definition modify {St} (f : St -> St) : Run St unit := fun h s => (tt, h, f s).

(** The host after one more clock reading, after one more request to the
    backend, and after an [end_game_session] call. *)
Definition clock_read (h : Host) : Host :=
  mkHost (ticks h) (S (reads h)) (server_available h) (new_session h)
         (requests h) (ended h).

Definition requested (h : Host) : Host :=
  mkHost (ticks h) (reads h) (server_available h) (new_session h)
         (S (requests h)) (ended h).

Definition logged (report : string * Q * Q * Q) (h : Host) : Host :=
  mkHost (ticks h) (reads h) (server_available h) (new_session h)
         (requests h) (report :: ended h).

(** [pygame.time.get_ticks()]: the next clock reading. *)
Definition get_ticks {St} : Run St Z :=
  fun h s => (ticks h (reads h), clock_read h, s).

(** [api_client.is_server_available()] *)
Definition is_server_available {St} : Run St bool :=
  fun h s => (server_available h (requests h), requested h, s).

(** [api_client.start_game_session(user_id)]: the session id of a
    successful response, if any. *)
Definition start_game_session {St} (user_id : string) : Run St (option string) :=
  fun h s => (new_session h (requests h), requested h, s).

(** [api_client.end_game_session(session_id, max_speed, total_distance,
    completion_time)]: the call is logged, its response is not used. *)
Definition end_game_session {St}
  (session_id : string) (max_speed total_distance completion_time : Q)
  : Run St unit :=
  fun h s =>
    (tt,
     logged (session_id, max_speed, total_distance, completion_time)
            (requested h),
     s).

(** ** background_service.py and cyclist.py

    Only what the simulation reads back is kept: the phase of the
    background with the counters that drive it, and the position of the
    cyclist.  Images, drawing, animation timers and the start time of a
    phase are left out. *)
Inductive BackgroundPhase :=
| START_SCREEN | TRANSITION | REPEATABLE | LEVEL_COMPLETE.

Record BackgroundService := mkBackgroundService {
  bg_screen_width : Z;
  bg_screen_height : Z;
  bg_current_level : Z;
  phase : BackgroundPhase;
  scroll_offset : Q;
  transition_progress : Q;
  background_length : Q;
  total_scrolled : Q;
  base_speed_multiplier : Q
}.

Record Cyclist := mkCyclist { cyclist_x : Q; cyclist_y : Q }.

Module Background.

(** [BackgroundService.__init__] *)
Definition init (screen_width screen_height : Z) : BackgroundService :=
  {| bg_screen_width := screen_width;
     bg_screen_height := screen_height;
     bg_current_level := 1;
     phase := START_SCREEN;
     scroll_offset := 0.0;
     transition_progress := 0.0;
     background_length := 0.0;
     total_scrolled := 0.0;
     base_speed_multiplier := 8.0 |}.

(** [BackgroundService.set_level] *)
Definition set_level (level : Z) (self : BackgroundService) : BackgroundService :=
  let base_length := 5000 in
  let level_multiplier := 1.0 + inject_Z (level - 1) * 0.2 in
  {| bg_screen_width := bg_screen_width self;
     bg_screen_height := bg_screen_height self;
     bg_current_level := level;
     phase := START_SCREEN;
     scroll_offset := 0.0;
     transition_progress := 0.0;
     background_length := base_length * level_multiplier;
     total_scrolled := 0.0;
     base_speed_multiplier := base_speed_multiplier self |}.

Definition set_phase (v : BackgroundPhase) (self : BackgroundService)
  : BackgroundService :=
  mkBackgroundService (bg_screen_width self) (bg_screen_height self)
    (bg_current_level self) v (scroll_offset self) (transition_progress self)
    (background_length self) (total_scrolled self) (base_speed_multiplier self).

Definition set_scrolling (offset progress total : Q) (self : BackgroundService)
  : BackgroundService :=
  mkBackgroundService (bg_screen_width self) (bg_screen_height self)
    (bg_current_level self) (phase self) offset progress
    (background_length self) total (base_speed_multiplier self).

(** [BackgroundService.start_riding] *)
Definition start_riding (self : BackgroundService) : BackgroundService :=
  match phase self with
  | START_SCREEN => set_phase TRANSITION self
  | _ => self
  end.

(** [BackgroundService.update] *)
Definition update (dt cyclist_speed : Q) (self : BackgroundService)
  : BackgroundService :=
  match phase self with
  | START_SCREEN => self
  | TRANSITION =>
      if Qltb 0 cyclist_speed then
        let scroll_speed := cyclist_speed * base_speed_multiplier self in
        let self :=
          set_scrolling (scroll_offset self)
            (transition_progress self + scroll_speed * (dt / 1000.0))
            (total_scrolled self) self in
        if Qle_bool (inject_Z (bg_screen_width self)) (transition_progress self)
        then set_scrolling 0.0 (transition_progress self) 0.0
               (set_phase REPEATABLE self)
        else self
      else self
  | REPEATABLE =>
      if Qltb 0 cyclist_speed then
        let scroll_speed := cyclist_speed * base_speed_multiplier self in
        let scroll_distance := scroll_speed * (dt / 1000.0) in
        let self :=
          set_scrolling (scroll_offset self + scroll_distance)
            (transition_progress self)
            (total_scrolled self + scroll_distance) self in
        if Qle_bool (background_length self) (total_scrolled self)
        then set_phase LEVEL_COMPLETE self
        else self
      else self
  | LEVEL_COMPLETE => self
  end.

(** [get_cyclist_start_position], [get_cyclist_fixed_position] *)
Definition get_cyclist_start_position (self : BackgroundService) : Z * Z :=
  (100, bg_screen_height self - 150)%Z.
Definition get_cyclist_fixed_position (self : BackgroundService) : Z * Z :=
  (200, bg_screen_height self - 150)%Z.

(** [BackgroundService.is_on_start_screen] *)
Definition is_on_start_screen (self : BackgroundService) : bool :=
  match phase self with START_SCREEN => true | _ => false end.

End Background.

(** ** game_service.py: GameStats *)

(** [@dataclass class GameStats]; the dictionaries are finite maps, the
    set of completed levels a finite set. *)
Record GameStats := mkGameStats {
  max_speed_reached : Q;
  total_pedals : Z;
  successful_pedals : Z;
  start_time : Z;
  level_start_times : gmap Z Z;
  level_completion_times : gmap Z Q;
  level_end_times : gmap Z Z;
  level_started : gmap Z bool;
  completed_levels : gset Z
}.

(** [GameStats(start_time=...)] followed by [__post_init__]. *)
Definition GameStats_init (start_time : Z) : GameStats :=
  {| max_speed_reached := 0.0;
     total_pedals := 0;
     successful_pedals := 0;
     start_time := start_time;
     level_start_times := ∅;
     level_completion_times := ∅;
     level_end_times := ∅;
     level_started := ∅;
     completed_levels := ∅ |}.

Definition set_max_speed_reached (v : Q) (self : GameStats) : GameStats :=
  mkGameStats v (total_pedals self) (successful_pedals self) (start_time self)
    (level_start_times self) (level_completion_times self)
    (level_end_times self) (level_started self) (completed_levels self).

Definition set_total_pedals (v : Z) (self : GameStats) : GameStats :=
  mkGameStats (max_speed_reached self) v (successful_pedals self)
    (start_time self) (level_start_times self) (level_completion_times self)
    (level_end_times self) (level_started self) (completed_levels self).

Definition set_successful_pedals (v : Z) (self : GameStats) : GameStats :=
  mkGameStats (max_speed_reached self) (total_pedals self) v (start_time self)
    (level_start_times self) (level_completion_times self)
    (level_end_times self) (level_started self) (completed_levels self).

Definition set_level_start_times (v : gmap Z Z) (self : GameStats) : GameStats :=
  mkGameStats (max_speed_reached self) (total_pedals self)
    (successful_pedals self) (start_time self) v (level_completion_times self)
    (level_end_times self) (level_started self) (completed_levels self).

Definition set_level_completion_times (v : gmap Z Q) (self : GameStats)
  : GameStats :=
  mkGameStats (max_speed_reached self) (total_pedals self)
    (successful_pedals self) (start_time self) (level_start_times self) v
    (level_end_times self) (level_started self) (completed_levels self).

Definition set_level_end_times (v : gmap Z Z) (self : GameStats) : GameStats :=
  mkGameStats (max_speed_reached self) (total_pedals self)
    (successful_pedals self) (start_time self) (level_start_times self)
    (level_completion_times self) v (level_started self) (completed_levels self).

Definition set_level_started (v : gmap Z bool) (self : GameStats) : GameStats :=
  mkGameStats (max_speed_reached self) (total_pedals self)
    (successful_pedals self) (start_time self) (level_start_times self)
    (level_completion_times self) (level_end_times self) v
    (completed_levels self).

Definition set_completed_levels (v : gset Z) (self : GameStats) : GameStats :=
  mkGameStats (max_speed_reached self) (total_pedals self)
    (successful_pedals self) (start_time self) (level_start_times self)
    (level_completion_times self) (level_end_times self) (level_started self) v.

(** [GameStats.completion_time] *)
Definition completion_time : Run GameStats Q :=
  now <- get_ticks ;;
  self <- get ;;
  ret (inject_Z (now - start_time self) / 1000.0).

(** [GameStats.total_completion_time]: [sum] of the dictionary's values. *)
Definition total_completion_time (self : GameStats) : Q :=
  map_fold (fun _ v total => total + v) 0 (level_completion_times self).

(** [GameStats.success_ratio] *)
Definition success_ratio (self : GameStats) : Q :=
  if (total_pedals self =? 0)%Z then 0.0
  else (inject_Z (successful_pedals self) / inject_Z (total_pedals self)) * 100.

(** [self.level_started.get(level, False)] *)
Definition timer_started (level : Z) (self : GameStats) : bool :=
  default false (level_started self !! level).

(** [GameStats.prepare_level] *)
Definition prepare_level (level : Z) (self : GameStats) : GameStats :=
  set_level_started (<[level := false]> (level_started self)) self.

(** [GameStats.start_level_timer] *)
Definition start_level_timer (level : Z) : Run GameStats unit :=
  self <- get ;;
  if negb (timer_started level self) then
    now <- get_ticks ;;
    modify (fun self =>
              set_level_start_times (<[level := now]> (level_start_times self)) self) ;;
    modify (fun self =>
              set_level_started (<[level := true]> (level_started self)) self)
  else ret tt.

(** [GameStats.end_level] *)
Definition end_level (level : Z) : Run GameStats unit :=
  self <- get ;;
  match level_start_times self !! level with
  | Some _ =>
      if timer_started level self then
        now <- get_ticks ;;
        modify (fun self =>
                  set_level_end_times (<[level := now]> (level_end_times self)) self)
      else ret tt
  | None => ret tt
  end.

(** [GameStats.complete_level] *)
Definition complete_level (level : Z) : Run GameStats Q :=
  self <- get ;;
  match level_start_times self !! level with
  | Some started_at =>
      if timer_started level self then
        now <- get_ticks ;;
        let completion_time := inject_Z (now - started_at) / 1000.0 in
        modify (fun self =>
                  set_level_completion_times
                    (<[level := completion_time]> (level_completion_times self))
                    self) ;;
        modify (fun self =>
                  set_completed_levels ({[level]} ∪ completed_levels self) self) ;;
        now <- get_ticks ;;
        modify (fun self =>
                  set_level_end_times (<[level := now]> (level_end_times self)) self) ;;
        ret completion_time
      else ret 0.0
  | None => ret 0.0
  end.

(** [GameStats.get_current_level_time] *)
Definition get_current_level_time (level : Z) : Run GameStats Q :=
  self <- get ;;
  match level_start_times self !! level with
  | Some started_at =>
      if timer_started level self then
        match level_end_times self !! level with
        | Some ended_at => ret (inject_Z (ended_at - started_at) / 1000.0)
        | None =>
            now <- get_ticks ;;
            ret (inject_Z (now - started_at) / 1000.0)
        end
      else ret 0.0
  | None => ret 0.0
  end.

(** ** game_service.py: GameService *)

(** The attributes of a [GameService] that the simulation uses.  The
    feedback message and its timer, the celebratory image and the bars
    widget only feed the display and are left out. *)
Record GameService := mkGameService {
  screen_width : Z;
  screen_height : Z;
  user : option string;
  game_over : bool;
  paused : bool;
  session_id : option string;
  current_level : Z;
  level_complete : bool;
  all_levels_complete : bool;
  level_start_distance : Q;
  game_over_reason : string;
  background_service : BackgroundService;
  cyclist : Cyclist;
  physics : Physics;
  stats : GameStats;
  cyclist_exit_speed : Q
}.

Definition set_game_over (v : bool) (self : GameService) : GameService :=
  mkGameService (screen_width self) (screen_height self) (user self) v
    (paused self) (session_id self) (current_level self) (level_complete self)
    (all_levels_complete self) (level_start_distance self)
    (game_over_reason self) (background_service self) (cyclist self)
    (physics self) (stats self) (cyclist_exit_speed self).

Definition set_paused (v : bool) (self : GameService) : GameService :=
  mkGameService (screen_width self) (screen_height self) (user self)
    (game_over self) v (session_id self) (current_level self)
    (level_complete self) (all_levels_complete self) (level_start_distance self)
    (game_over_reason self) (background_service self) (cyclist self)
    (physics self) (stats self) (cyclist_exit_speed self).

Definition set_session_id (v : option string) (self : GameService) : GameService :=
  mkGameService (screen_width self) (screen_height self) (user self)
    (game_over self) (paused self) v (current_level self) (level_complete self)
    (all_levels_complete self) (level_start_distance self)
    (game_over_reason self) (background_service self) (cyclist self)
    (physics self) (stats self) (cyclist_exit_speed self).

Definition set_current_level (v : Z) (self : GameService) : GameService :=
  mkGameService (screen_width self) (screen_height self) (user self)
    (game_over self) (paused self) (session_id self) v (level_complete self)
    (all_levels_complete self) (level_start_distance self)
    (game_over_reason self) (background_service self) (cyclist self)
    (physics self) (stats self) (cyclist_exit_speed self).

Definition set_level_complete (v : bool) (self : GameService) : GameService :=
  mkGameService (screen_width self) (screen_height self) (user self)
    (game_over self) (paused self) (session_id self) (current_level self) v
    (all_levels_complete self) (level_start_distance self)
    (game_over_reason self) (background_service self) (cyclist self)
    (physics self) (stats self) (cyclist_exit_speed self).

Definition set_all_levels_complete (v : bool) (self : GameService) : GameService :=
  mkGameService (screen_width self) (screen_height self) (user self)
    (game_over self) (paused self) (session_id self) (current_level self)
    (level_complete self) v (level_start_distance self)
    (game_over_reason self) (background_service self) (cyclist self)
    (physics self) (stats self) (cyclist_exit_speed self).

Definition set_level_start_distance (v : Q) (self : GameService) : GameService :=
  mkGameService (screen_width self) (screen_height self) (user self)
    (game_over self) (paused self) (session_id self) (current_level self)
    (level_complete self) (all_levels_complete self) v
    (game_over_reason self) (background_service self) (cyclist self)
    (physics self) (stats self) (cyclist_exit_speed self).

Definition set_game_over_reason (v : string) (self : GameService) : GameService :=
  mkGameService (screen_width self) (screen_height self) (user self)
    (game_over self) (paused self) (session_id self) (current_level self)
    (level_complete self) (all_levels_complete self) (level_start_distance self)
    v (background_service self) (cyclist self)
    (physics self) (stats self) (cyclist_exit_speed self).

Definition set_background_service (v : BackgroundService) (self : GameService)
  : GameService :=
  mkGameService (screen_width self) (screen_height self) (user self)
    (game_over self) (paused self) (session_id self) (current_level self)
    (level_complete self) (all_levels_complete self) (level_start_distance self)
    (game_over_reason self) v (cyclist self)
    (physics self) (stats self) (cyclist_exit_speed self).

Definition set_cyclist (v : Cyclist) (self : GameService) : GameService :=
  mkGameService (screen_width self) (screen_height self) (user self)
    (game_over self) (paused self) (session_id self) (current_level self)
    (level_complete self) (all_levels_complete self) (level_start_distance self)
    (game_over_reason self) (background_service self) v
    (physics self) (stats self) (cyclist_exit_speed self).

Definition set_physics (v : Physics) (self : GameService) : GameService :=
  mkGameService (screen_width self) (screen_height self) (user self)
    (game_over self) (paused self) (session_id self) (current_level self)
    (level_complete self) (all_levels_complete self) (level_start_distance self)
    (game_over_reason self) (background_service self) (cyclist self)
    v (stats self) (cyclist_exit_speed self).

Definition set_stats (v : GameStats) (self : GameService) : GameService :=
  mkGameService (screen_width self) (screen_height self) (user self)
    (game_over self) (paused self) (session_id self) (current_level self)
    (level_complete self) (all_levels_complete self) (level_start_distance self)
    (game_over_reason self) (background_service self) (cyclist self)
    (physics self) v (cyclist_exit_speed self).

(** A method of [self.stats] called from a method of the service. *)
Definition on_stats {A} (m : Run GameStats A) : Run GameService A :=
  fun h self =>
    let r := m h (stats self) in
    (result r, host_after r, set_stats (after r) self).

(** [x, y = position; Cyclist(x=x, y=y)] *)
Definition cyclist_at (position : Z * Z) : Cyclist :=
  {| cyclist_x := inject_Z (fst position);
     cyclist_y := inject_Z (snd position) |}.

(** Truth value of an optional string: [None] and [""] are false. *)
Definition truthy (v : option string) : bool :=
  match v with
  | Some s => negb (String.eqb s "")
  | None => false
  end.

Module Game.

(** [GameService.LEVEL_DISTANCES] *)
Definition LEVEL_DISTANCES : gmap Z Q :=
  <[1%Z := 1000.0]> (<[2%Z := 1500.0]> (<[3%Z := 2000.0]> (<[4%Z := 2500.0]> ∅))).

(** [GameService.get_level_target_distance] *)
Definition get_level_target_distance (level : Z) : Q :=
  default 1000.0 (LEVEL_DISTANCES !! level).

(** [GameService.get_level_progress] *)
Definition get_level_progress (self : GameService) : Q :=
  let current_distance := get_distance_meters (physics self) in
  let target_distance := get_level_target_distance (current_level self) in
  Qmin (current_distance / target_distance) 1.0.

(** [GameService.get_total_distance_traveled] *)
Definition get_total_distance_traveled (self : GameService) : Q :=
  let total :=
    set_fold (fun level total => total + get_level_target_distance level)
             0.0 (completed_levels (stats self)) in
  if negb (level_complete self) then
    total + get_distance_meters (physics self)
  else if negb (bool_decide (current_level self ∈ completed_levels (stats self)))
  then total + get_level_target_distance (current_level self)
  else total.

(** [self.current_level in self.stats.level_start_times] *)
Definition timer_recorded (self : GameService) : bool :=
  match level_start_times (stats self) !! current_level self with
  | Some _ => true
  | None => false
  end.

(** [GameService.get_total_time] *)
Definition get_total_time : Run GameService Q :=
  self <- get ;;
  let total_time := total_completion_time (stats self) in
  if negb (level_complete self) && timer_recorded self then
    current_level_time <- on_stats (get_current_level_time (current_level self)) ;;
    ret (total_time + current_level_time)
  else ret total_time.

(** [GameService._start_session] *)
Definition _start_session : Run GameService unit :=
  available <- is_server_available ;;
  if available then
    self <- get ;;
    match user self with
    | Some user_id =>
        response <- start_game_session user_id ;;
        match response with
        | Some session => modify (set_session_id (Some session))
        | None => ret tt
        end
    | None => ret tt
    end
  else ret tt.

(** [GameService.__init__]: the host and the service after construction.
    The clock is read once, for [GameStats(start_time=...)]. *)
Definition init (screen_width screen_height : Z) (user : option string)
  (level : Z) (h : Host) : unit * Host * GameService :=
  let background_service :=
    Background.set_level level (Background.init screen_width screen_height) in
  let cyclist_start_pos := Background.get_cyclist_start_position background_service in
  let now := ticks h (reads h) in
  _start_session (clock_read h)
    {| screen_width := screen_width;
       screen_height := screen_height;
       user := user;
       game_over := false;
       paused := false;
       session_id := None;
       current_level := level;
       level_complete := false;
       all_levels_complete := false;
       level_start_distance := 0.0;
       game_over_reason := "";
       background_service := background_service;
       cyclist := cyclist_at cyclist_start_pos;
       physics := Physics_init 25.0;
       stats := prepare_level level (GameStats_init now);
       cyclist_exit_speed := 100.0 |}.

(** [GameService.handle_pedal_input] *)
Definition handle_pedal_input (side : string) : Run GameService bool :=
  self <- get ;;
  if game_over self || paused self || level_complete self then ret false
  else
    on_stats (start_level_timer (current_level self)) ;;
    modify (fun self =>
              if Background.is_on_start_screen (background_service self)
              then set_background_service
                     (Background.start_riding (background_service self)) self
              else self) ;;
    current_time <- get_ticks ;;
    modify (fun self =>
              set_stats (set_total_pedals (total_pedals (stats self) + 1)
                           (stats self)) self) ;;
    self <- get ;;
    let outcome := handle_pedal side current_time (physics self) in
    let success := fst outcome in
    modify (set_physics (snd outcome)) ;;
    (if success then
       modify (fun self =>
                 set_stats
                   (set_successful_pedals (successful_pedals (stats self) + 1)
                      (stats self)) self) ;;
       modify (fun self =>
                 if Qltb (max_speed_reached (stats self))
                         (speed (state (physics self)))
                 then set_stats
                        (set_max_speed_reached (speed (state (physics self)))
                           (stats self)) self
                 else self)
     else ret tt) ;;
    ret success.

(** [GameService.set_level] *)
Definition set_level (level : Z) : Run GameService unit :=
  modify (set_current_level level) ;;
  modify (fun self =>
            set_background_service
              (Background.set_level level (background_service self)) self) ;;
  modify (set_level_complete false) ;;
  modify (fun self =>
            set_cyclist
              (cyclist_at
                 (Background.get_cyclist_start_position (background_service self)))
              self) ;;
  modify (fun self => set_physics (reset (physics self)) self) ;;
  modify (set_level_start_distance 0.0) ;;
  modify (fun self => set_stats (prepare_level level (stats self)) self).

(** [GameService._complete_level] *)
Definition _complete_level : Run GameService unit :=
  self <- get ;;
  if negb (level_complete self) then
    modify (set_level_complete true) ;;
    completion_time <- on_stats (complete_level (current_level self)) ;;
    ret tt
  else ret tt.

(** [GameService._check_level_completion] *)
Definition _check_level_completion : Run GameService unit :=
  self <- get ;;
  if level_complete self || all_levels_complete self then ret tt
  else
    let current_distance := get_distance_meters (physics self) in
    let target_distance := get_level_target_distance (current_level self) in
    if Qle_bool target_distance current_distance then _complete_level
    else ret tt.

(** [GameService.toggle_pause] *)
Definition toggle_pause : Run GameService unit :=
  modify (fun self => set_paused (negb (paused self)) self).

(** [GameService._end_game] *)
Definition _end_game : Run GameService unit :=
  modify (set_game_over true) ;;
  self <- get ;;
  (if negb (level_complete self) && timer_recorded self
   then on_stats (end_level (current_level self))
   else ret tt) ;;
  self <- get ;;
  match session_id self with
  | Some session =>
      if truthy (session_id self) then
        available <- is_server_available ;;
        if available then
          let total_distance := get_total_distance_traveled self in
          total_time <- get_total_time ;;
          end_game_session session (max_speed_reached (stats self))
            total_distance total_time
        else ret tt
      else ret tt
  | None => ret tt
  end.

(** [GameService.restart] *)
Definition restart : Run GameService unit :=
  modify (set_game_over false) ;;
  modify (set_paused false) ;;
  modify (set_session_id None) ;;
  modify (set_level_complete false) ;;
  modify (set_all_levels_complete false) ;;
  modify (set_level_start_distance 0.0) ;;
  modify (set_game_over_reason "") ;;
  modify (set_current_level 1) ;;
  modify (fun self =>
            set_background_service
              (Background.set_level 1 (background_service self)) self) ;;
  modify (fun self =>
            set_cyclist
              (cyclist_at
                 (Background.get_cyclist_start_position (background_service self)))
              self) ;;
  modify (fun self => set_physics (reset (physics self)) self) ;;
  now <- get_ticks ;;
  modify (set_stats (GameStats_init now)) ;;
  modify (fun self => set_stats (prepare_level 1 (stats self)) self) ;;
  _start_session.

(** [GameService._check_game_over_conditions] *)
Definition _check_game_over_conditions : Run GameService unit :=
  self <- get ;;
  if game_over self || level_complete self || all_levels_complete self
  then ret tt
  else
    current_time <- get_ticks ;;
    if (0 <? last_pedal_time (state (physics self)))%Z
       && (max_pedal_interval (physics self)
           <? current_time - last_pedal_time (state (physics self)))%Z
    then
      modify (set_game_over_reason "You stopped pedaling for too long!") ;;
      _end_game
    else if Qle_bool (get_stamina (physics self)) 0 then
      modify (set_game_over_reason "You ran out of stamina!") ;;
      _end_game
    else ret tt.

(** The cyclist stays at the fixed position once the start screen is
    left. *)
Definition hold_cyclist : Run GameService unit :=
  modify (fun self =>
            if negb (Background.is_on_start_screen (background_service self))
            then set_cyclist
                   (cyclist_at
                      (Background.get_cyclist_fixed_position
                         (background_service self))) self
            else self).

(** The second half of [GameService.update]: the cyclist's position by
    game phase. *)
Definition update_cyclist (dt : Q) : Run GameService unit :=
  self <- get ;;
  if level_complete self && negb (all_levels_complete self) then hold_cyclist
  else if all_levels_complete self then
    modify (fun self =>
              set_cyclist
                {| cyclist_x :=
                     cyclist_x (cyclist self)
                     + cyclist_exit_speed self * (dt / 1000.0);
                   cyclist_y := cyclist_y (cyclist self) |} self) ;;
    self <- get ;;
    if Qltb (inject_Z (screen_width self + 100)) (cyclist_x (cyclist self))
    then _end_game
    else ret tt
  else hold_cyclist.

(** [GameService.update], the tick of the simulation.  In its body
    [update dt current_time] is the engine's [Physics.update]. *)
Definition update (dt : Q) : Run GameService unit :=
  self <- get ;;
  if game_over self || paused self then ret tt
  else
    current_time <- get_ticks ;;
    if negb (level_complete self) then
      modify (fun self =>
                set_physics (update dt current_time (physics self)) self) ;;
      _check_game_over_conditions ;;
      self <- get ;;
      if game_over self then ret tt
      else
        modify (fun self =>
                  set_background_service
                    (Background.update dt (speed (state (physics self)))
                       (background_service self)) self) ;;
        _check_level_completion ;;
        update_cyclist dt
    else
      modify (fun self =>
                set_background_service
                  (Background.update dt 2.0 (background_service self)) self) ;;
      update_cyclist dt.

(** [GameService.handle_enter_key] *)
Definition handle_enter_key : Run GameService unit :=
  self <- get ;;
  if level_complete self && negb (all_levels_complete self) then
    if (current_level self <? 4)%Z then
      let next_level := (current_level self + 1)%Z in
      set_level next_level
    else modify (set_all_levels_complete true)
  else ret tt.

End Game.

(** ** Clients of the engine *)

(** One call of a public operation of [Physics]. *)
Inductive PhysicsCall :=
| call_reset
| call_handle_pedal (side : string) (current_time : Z)
| call_update (dt : Q) (current_time : Z)
| call_predict_speed_change (current_time : Z)
| call_predict_stamina_change (current_time : Z)
| call_get_curr_interval
| call_get_time_since_last_pedal (current_time : Z).

(** The engine after one call; the predictions and accessors assign
    nothing, their results are dropped. *)
Definition perform (self : Physics) (c : PhysicsCall) : Physics :=
  match c with
  | call_reset => reset self
  | call_handle_pedal side current_time => snd (handle_pedal side current_time self)
  | call_update dt current_time => update dt current_time self
  | call_predict_speed_change current_time =>
      let _ := predict_speed_change current_time self in self
  | call_predict_stamina_change current_time =>
      let _ := predict_stamina_change current_time self in self
  | call_get_curr_interval => let _ := get_curr_interval self in self
  | call_get_time_since_last_pedal current_time =>
      let _ := get_time_since_last_pedal current_time self in self
  end.

(** The engine after a sequence of calls, first call first. *)
Definition perform_all (calls : list PhysicsCall) (self : Physics) : Physics :=
  fold_left perform calls self.

(** The configuration attributes, which no method assigns after
    [__init__]. *)
Definition parameters (self : Physics) : Q * Q * Q * Q * Q * Z * Z * Q :=
  (max_speed self, min_speed self, min_moving_speed self, max_stamina self,
   min_stamina self, min_pedal_interval self, max_pedal_interval self,
   speed_at_0ms self).

(** An engine as [__init__] configures it, in any state. *)
Definition configured (self : Physics) : Prop :=
  parameters self = parameters (Physics_init 35.0).

(** Speed and stamina lie in their ranges. *)
Definition in_range (self : Physics) : Prop :=
  (min_speed self <= speed (state self) <= max_speed self)
  /\ (0 <= stamina (state self) <= max_stamina self).

(** ** Derived notions used in the statements *)

(** A sequence of ticks of the engine, each with its [dt] and clock
    reading. *)
Definition update_all (frames : list (Q * Z)) (self : Physics) : Physics :=
  fold_left (fun self frame => update (fst frame) (snd frame) self) frames self.

(** The timer of the current level is running: the level is not complete,
    a start time is recorded for it and [level_started] says so.  These
    are the conditions under which [_end_game] records an end time. *)
Definition timer_running (self : GameService) : bool :=
  negb (level_complete self)
  && Game.timer_recorded self
  && timer_started (current_level self) (stats self).

(** The service after [_end_game] when the clock, if it is read, reads
    [now]: [game_over] is set, and a running timer gets [now] as the end
    time of the current level. *)
Definition ended_service (now : Z) (self : GameService) : GameService :=
  if timer_running self
  then set_stats
         (set_level_end_times
            (<[current_level self := now]> (level_end_times (stats self)))
            (stats self))
         (set_game_over true self)
  else set_game_over true self.

(** The value of [get_current_level_time(level)] and of
    [get_total_time()] when the clock, if it is read, reads [now]. *)
Definition level_time_at (now : Z) (level : Z) (self : GameStats) : Q :=
  match level_start_times self !! level with
  | Some started_at =>
      if timer_started level self
      then inject_Z (default now (level_end_times self !! level) - started_at)
           / 1000.0
      else 0.0
  | None => 0.0
  end.

Definition total_time_at (now : Z) (self : GameService) : Q :=
  if negb (level_complete self) && Game.timer_recorded self
  then total_completion_time (stats self)
       + level_time_at now (current_level self) (stats self)
  else total_completion_time (stats self).

(** The time covered by a sequence of ticks, and the condition under which
    a tick at [now] does not find the last pedal too old. *)
Definition total_dt (frames : list (Q * Z)) : Q :=
  fold_right (fun frame total => fst frame + total) 0 frames.

Definition in_time (self : Physics) (frame : Q * Z) : Prop :=
  (0 < last_pedal_time (state self) ->
   snd frame - last_pedal_time (state self) <= max_pedal_interval self)%Z.

(** ** physics.py in floating point

    [__init__], [get_curr_interval] and the speed formula compute in
    binary64.  An [Arithmetic] gives the four operations as the machine
    delivers them; it is [accurate] to [u] when every operation whose
    exact result has a magnitude of at most 10^6 delivers that result up
    to an error of [u] times the larger of 1 and the magnitude.  Rounding
    the exact result to the nearest binary64, as IEEE 754 prescribes,
    does this for [u = 2^-53]; the numbers of the engine stay below
    110000.  Integers are converted to floats without error. *)
Record Arithmetic := mkArithmetic {
  fl_add : Q -> Q -> Q;
  fl_sub : Q -> Q -> Q;
  fl_mul : Q -> Q -> Q;
  fl_div : Q -> Q -> Q
}.

Definition accurate (u : Q) (fl : Arithmetic) : Prop :=
  forall x y,
    (Qabs (x + y) <= 1000000 ->
     Qabs (fl_add fl x y - (x + y)) <= u * Qmax 1 (Qabs (x + y)))
    /\ (Qabs (x - y) <= 1000000 ->
        Qabs (fl_sub fl x y - (x - y)) <= u * Qmax 1 (Qabs (x - y)))
    /\ (Qabs (x * y) <= 1000000 ->
        Qabs (fl_mul fl x y - x * y) <= u * Qmax 1 (Qabs (x * y)))
    /\ (~ y == 0 -> Qabs (x / y) <= 1000000 ->
        Qabs (fl_div fl x y - x / y) <= u * Qmax 1 (Qabs (x / y))).

(** The arithmetic of the rationals, which rounds nothing. *)
Definition exact_arithmetic : Arithmetic :=
  mkArithmetic Qplus Qminus Qmult Qdiv.

(** The unit roundoff of binary64, and an arithmetic whose division
    delivers its quotient one unit roundoff closer to zero. *)
Definition unit_roundoff : Q := 1 # 9007199254740992.

Definition chopped_division : Arithmetic :=
  mkArithmetic Qplus Qminus Qmult (fun x y => x / y * (1 - unit_roundoff)).

(** [Physics.__init__] in an arithmetic. *)
Definition Physics_init_in (fl : Arithmetic) (max_speed_arg : Q) : Physics :=
  let self_max_speed := max_speed_arg in
  let self_state := PhysicsState_default in
  let self_min_speed := 0.0 in
  let self_min_moving_speed := 1.0 in
  let self_max_speed := 35.0 in
  let self_max_stamina := 100.0 in
  let self_min_stamina := 0.0 in
  let self_min_pedal_interval := 150%Z in
  let self_max_pedal_interval := 3000%Z in
  let self_speed_at_0ms :=
    fl_add fl self_max_speed
      (fl_div fl
         (fl_mul fl self_max_speed (inject_Z self_min_pedal_interval))
         (inject_Z (self_max_pedal_interval - self_min_pedal_interval))) in
  {| max_speed := self_max_speed;
     state := self_state;
     min_speed := self_min_speed;
     min_moving_speed := self_min_moving_speed;
     max_stamina := self_max_stamina;
     min_stamina := self_min_stamina;
     min_pedal_interval := self_min_pedal_interval;
     max_pedal_interval := self_max_pedal_interval;
     speed_at_0ms := self_speed_at_0ms |}.

(** An engine as [__init__] configures it in the arithmetic, in any
    state. *)
Definition configured_in (fl : Arithmetic) (self : Physics) : Prop :=
  parameters self = parameters (Physics_init_in fl 35.0).

(** [Physics.get_curr_interval] in an arithmetic: [int()] truncates the
    quotient that the machine delivers. *)
Definition get_curr_interval_in (fl : Arithmetic) (self : Physics) : Z :=
  py_int
    (fl_div fl
       (fl_mul fl
          (fl_sub fl (speed_at_0ms self) (speed (state self)))
          (inject_Z (max_pedal_interval self - min_pedal_interval self)))
       (max_speed self)).

(** The speed formula of [predict_speed_change] in an arithmetic. *)
Definition speed_for_interval_in (fl : Arithmetic) (self : Physics)
  (new_interval : Z) : Q :=
  fl_sub fl (speed_at_0ms self)
    (fl_div fl
       (fl_mul fl (inject_Z new_interval) (max_speed self))
       (inject_Z (max_pedal_interval self - min_pedal_interval self))).

(** ** The formulas in the words of the specification *)

(** The stamina branches: [-0.075*diff + 15] when the pedal is late
    ([diff > 0]), [0.075*(diff + 200)] otherwise, truncated to an integer. *)
Definition stamina_branch (diff : Z) : Z :=
  if (0 <? diff)%Z
  then py_int (- 0.075 * inject_Z diff + 15)
  else py_int (0.075 * inject_Z (diff + 200)).

(** [predict_stamina_change] as the specification words it: 0 if never
    pedaled, -100 below the minimum interval, else the branch of
    [diff = interval - get_curr_interval()]. *)
Definition stamina_change_spec (now : Z) (self : Physics) : Z :=
  if (last_pedal_time (state self) =? 0)%Z then 0%Z
  else
    let interval := (now - last_pedal_time (state self))%Z in
    if (interval <? min_pedal_interval self)%Z then (-100)%Z
    else stamina_branch (interval - get_curr_interval self).

(** The speed formulas for a given [max_speed], with the interval bounds
    150 and 3000 of the engine. *)
Definition speed_at_zero_ms_for (max_speed : Q) : Q :=
  max_speed + max_speed * 150 / (3000 - 150).

Definition speed_for_interval_for (max_speed : Q) (interval : Z) : Q :=
  speed_at_zero_ms_for max_speed
  - inject_Z interval * max_speed / (3000 - 150).

Definition curr_interval_for (max_speed : Q) (current_speed : Q) : Z :=
  py_int ((speed_at_zero_ms_for max_speed - current_speed) * (3000 - 150)
          / max_speed).

(** ** physics_bars.py: what the bars compute from the engine

    The bars read the engine and draw.  Each function below returns the
    geometry that the method passes to [pygame.draw], [None] when the
    method returns without drawing; colours, fonts and the gradient are
    left out. *)

(** The attributes [x], [y], [width], [height] of a bar. *)
Record Bar := mkBar {
  bar_x : Z;
  bar_y : Z;
  bar_width : Z;
  bar_height : Z
}.

Module PedalSpeedBar.

(** [PedalSpeedBar._draw_sweet_spot_indicator]: the left edge and the
    width of the green rectangle. *)
Definition _draw_sweet_spot_indicator (self : Bar) (physics : Physics)
  : option (Q * Z) :=
  let expected_interval := get_curr_interval physics in
  let max_time := 3000%Z in
  let position_ratio := inject_Z expected_interval / inject_Z max_time in
  if Qltb 1.0 position_ratio then None
  else
    let rect_width := py_int ((100 / inject_Z max_time) * inject_Z (bar_width self)) in
    let rect_x :=
      inject_Z (bar_x self) + (position_ratio * inject_Z (bar_width self))
      - inject_Z (rect_width / 2) in
    let rect_x :=
      Qmax (inject_Z (bar_x self))
           (Qmin rect_x (inject_Z (bar_x self + bar_width self - rect_width))) in
    Some (rect_x, rect_width).

(** [PedalSpeedBar._draw_timing_line]: the abscissa of the white line. *)
Definition _draw_timing_line (self : Bar) (physics : Physics) (current_time : Z)
  : option Q :=
  if (last_pedal_time (state physics) =? 0)%Z then None
  else
    let time_since_last := get_time_since_last_pedal current_time physics in
    let max_time := (max_pedal_interval physics - min_pedal_interval physics)%Z in
    let line_position :=
      if (max_time <=? time_since_last)%Z then 1.0
      else inject_Z time_since_last / inject_Z max_time in
    let line_x := inject_Z (bar_x self) + (line_position * inject_Z (bar_width self)) in
    Some line_x.

End PedalSpeedBar.

Module StaminaBar.

(** The local [stamina_width] of [StaminaBar.draw]. *)
Definition stamina_width (self : Bar) (physics : Physics) : Z :=
  let current_stamina := get_stamina physics in
  let stamina_ratio := current_stamina / max_stamina physics in
  py_int (inject_Z (bar_width self) * stamina_ratio).

(** The local [new_stamina] of [StaminaBar._draw_prediction_line]. *)
Definition new_stamina (physics : Physics) (predicted_change : Z) : Q :=
  let current_stamina := get_stamina physics in
  Qmax 0 (Qmin (max_stamina physics) (current_stamina + inject_Z predicted_change)).

(** [StaminaBar._draw_prediction_line]: the abscissa of the line. *)
Definition _draw_prediction_line (self : Bar) (physics : Physics)
  (predicted_change : Z) : Z :=
  let new_ratio := new_stamina physics predicted_change / max_stamina physics in
  (bar_x self + py_int (inject_Z (bar_width self) * new_ratio))%Z.

(** The prediction line of [StaminaBar.draw], drawn when the predicted
    change is not 0. *)
Definition prediction_line (self : Bar) (physics : Physics) (current_time : Z)
  : option Z :=
  let predicted_change := predict_stamina_change current_time physics in
  if negb (predicted_change =? 0)%Z
  then Some (_draw_prediction_line self physics predicted_change)
  else None.

End StaminaBar.

(** ** game_state.py: the caller of the service *)

(** The key of a [pygame.KEYDOWN] event, as far as [handle_event]
    distinguishes keys, or an event of another type. *)
Inductive Event :=
| KEYDOWN_K_LEFT
| KEYDOWN_K_RIGHT
| KEYDOWN_K_RETURN
| KEYDOWN_K_KP_ENTER
| KEYDOWN_K_ESCAPE
| KEYDOWN_K_r
| KEYDOWN_K_m
| KEYDOWN_other
| other_event.

(** The attributes of a [GameState]. *)
Record GameState := mkGameState {
  game_service : GameService;
  next_state : option string
}.

(** A method of [self.game_service] called from a method of the state. *)
Definition on_service {A} (m : Run GameService A) : Run GameState A :=
  fun h self =>
    let r := m h (game_service self) in
    (result r, host_after r, mkGameState (after r) (next_state self)).

(** [GameState.__init__]: the service is constructed for level 1. *)
Definition GameState_init (screen_width screen_height : Z)
  (user : option string) (h : Host) : unit * Host * GameState :=
  let r := Game.init screen_width screen_height user 1 h in
  (tt, host_after r, mkGameState (after r) None).

(** [GameState.handle_event] *)
Definition GameState_handle_event (event : Event) : Run GameState unit :=
  match event with
  | KEYDOWN_K_LEFT => on_service (Game.handle_pedal_input "left") ;; ret tt
  | KEYDOWN_K_RIGHT => on_service (Game.handle_pedal_input "right") ;; ret tt
  | KEYDOWN_K_RETURN | KEYDOWN_K_KP_ENTER => on_service Game.handle_enter_key
  | KEYDOWN_K_ESCAPE => on_service Game.toggle_pause
  | KEYDOWN_K_r =>
      self <- get ;;
      if game_over (game_service self) then on_service Game.restart else ret tt
  | KEYDOWN_K_m =>
      modify (fun self => mkGameState (game_service self) (Some "menu"))
  | KEYDOWN_other | other_event => ret tt
  end.

(** [GameState.update] *)
Definition GameState_update (dt : Q) : Run GameState unit :=
  on_service (Game.update dt).

(** What the main loop feeds the state: an event, or a frame of [dt]
    milliseconds. *)
Inductive Input :=
| input_event (event : Event)
| input_frame (dt : Q).

Definition feed (input : Input) : Run GameState unit :=
  match input with
  | input_event event => GameState_handle_event event
  | input_frame dt => GameState_update dt
  end.

(** The state after a sequence of inputs, first input first. *)
Fixpoint play (inputs : list Input) : Run GameState unit :=
  match inputs with
  | [] => ret tt
  | input :: rest => feed input ;; play rest
  end.

(** The counters of the statistics, which the timers never touch. *)
Definition counters (self : GameStats) : Q * Z * Z * Z :=
  (max_speed_reached self, total_pedals self, successful_pedals self,
   start_time self).

(** What every service reached through [GameState] satisfies. *)
Definition sound (self : GameService) : Prop :=
  configured (physics self) /\ in_range (physics self)
  /\ (0 <= successful_pedals (stats self) <= total_pedals (stats self))%Z
  /\ speed (state (physics self)) <= max_speed_reached (stats self)
  /\ max_speed_reached (stats self) <= max_speed (physics self)
  /\ (all_levels_complete self = true -> level_complete self = true)
  /\ (game_over self = true ->
      level_complete self = false \/ all_levels_complete self = true).

(** What the constructor of the service fixes for good: the screen, the
    player, the exit speed of the cyclist, the dimensions and the speed
    multiplier of the background, and the parameters of the engine. *)
Definition settings (self : GameService)
  : Z * Z * option string * Q * (Z * Z * Q) * (Q * Q * Q * Q * Q * Z * Z * Q) :=
  (screen_width self, screen_height self, user self, cyclist_exit_speed self,
   (bg_screen_width (background_service self),
    bg_screen_height (background_service self),
    base_speed_multiplier (background_service self)),
   parameters (physics self)).

(** The state of the playing screen once it is constructed, and after the
    main loop has fed it a sequence of inputs. *)
Definition opened (screen_width screen_height : Z) (user : option string)
  (h : Host) : unit * Host * GameState :=
  GameState_init screen_width screen_height user h.

Definition played (screen_width screen_height : Z) (user : option string)
  (h : Host) (inputs : list Input) : unit * Host * GameState :=
  let r := opened screen_width screen_height user h in
  play inputs (host_after r) (after r).

(** The input is not the R key. *)
Definition not_restart (input : Input) : Prop :=
  input <> input_event KEYDOWN_K_r.

(** What the statistics know about the timers and the completed levels. *)
Definition timers (self : GameStats) : gmap Z bool * gmap Z Z * gset Z :=
  (level_started self, level_start_times self, completed_levels self).

(** The statistics keep up with the ride: a timer that is marked as
    started has a start time, the timer of the current level is started
    as soon as the engine has moved, and a level that is complete is
    among the completed levels. *)
Definition recorded (self : GameService) : Prop :=
  (forall level,
     timer_started level (stats self) = true ->
     is_Some (level_start_times (stats self) !! level))
  /\ (~ speed (state (physics self)) == 0
      \/ ~ distance_traveled (state (physics self)) == 0 ->
      timer_started (current_level self) (stats self) = true)
  /\ (level_complete self = true ->
      current_level self ∈ completed_levels (stats self)).

(** The input is a pedal key or a frame. *)
Definition pedal_or_frame (input : Input) : Prop :=
  match input with
  | input_event KEYDOWN_K_LEFT | input_event KEYDOWN_K_RIGHT
  | input_frame _ => True
  | _ => False
  end.

(** The input is neither Enter nor the R key, the two keys that set a
    level. *)
Definition keeps_level (input : Input) : Prop :=
  match input with
  | input_event KEYDOWN_K_RETURN | input_event KEYDOWN_K_KP_ENTER
  | input_event KEYDOWN_K_r => False
  | _ => True
  end.

(** ** timing_system.py: the rhythm bar *)

Module Timing.

Record PedalResult := mkPedalResult {
  success : bool;
  timing_quality : string;
  speed_change : Q;
  muscle_cost : Q;
  message : string
}.

Record TimingSystem := mkTimingSystem {
  screen_width : Z;
  bar_x : Z;
  bar_y : Z;
  bar_width : Z;
  bar_height : Z;
  timing_position : Q;
  timing_speed : Q;
  green_zone_size : Q;
  green_zone_center : Q;
  last_pedal_side : option string;
  last_pedal_time : Z;
  rhythm_tolerance_min : Z;
  rhythm_tolerance_max : Z
}.

Definition set_timing_position (v : Q) (self : TimingSystem) : TimingSystem :=
  mkTimingSystem (screen_width self) (bar_x self) (bar_y self) (bar_width self)
    (bar_height self) v (timing_speed self) (green_zone_size self)
    (green_zone_center self) (last_pedal_side self) (last_pedal_time self)
    (rhythm_tolerance_min self) (rhythm_tolerance_max self).

Definition set_green_zone_center (v : Q) (self : TimingSystem) : TimingSystem :=
  mkTimingSystem (screen_width self) (bar_x self) (bar_y self) (bar_width self)
    (bar_height self) (timing_position self) (timing_speed self)
    (green_zone_size self) v (last_pedal_side self) (last_pedal_time self)
    (rhythm_tolerance_min self) (rhythm_tolerance_max self).

Definition set_last_pedal_side (v : option string) (self : TimingSystem)
  : TimingSystem :=
  mkTimingSystem (screen_width self) (bar_x self) (bar_y self) (bar_width self)
    (bar_height self) (timing_position self) (timing_speed self)
    (green_zone_size self) (green_zone_center self) v (last_pedal_time self)
    (rhythm_tolerance_min self) (rhythm_tolerance_max self).

Definition set_last_pedal_time (v : Z) (self : TimingSystem) : TimingSystem :=
  mkTimingSystem (screen_width self) (bar_x self) (bar_y self) (bar_width self)
    (bar_height self) (timing_position self) (timing_speed self)
    (green_zone_size self) (green_zone_center self) (last_pedal_side self) v
    (rhythm_tolerance_min self) (rhythm_tolerance_max self).

(** [TimingSystem.__init__]: the clock is read once, for
    [last_pedal_time]. *)
Definition init (screen_width : Z) (h : Host) : unit * Host * TimingSystem :=
  (tt, clock_read h,
   {| screen_width := screen_width;
      bar_x := 50;
      bar_y := 20;
      bar_width := screen_width - 100;
      bar_height := 30;
      timing_position := 0.0;
      timing_speed := 0.01;
      green_zone_size := 0.03;
      green_zone_center := 0.5;
      last_pedal_side := None;
      last_pedal_time := ticks h (reads h);
      rhythm_tolerance_min := 200;
      rhythm_tolerance_max := 1200 |}).

(** [TimingSystem.update_green_zone] *)
Definition update_green_zone (current_speed max_speed : Q) (self : TimingSystem)
  : TimingSystem :=
  let speed_ratio := if Qltb 0 max_speed then current_speed / max_speed else 0 in
  set_green_zone_center (0.3 + speed_ratio * 0.6) self.

(** [TimingSystem.update] *)
Definition update (dt : Q) (self : TimingSystem) : TimingSystem :=
  let self :=
    set_timing_position (timing_position self + timing_speed self) self in
  if Qle_bool 1.0 (timing_position self) then set_timing_position 0.0 self
  else self.

(** [TimingSystem.attempt_pedal] *)
Definition attempt_pedal (side : string) (current_speed max_speed : Q)
  : Run TimingSystem PedalResult :=
  now <- get_ticks ;;
  self <- get ;;
  if match last_pedal_side self with
     | Some last => String.eqb last side
     | None => false
     end
  then ret {| success := false; timing_quality := "miss"; speed_change := 0.0;
              muscle_cost := 0.0;
              message := "Must alternate left/right pedals!" |}
  else
    let hit : Run TimingSystem PedalResult :=
      modify (set_last_pedal_side (Some side)) ;;
      modify (set_last_pedal_time now) ;;
      self <- get ;;
      let distance_from_green :=
        Qabs (timing_position self - green_zone_center self) in
      if Qle_bool distance_from_green (green_zone_size self / 2) then
        ret {| success := true; timing_quality := "perfect";
               speed_change := 3.0; muscle_cost := - 0.2;
               message := "Perfect!" |}
      else if Qle_bool distance_from_green (green_zone_size self) then
        ret {| success := true; timing_quality := "good"; speed_change := 2.0;
               muscle_cost := 0.1; message := "Good!" |}
      else if Qltb (timing_position self) (green_zone_center self) then
        ret {| success := true; timing_quality := "bad";
               speed_change := distance_from_green * 8;
               muscle_cost := distance_from_green * 1.2;
               message := "Early! Speed up!" |}
      else
        ret {| success := true; timing_quality := "bad";
               speed_change := - distance_from_green * 6;
               muscle_cost := distance_from_green * 0.8;
               message := "Late! Slow down!" |} in
    match last_pedal_side self with
    | Some _ =>
        let time_since_last := (now - last_pedal_time self)%Z in
        if (time_since_last <? rhythm_tolerance_min self)%Z then
          ret {| success := false; timing_quality := "miss";
                 speed_change := - 5.0; muscle_cost := 0.5;
                 message := "Too fast! Maintain rhythm!" |}
        else if (rhythm_tolerance_max self <? time_since_last)%Z then
          ret {| success := false; timing_quality := "miss";
                 speed_change := - 8.0; muscle_cost := 0.8;
                 message := "Too slow! Keep up the pace!" |}
        else hit
    | None => hit
    end.

(** What a client can call on the rhythm bar. *)
Inductive Call :=
| call_attempt_pedal (side : string) (current_speed max_speed : Q)
| call_update (dt : Q)
| call_update_green_zone (current_speed max_speed : Q).

(** A sequence of calls, first call first: the attempts made, each with
    its side, its clock reading and its result. *)
Fixpoint attempts (calls : list Call)
  : Run TimingSystem (list (string * Z * PedalResult)) :=
  match calls with
  | [] => ret []
  | call_attempt_pedal side current_speed max_speed :: rest =>
      fun h self =>
        let r := attempt_pedal side current_speed max_speed h self in
        let later := attempts rest (host_after r) (after r) in
        ((side, ticks h (reads h), result r) :: result later,
         host_after later, after later)
  | call_update dt :: rest => fun h self => attempts rest h (update dt self)
  | call_update_green_zone current_speed max_speed :: rest =>
      fun h self => attempts rest h (update_green_zone current_speed max_speed self)
  end.

(** Every successful attempt of the list is on the other side than the
    successful attempt before it, or than [previous], and comes between
    [lo] and [hi] milliseconds after it. *)
Fixpoint in_rhythm (lo hi : Z) (previous : option (string * Z))
  (made : list (string * Z * PedalResult)) : Prop :=
  match made with
  | [] => True
  | (side, now, r) :: rest =>
      if success r then
        match previous with
        | Some (last, at_time) =>
            last <> side /\ (lo <= now - at_time <= hi)%Z
        | None => True
        end
        /\ in_rhythm lo hi (Some (side, now)) rest
      else in_rhythm lo hi previous rest
  end.

(** The green zone is asked for a speed between 0 and the maximum. *)
Definition speed_in_range (c : Call) : Prop :=
  match c with
  | call_update_green_zone current_speed max_speed =>
      0 <= current_speed <= max_speed
  | _ => True
  end.

End Timing.

(** ** Traces of the engine's clients *)

(** The sides of the pedals that [handle_pedal] accepts along a sequence
    of calls, in order. *)
Fixpoint accepted_sides (calls : list PhysicsCall) (self : Physics)
  : list string :=
  match calls with
  | [] => []
  | c :: rest =>
      match c with
      | call_handle_pedal side current_time =>
          if fst (handle_pedal side current_time self)
          then side :: accepted_sides rest (perform self c)
          else accepted_sides rest (perform self c)
      | _ => accepted_sides rest (perform self c)
      end
  end.

(** No two neighbours of the list are equal, and its head differs from
    [previous] when there is one. *)
Fixpoint alternates (previous : option string) (sides : list string) : Prop :=
  match sides with
  | [] => True
  | side :: rest => previous <> Some side /\ alternates (Some side) rest
  end.

(** The sequence calls no [reset]. *)
Definition without_reset (calls : list PhysicsCall) : Prop :=
  Forall (fun c => c <> call_reset) calls.

(** Every [update] of the sequence has a frame time [dt >= 0]. *)
Definition forward_in_time (calls : list PhysicsCall) : Prop :=
  Forall (fun c => match c with
                   | call_update dt _ => 0 <= dt
                   | _ => True
                   end) calls.

(** * Properties of the physics engine *)

Lemma clamp_bounds (lo hi x : Q) :
  lo <= hi -> lo <= Qmin (Qmax lo x) hi <= hi.
Proof.
  intros Hle.
  destruct (Q.max_spec lo x) as [[? Hm] | [? Hm]];
    destruct (Q.min_spec (Qmax lo x) hi) as [[? Hn] | [? Hn]];
    rewrite Hn; try rewrite Hm; lra.
Qed.

Lemma configured_init (max_speed_arg : Q) : configured (Physics_init max_speed_arg).
Proof. reflexivity. Qed.

Lemma configured_fields (self : Physics) :
  configured self ->
  max_speed self = 35.0 /\ min_speed self = 0.0 /\ min_moving_speed self = 1.0
  /\ max_stamina self = 100.0 /\ min_stamina self = 0.0
  /\ min_pedal_interval self = 150%Z /\ max_pedal_interval self = 3000%Z
  /\ speed_at_0ms self = speed_at_0ms (Physics_init 35.0).
Proof.
  unfold configured, parameters. intros H. injection H. intros. tauto.
Qed.

Lemma handle_pedal_parameters side t self :
  parameters (snd (handle_pedal side t self)) = parameters self.
Proof.
  unfold handle_pedal.
  destruct (match last_pedal_side (state self) with
            | Some last => String.eqb side last | None => false end);
    [reflexivity |].
  destruct (0 <? last_pedal_time (state self))%Z; reflexivity.
Qed.

Lemma update_parameters dt t self : parameters (update dt t self) = parameters self.
Proof.
  unfold update.
  destruct (_ && _); [reflexivity |].
  destruct (Qltb _ _); reflexivity.
Qed.

Lemma perform_parameters self c : parameters (perform self c) = parameters self.
Proof.
  destruct c; simpl; auto using handle_pedal_parameters, update_parameters.
Qed.

Lemma perform_configured self c : configured self -> configured (perform self c).
Proof. unfold configured. now rewrite perform_parameters. Qed.

Lemma handle_pedal_in_range side t self :
  configured self -> in_range self -> in_range (snd (handle_pedal side t self)).
Proof.
  intros Hc Hr. apply configured_fields in Hc.
  destruct Hc as (Hms & Hmin & Hmov & Hmst & Hmins & _).
  unfold handle_pedal.
  destruct (match last_pedal_side (state self) with
            | Some last => String.eqb side last | None => false end);
    [exact Hr |].
  unfold in_range in *.
  destruct (0 <? last_pedal_time (state self))%Z; simpl.
  - rewrite Hms, Hmin, Hmst, Hmins. split.
    + apply clamp_bounds. lra.
    + match goal with
      | |- _ <= Qmin (Qmax ?lo ?x) ?hi <= _ =>
          pose proof (clamp_bounds lo hi x); lra
      end.
  - rewrite Hms, Hmin, Hmov, Hmst in *. split; [lra | tauto].
Qed.

Lemma update_in_range dt t self :
  configured self -> in_range self -> in_range (update dt t self).
Proof.
  intros Hc Hr. apply configured_fields in Hc.
  destruct Hc as (Hms & Hmin & Hmov & Hmst & Hmins & _).
  unfold update, in_range in *.
  destruct (_ && _); simpl.
  - rewrite Hmins, Hmst. split; [tauto | lra].
  - destruct (Qltb _ _); simpl; exact Hr.
Qed.

Lemma reset_in_range self : configured self -> in_range (reset self).
Proof.
  intros Hc. apply configured_fields in Hc.
  destruct Hc as (Hms & Hmin & Hmov & Hmst & Hmins & _).
  unfold in_range, reset. simpl. rewrite Hms, Hmin, Hmst. lra.
Qed.

Lemma perform_in_range self c :
  configured self -> in_range self -> in_range (perform self c).
Proof.
  intros Hc Hr.
  destruct c; simpl; auto using reset_in_range, handle_pedal_in_range, update_in_range.
Qed.

Lemma perform_all_invariant calls self :
  configured self -> in_range self ->
  configured (perform_all calls self) /\ in_range (perform_all calls self).
Proof.
  revert self. induction calls as [| c calls IH]; intros self Hc Hr; simpl.
  - split; assumption.
  - apply IH; [now apply perform_configured | now apply perform_in_range].
Qed.

Lemma init_in_range (max_speed_arg : Q) : in_range (Physics_init max_speed_arg).
Proof. unfold in_range. simpl. lra. Qed.

(** C2.  After any sequence of calls of [reset], [handle_pedal], [update]
    and the predictions and accessors on a freshly constructed engine,
    the speed lies in [[min_speed, max_speed]] and the stamina in
    [[0, max_stamina]]. *)
Theorem speed_and_stamina_stay_clamped
  (max_speed_arg : Q) (calls : list PhysicsCall) :
  let self := perform_all calls (Physics_init max_speed_arg) in
  (min_speed self <= speed (state self) <= max_speed self)
  /\ (0 <= stamina (state self) <= max_stamina self).
Proof.
  apply (perform_all_invariant calls (Physics_init max_speed_arg)).
  - apply configured_init.
  - apply init_in_range.
Qed.

Lemma py_int_comp (x y : Q) : x == y -> py_int x = py_int y.
Proof.
  intros H. unfold py_int. rewrite (Qleb_comp 0 0 (Qeq_refl 0) x y H).
  destruct (Qle_bool 0 y); [now apply Qfloor_comp | now apply Qceiling_comp].
Qed.

(** C3.  A pedal on the side recorded in [last_pedal_side] is rejected
    and the engine is left exactly as it was. *)
Theorem same_side_pedal_rejected (self : Physics) (side : string) (t : Z) :
  last_pedal_side (state self) = Some side ->
  handle_pedal side t self = (false, self).
Proof.
  intros H. unfold handle_pedal. rewrite H, String.eqb_refl. reflexivity.
Qed.

(** Scenario B: Left at 0 is accepted, Left at 400 is rejected and the
    engine equals the one after the first pedal. *)
Lemma same_side_pedal_rejected_scenario_B :
  let first := handle_pedal "left" 0 (Physics_init 25) in
  fst first = true
  /\ last_pedal_side (state (snd first)) = Some "left"
  /\ handle_pedal "left" 400 (snd first) = (false, snd first).
Proof.
  split; [reflexivity |]. split; [reflexivity |].
  apply (same_side_pedal_rejected
           (snd (handle_pedal "left" 0 (Physics_init 25))) "left" 400).
  reflexivity.
Defined.

(** The two branches of the code, written with [3 / 40.0], are the
    branches of the specification, written with [0.075]. *)
Lemma stamina_branch_code (diff : Z) :
  (if (0 <? diff)%Z
   then py_int (-3 / 40.0 * inject_Z diff + 15)
   else py_int (3 / 40.0 * inject_Z (diff + 200)))
  = stamina_branch diff.
Proof.
  unfold stamina_branch. destruct (0 <? diff)%Z; apply py_int_comp; field.
Qed.

Lemma predict_stamina_change_unfolded (now : Z) (self : Physics) :
  predict_stamina_change now self
  = if (last_pedal_time (state self) =? 0)%Z then 0%Z
    else if (now - last_pedal_time (state self) <? min_pedal_interval self)%Z
         then (-100)%Z
         else stamina_branch
                (now - last_pedal_time (state self) - get_curr_interval self).
Proof.
  unfold predict_stamina_change.
  destruct (last_pedal_time (state self) =? 0)%Z; [reflexivity |].
  destruct (now - last_pedal_time (state self) <? min_pedal_interval self)%Z;
    [reflexivity |].
  apply stamina_branch_code.
Qed.

(** C4.  [predict_stamina_change] computes what the specification says:
    0 if never pedaled, -100 for an interval below [min_pedal_interval],
    and otherwise, with [diff = interval - get_curr_interval()],
    [-0.075*diff + 15] when [diff > 0] and [0.075*(diff + 200)] when
    [diff <= 0], truncated to an integer. *)
Theorem predict_stamina_change_formula (now : Z) (self : Physics) :
  predict_stamina_change now self = stamina_change_spec now self.
Proof.
  rewrite predict_stamina_change_unfolded. reflexivity.
Qed.

(** Scenario C as the specification runs it, Left at 0 then Right at 900:
    the first pedal leaves [last_pedal_time] at 0, so the second one is
    handled as a first pedal and neither formula is applied; speed and
    stamina do not change at all. *)
Lemma scenario_C_at_time_zero_applies_no_formula :
  let self1 := snd (handle_pedal "left" 0 (Physics_init 25)) in
  let self2 := snd (handle_pedal "right" 900 self1) in
  speed (state self2) - speed (state self1) == 0
  /\ stamina (state self2) - stamina (state self1) == 0
  /\ ~ (speed (state self2) - speed (state self1)
        == speed_for_interval_for 25 900 - speed (state self1))
  /\ ~ (stamina (state self2) - stamina (state self1)
        == inject_Z (stamina_branch
                       (900 - curr_interval_for 25 (speed (state self1)))))
  /\ ~ (speed (state self2) - speed (state self1)
        == speed_for_interval self1 900 - speed (state self1))
  /\ ~ (stamina (state self2) - stamina (state self1)
        == inject_Z (stamina_branch (900 - get_curr_interval self1))).
Proof.
  cbv zeta.
  repeat split; try reflexivity; intros H; vm_compute in H; discriminate H.
Qed.

(** Away from time 0 the formulas are applied and then clamped: after
    Left at 1000 and Right at 1900 the branch formula gives -136, and the
    stamina goes from 100 to 0. *)
Lemma scenario_C_stamina_is_clamped :
  let self1 := snd (handle_pedal "left" 1000 (Physics_init 25)) in
  let self2 := snd (handle_pedal "right" 1900 self1) in
  get_curr_interval self1 = 2918%Z
  /\ stamina_branch (900 - get_curr_interval self1) = (-136)%Z
  /\ stamina (state self2) - stamina (state self1) == -100
  /\ speed (state self2) - speed (state self1)
     == speed_for_interval self1 900 - speed (state self1).
Proof.
  cbv zeta. split; [reflexivity |]. split; [reflexivity |].
  split; reflexivity.
Qed.

(** The argument of the constructor does not reach the [max_speed]
    attribute: the later assignment of 35.0 replaces it. *)
Lemma constructor_argument_is_overwritten (max_speed_arg : Q) :
  max_speed (Physics_init max_speed_arg) = 35.0
  /\ speed_at_0ms (Physics_init max_speed_arg) == speed_at_zero_ms_for 35.
Proof. split; reflexivity. Qed.

Lemma first_pedal_engine (side : string) (t : Z) (max_speed_arg : Q) :
  handle_pedal side t (Physics_init max_speed_arg)
  = (true,
     set_last_pedal_time t
       (set_last_pedal_side (Some side)
          (set_speed 1.0 (Physics_init max_speed_arg)))).
Proof. reflexivity. Qed.

(** A pedal on the other side, [interval] milliseconds after a recorded
    pedal at a non-zero time and not below the minimum interval, applies
    both prediction formulas and clamps the results. *)
Lemma handle_pedal_after_interval (self : Physics) (side : string) (interval : Z) :
  (0 < last_pedal_time (state self))%Z ->
  (min_pedal_interval self <= interval)%Z ->
  match last_pedal_side (state self) with
  | Some last => String.eqb side last = false
  | None => True
  end ->
  let r := handle_pedal side (last_pedal_time (state self) + interval) self in
  fst r = true
  /\ speed (state (snd r))
     = Qmin (Qmax (min_speed self)
                  (speed (state self)
                   + (speed_for_interval self interval - speed (state self))))
            (max_speed self)
  /\ stamina (state (snd r))
     = Qmin (Qmax (min_stamina self)
                  (stamina (state self)
                   + inject_Z (stamina_branch (interval - get_curr_interval self))))
            (max_stamina self).
Proof.
  intros Hpos Hmin Hside. cbv zeta. unfold handle_pedal.
  assert (Hs : match last_pedal_side (state self) with
               | Some last => String.eqb side last
               | None => false
               end = false).
  { destruct (last_pedal_side (state self)); [exact Hside | reflexivity]. }
  rewrite Hs.
  assert (Hp : (0 <? last_pedal_time (state self))%Z = true) by (apply Z.ltb_lt; lia).
  rewrite Hp. rewrite predict_stamina_change_unfolded.
  unfold predict_speed_change.
  assert (Hz : (last_pedal_time (state self) =? 0)%Z = false) by (apply Z.eqb_neq; lia).
  rewrite Hz.
  replace (last_pedal_time (state self) + interval - last_pedal_time (state self))%Z
    with interval by lia.
  assert (Hi : (interval <? min_pedal_interval self)%Z = false) by (apply Z.ltb_ge; lia).
  rewrite Hi. simpl. repeat split; reflexivity.
Qed.

(** C1, as the code has it.  With the engine constructed with
    [max_speed=25], a Left pedal at a non-zero time [t0] followed by a
    Right pedal 900 ms later is accepted; the speed becomes the clamp of
    [speed + (speed_for_interval(900) - speed)] and the stamina the clamp
    of [stamina + branch(900 - get_curr_interval())], both formulas
    reading the engine's own [max_speed] and [speed_at_0ms] attributes. *)
Theorem scenario_C_after_a_nonzero_first_pedal (t0 : Z) :
  (0 < t0)%Z ->
  let self1 := snd (handle_pedal "left" t0 (Physics_init 25)) in
  let r := handle_pedal "right" (t0 + 900) self1 in
  fst r = true
  /\ speed (state (snd r))
     = Qmin (Qmax (min_speed self1)
                  (speed (state self1)
                   + (speed_for_interval self1 900 - speed (state self1))))
            (max_speed self1)
  /\ stamina (state (snd r))
     = Qmin (Qmax (min_stamina self1)
                  (stamina (state self1)
                   + inject_Z (stamina_branch (900 - get_curr_interval self1))))
            (max_stamina self1).
Proof.
  intros Ht0. rewrite first_pedal_engine. cbv zeta.
  apply (handle_pedal_after_interval
           (snd (true,
                 set_last_pedal_time t0
                   (set_last_pedal_side (Some "left")
                      (set_speed 1.0 (Physics_init 25)))))
           "right" 900).
  - simpl. exact Ht0.
  - simpl. lia.
  - reflexivity.
Qed.

Lemma scenario_C_after_a_nonzero_first_pedal_at_1000 :
  (0 < 1000)%Z
  /\ let self1 := snd (handle_pedal "left" 1000 (Physics_init 25)) in
     let r := handle_pedal "right" (1000 + 900) self1 in
     fst r = true
     /\ speed (state (snd r))
        = Qmin (Qmax (min_speed self1)
                     (speed (state self1)
                      + (speed_for_interval self1 900 - speed (state self1))))
               (max_speed self1)
     /\ stamina (state (snd r))
        = Qmin (Qmax (min_stamina self1)
                     (stamina (state self1)
                      + inject_Z (stamina_branch (900 - get_curr_interval self1))))
               (max_stamina self1).
Proof.
  split; [lia |].
  apply (scenario_C_after_a_nonzero_first_pedal 1000). lia.
Defined.

(** After a first pedal the speed is 1.0 and [get_curr_interval()] is
    2918 (truncated from 2918.57...); the speed formula at 2918 gives
    1 + 2/285, about 0.007 above the current speed. *)
Lemma round_trip_off_after_first_pedal :
  let self := perform_all [call_handle_pedal "left" 0] (Physics_init 25) in
  speed (state self) == 1
  /\ get_curr_interval self = 2918%Z
  /\ speed_for_interval self (get_curr_interval self) - speed (state self)
     == 2 / 285
  /\ ~ (speed_for_interval self (get_curr_interval self) - speed (state self)
        <= 1 / 1000).
Proof.
  cbv zeta. repeat split; try reflexivity.
  intros H. vm_compute in H. apply H. reflexivity.
Qed.

Lemma py_int_nonneg (x : Q) : 0 <= x -> py_int x = Qfloor x.
Proof.
  intros H. unfold py_int. apply Qle_bool_iff in H. now rewrite H.
Qed.

(** In the arithmetic of the rationals the speed formula undoes
    [get_curr_interval] up to the truncation of the interval to whole
    milliseconds, and stays strictly below one millisecond's worth of
    slope above the speed. *)
Lemma round_trip_configured (self : Physics) :
  configured self -> in_range self ->
  speed (state self) <= speed_for_interval self (get_curr_interval self)
  /\ speed_for_interval self (get_curr_interval self)
     < speed (state self)
       + max_speed self
         / inject_Z (max_pedal_interval self - min_pedal_interval self).
Proof.
  intros Hc Hr. apply configured_fields in Hc.
  destruct Hc as (Hms & Hmin & _ & _ & _ & Hlo & Hhi & H0).
  destruct Hr as [[Hs1 Hs2] _].
  unfold speed_for_interval, get_curr_interval.
  rewrite Hms, Hlo, Hhi, H0 in *. rewrite Hmin in Hs1.
  set (v := speed (state self)) in *.
  set (x := (speed_at_0ms (Physics_init 35.0) - v) * inject_Z (3000 - 150) / 35.0).
  assert (Hx : x == (570 # 7) * ((700 # 19) - v)).
  { unfold x. simpl. change (3000 - 150)%Z with 2850%Z. unfold inject_Z. field. }
  assert (Hx0 : 0 <= x) by (rewrite Hx; lra).
  rewrite (py_int_nonneg x Hx0).
  pose proof (Qfloor_le x) as Hfl.
  pose proof (Qlt_floor x) as Hfu.
  replace (inject_Z (Qfloor x + 1)) with (inject_Z (Qfloor x) + 1) in Hfu
    by (rewrite inject_Z_plus; reflexivity).
  set (n := inject_Z (Qfloor x)) in *.
  simpl. change (3000 - 150)%Z with 2850%Z. unfold inject_Z.
  assert (E : 35.0 + 35.0 * (150 # 1) / (2850 # 1) - n * 35.0 / (2850 # 1)
              == (700 # 19) - (7 # 570) * n) by field.
  assert (E' : 35.0 / (2850 # 1) == 7 # 570) by reflexivity.
  rewrite E, E'. split; lra.
Qed.

(** ** The round trip in floating point *)

(** With the arithmetic of the rationals the definitions above are the
    idealised ones. *)
Lemma exact_arithmetic_is_the_idealisation (self : Physics) (interval : Z)
  (max_speed_arg : Q) :
  Physics_init_in exact_arithmetic max_speed_arg = Physics_init max_speed_arg
  /\ get_curr_interval_in exact_arithmetic self = get_curr_interval self
  /\ speed_for_interval_in exact_arithmetic self interval
     = speed_for_interval self interval.
Proof. repeat split. Qed.

Lemma accurate_within (u bound exact computed : Q) :
  0 <= u ->
  (Qabs exact <= 1000000 ->
   Qabs (computed - exact) <= u * Qmax 1 (Qabs exact)) ->
  1 <= bound <= 1000000 ->
  - bound <= exact <= bound ->
  exact - u * bound <= computed <= exact + u * bound.
Proof.
  intros Hu Hacc [Hb1 Hb2] Hb.
  assert (Habs : Qabs exact <= bound) by now apply Qabs_Qle_condition.
  assert (Hmax : Qmax 1 (Qabs exact) <= bound) by now apply Q.max_lub.
  pose proof (Qmult_le_compat_r _ _ u Hmax Hu) as Hprod.
  assert (Hsmall : Qabs exact <= 1000000) by lra.
  apply Hacc in Hsmall. apply Qabs_Qle_condition in Hsmall. lra.
Qed.

Lemma exact_within (u exact : Q) :
  0 <= u -> Qabs (exact - exact) <= u * Qmax 1 (Qabs exact).
Proof.
  intros Hu. apply Qabs_Qle_condition.
  assert (Hpos : 0 <= Qmax 1 (Qabs exact)).
  { apply Qle_trans with 1; [lra | apply Q.le_max_l]. }
  pose proof (Qmult_le_0_compat _ _ Hu Hpos). lra.
Qed.

Lemma exact_arithmetic_accurate (u : Q) : 0 <= u -> accurate u exact_arithmetic.
Proof.
  intros Hu x y.
  split; [intros _; exact (exact_within u (x + y) Hu) |].
  split; [intros _; exact (exact_within u (x - y) Hu) |].
  split; [intros _; exact (exact_within u (x * y) Hu) |].
  intros _ _. exact (exact_within u (x / y) Hu).
Qed.

Lemma chopped_division_accurate : accurate unit_roundoff chopped_division.
Proof.
  assert (Hu : 0 <= unit_roundoff) by (unfold unit_roundoff; lra).
  intros x y.
  split; [intros _; exact (exact_within _ (x + y) Hu) |].
  split; [intros _; exact (exact_within _ (x - y) Hu) |].
  split; [intros _; exact (exact_within _ (x * y) Hu) |].
  intros _ _. cbn [fl_div chopped_division]. set (z := x / y).
  apply Qabs_Qle_condition.
  pose proof (Qle_Qabs z) as Hz.
  pose proof (Qle_Qabs (- z)) as Hz'. rewrite Qabs_opp in Hz'.
  pose proof (Q.le_max_r 1 (Qabs z)) as Hm.
  unfold unit_roundoff in *. lra.
Qed.

Lemma configured_in_fields (fl : Arithmetic) (self : Physics) :
  configured_in fl self ->
  max_speed self = 35.0 /\ min_speed self = 0.0
  /\ min_pedal_interval self = 150%Z /\ max_pedal_interval self = 3000%Z
  /\ speed_at_0ms self
     = fl_add fl 35.0 (fl_div fl (fl_mul fl 35.0 (inject_Z 150)) (inject_Z 2850)).
Proof.
  unfold configured_in, parameters. intros H.
  injection H as H1 H2 H3 H4 H5 H6 H7 H8. auto.
Qed.

(** The round trip with an engine configured as above and a speed between
    0 and 35, spelled out on the numbers of the engine. *)
Lemma round_trip_in (fl : Arithmetic) (u v : Q) :
  0 <= u <= 1 # 1000000 -> accurate u fl -> 0 <= v <= 35 ->
  let a := fl_add fl 35.0 (fl_div fl (fl_mul fl 35.0 (inject_Z 150)) (inject_Z 2850)) in
  let quotient := fl_div fl (fl_mul fl (fl_sub fl a v) (inject_Z 2850)) 35.0 in
  let back :=
    fl_sub fl a
      (fl_div fl (fl_mul fl (inject_Z (py_int quotient)) 35.0) (inject_Z 2850)) in
  v - 400 * u <= back /\ back <= v + (7 # 570) + 400 * u.
Proof.
  intros [Hu0 Hu1] Hacc [Hv0 Hv1]. cbv zeta.
  assert (Hd : ~ inject_Z 2850 == 0) by (intros H; discriminate H).
  assert (Hd' : ~ 35.0 == 0) by (intros H; discriminate H).
  (* speed_at_0ms *)
  set (p := fl_mul fl 35.0 (inject_Z 150)).
  destruct (Hacc 35.0 (inject_Z 150)) as (_ & _ & Hp & _). fold p in Hp.
  set (e1 := 35.0 * inject_Z 150) in Hp.
  assert (E1 : e1 == 5250) by reflexivity.
  apply (accurate_within u 5250) in Hp; [| exact Hu0 | lra | lra].
  set (t := fl_div fl p (inject_Z 2850)).
  destruct (Hacc p (inject_Z 2850)) as (_ & _ & _ & Ht). specialize (Ht Hd).
  fold t in Ht. set (e2 := p / inject_Z 2850) in Ht.
  assert (E2 : e2 == p * (1 # 2850)) by reflexivity.
  apply (accurate_within u 2) in Ht; [| exact Hu0 | lra | lra].
  set (a := fl_add fl 35.0 t).
  destruct (Hacc 35.0 t) as (Ha & _). fold a in Ha.
  set (e3 := 35.0 + t) in Ha.
  apply (accurate_within u 37) in Ha; [| exact Hu0 | lra | unfold e3; lra].
  (* get_curr_interval *)
  set (x := fl_sub fl a v).
  destruct (Hacc a v) as (_ & Hx & _). fold x in Hx.
  set (e4 := a - v) in Hx.
  apply (accurate_within u 37) in Hx;
    [| exact Hu0 | lra | unfold e3, e4 in *; lra].
  set (y := fl_mul fl x (inject_Z 2850)).
  destruct (Hacc x (inject_Z 2850)) as (_ & _ & Hy & _). fold y in Hy.
  set (e5 := x * inject_Z 2850) in Hy.
  assert (E5 : e5 == x * 2850) by reflexivity.
  apply (accurate_within u 106000) in Hy;
    [| exact Hu0 | lra | unfold e3, e4 in *; lra].
  set (q := fl_div fl y 35.0).
  destruct (Hacc y 35.0) as (_ & _ & _ & Hq). specialize (Hq Hd').
  fold q in Hq. set (e6 := y / 35.0) in Hq.
  assert (E6 : e6 == y * (1 # 35)) by (unfold e6; field).
  apply (accurate_within u 3100) in Hq;
    [| exact Hu0 | lra | unfold e3, e4 in *; lra].
  assert (Hq0 : 0 <= q) by (unfold e3, e4 in *; lra).
  rewrite (py_int_nonneg q Hq0).
  pose proof (Qfloor_le q) as Hfl.
  pose proof (Qlt_floor q) as Hfu.
  replace (inject_Z (Qfloor q + 1)) with (inject_Z (Qfloor q) + 1) in Hfu
    by (rewrite inject_Z_plus; reflexivity).
  set (n := inject_Z (Qfloor q)) in *.
  (* the speed formula *)
  set (m := fl_mul fl n 35.0).
  destruct (Hacc n 35.0) as (_ & _ & Hm & _). fold m in Hm.
  set (e7 := n * 35.0) in Hm.
  apply (accurate_within u 106000) in Hm;
    [| exact Hu0 | lra | unfold e3, e4, e7 in *; lra].
  set (r := fl_div fl m (inject_Z 2850)).
  destruct (Hacc m (inject_Z 2850)) as (_ & _ & _ & Hr). specialize (Hr Hd).
  fold r in Hr. set (e8 := m / inject_Z 2850) in Hr.
  assert (E8 : e8 == m * (1 # 2850)) by reflexivity.
  apply (accurate_within u 38) in Hr;
    [| exact Hu0 | lra | unfold e3, e4, e7 in *; lra].
  set (s := fl_sub fl a r).
  destruct (Hacc a r) as (_ & Hs & _). fold s in Hs.
  set (e9 := a - r) in Hs.
  apply (accurate_within u 37) in Hs;
    [| exact Hu0 | lra | unfold e3, e4, e7, e9 in *; lra].
  unfold e3, e4, e7, e9 in *. split; lra.
Qed.

(** C6, as the code has it.  For an engine configured by [__init__] in
    a floating-point arithmetic accurate to [u], in any state whose speed
    lies in [[min_speed, max_speed]] (as the clamp of [handle_pedal]
    keeps it in every reachable state), the speed formula applied to
    [get_curr_interval()] gives back the current speed up to one
    millisecond's worth of slope,
    [max_speed / (max_pedal_interval - min_pedal_interval)], above it, and
    up to a rounding tolerance of [400 * u] on either side:
    [get_curr_interval] truncates the interval to an integer, and the
    quotient it truncates may have been rounded to just below one. *)
Theorem round_trip_up_to_truncation_and_rounding
  (fl : Arithmetic) (u : Q) (self : Physics) :
  0 <= u <= 1 # 1000000 -> accurate u fl -> configured_in fl self ->
  min_speed self <= speed (state self) <= max_speed self ->
  let interval := get_curr_interval_in fl self in
  speed (state self) - 400 * u <= speed_for_interval_in fl self interval
  /\ speed_for_interval_in fl self interval
     <= speed (state self)
        + max_speed self
          / inject_Z (max_pedal_interval self - min_pedal_interval self)
        + 400 * u.
Proof.
  intros Hu Hacc Hc Hv. cbv zeta.
  destruct (configured_in_fields fl self Hc) as (Hms & Hmin & Hlo & Hhi & H0).
  unfold speed_for_interval_in, get_curr_interval_in.
  rewrite Hms, Hmin, Hlo, Hhi, H0 in *.
  change (3000 - 150)%Z with 2850%Z.
  assert (E : 35.0 / inject_Z 2850 == 7 # 570) by reflexivity.
  rewrite E.
  apply (round_trip_in fl u (speed (state self)) Hu Hacc). lra.
Qed.

(** A state in which the rounding costs a millisecond.  With a division
    that delivers its quotient one unit roundoff closer to zero, and a
    speed for which the exact quotient is the integer 153,
    [get_curr_interval()] is 152; the speed formula then gives more than
    one millisecond's worth of slope above the speed, within the
    tolerance. *)
Lemma round_trip_up_to_truncation_and_rounding_example :
  let fl := chopped_division in
  let built := Physics_init_in fl 25.0 in
  let self := set_speed (speed_at_0ms built - 153 * (7 # 570)) built in
  let interval := get_curr_interval_in fl self in
  get_curr_interval self = 153%Z
  /\ interval = 152%Z
  /\ speed (state self) - 400 * unit_roundoff
     <= speed_for_interval_in fl self interval
  /\ speed_for_interval_in fl self interval
     <= speed (state self)
        + max_speed self
          / inject_Z (max_pedal_interval self - min_pedal_interval self)
        + 400 * unit_roundoff
  /\ ~ speed_for_interval_in fl self interval
       <= speed (state self)
          + max_speed self
            / inject_Z (max_pedal_interval self - min_pedal_interval self).
Proof.
  cbv zeta.
  split; [vm_compute; reflexivity |]. split; [vm_compute; reflexivity |].
  match goal with
  | |- _ <= speed_for_interval_in ?fl ?s _ /\ _ =>
      destruct (round_trip_up_to_truncation_and_rounding fl unit_roundoff s)
        as [H1 H2]
  end.
  - unfold unit_roundoff. lra.
  - exact chopped_division_accurate.
  - reflexivity.
  - split; apply Qle_bool_iff; vm_compute; reflexivity.
  - split; [exact H1 |]. split; [exact H2 |].
    intros H. apply Qle_bool_iff in H. vm_compute in H. discriminate H.
Defined.

(** * Properties of the statistics and of the state machine *)

(** One successful pedal out of two attempts: the property is 50, not 1/2. *)
Lemma success_ratio_one_of_two_is_fifty :
  let self := set_successful_pedals 1 (set_total_pedals 2 (GameStats_init 0)) in
  success_ratio self == 50
  /\ ~ (success_ratio self
        == inject_Z (successful_pedals self) / inject_Z (total_pedals self)).
Proof.
  cbv zeta. split; [reflexivity |].
  intros H. vm_compute in H. discriminate H.
Qed.

(** C7, as the code has it.  [success_ratio] is the percentage
    [successful_pedals / total_pedals * 100] when there were attempts, and
    0 when [total_pedals] is 0, where nothing is divided. *)
Theorem success_ratio_is_a_percentage (self : GameStats) :
  ((0 < total_pedals self)%Z ->
   success_ratio self
   == inject_Z (successful_pedals self) / inject_Z (total_pedals self) * 100)
  /\ (total_pedals self = 0%Z -> success_ratio self == 0).
Proof.
  unfold success_ratio. split; intros H.
  - destruct (Z.eqb_spec (total_pedals self) 0) as [E | _]; [lia | reflexivity].
  - rewrite H. reflexivity.
Qed.

Lemma success_ratio_is_a_percentage_examples :
  success_ratio (set_successful_pedals 3 (set_total_pedals 4 (GameStats_init 0)))
  == inject_Z 3 / inject_Z 4 * 100
  /\ success_ratio (GameStats_init 0) == 0.
Proof.
  split.
  - apply (proj1 (success_ratio_is_a_percentage
                    (set_successful_pedals 3 (set_total_pedals 4 (GameStats_init 0))))).
    simpl. lia.
  - apply (proj2 (success_ratio_is_a_percentage (GameStats_init 0))).
    reflexivity.
Defined.

Lemma update_never_pedaled (dt : Q) (now : Z) (self : Physics) :
  last_pedal_time (state self) = 0%Z ->
  stamina (state (update dt now self)) = stamina (state self)
  /\ speed (state (update dt now self)) = speed (state self)
  /\ last_pedal_time (state (update dt now self)) = 0%Z.
Proof.
  intros H. unfold update. rewrite H. simpl.
  destruct (Qltb 0 (speed (state self))); simpl; auto.
Qed.

Lemma update_all_never_pedaled (frames : list (Q * Z)) (self : Physics) :
  last_pedal_time (state self) = 0%Z ->
  stamina (state (update_all frames self)) = stamina (state self)
  /\ speed (state (update_all frames self)) = speed (state self)
  /\ last_pedal_time (state (update_all frames self)) = 0%Z.
Proof.
  revert self. induction frames as [| [dt now] frames IH]; intros self H; simpl.
  - auto.
  - destruct (update_never_pedaled dt now self H) as (Hs & Hv & Ht).
    destruct (IH _ Ht) as (Hs' & Hv' & Ht').
    simpl in *. rewrite Hs', Hv', Hs, Hv. auto.
Qed.

Lemma update_all_last_pedal_side (frames : list (Q * Z)) (self : Physics) :
  last_pedal_side (state (update_all frames self)) = last_pedal_side (state self).
Proof.
  revert self. induction frames as [| f frames IH]; intros self; simpl.
  - reflexivity.
  - unfold update_all in IH. rewrite IH. unfold update.
    destruct (_ && _); [reflexivity |].
    destruct (Qltb _ _); reflexivity.
Qed.

(** Without a recorded pedal time an alternating pedal is a first pedal. *)
Lemma handle_pedal_never_pedaled (side : string) (t : Z) (self : Physics) :
  last_pedal_time (state self) = 0%Z ->
  match last_pedal_side (state self) with
  | Some last => String.eqb side last
  | None => false
  end = false ->
  handle_pedal side t self
  = (true,
     set_last_pedal_time t
       (set_last_pedal_side (Some side)
          (set_speed (min_moving_speed self) self))).
Proof.
  intros Ht Hs. unfold handle_pedal. rewrite Hs, Ht. reflexivity.
Qed.

(** With no recorded pedal time and stamina left, the game-over check
    leaves the service as it is. *)
Lemma check_game_over_never_pedaled (h : Host) (self : GameService) :
  last_pedal_time (state (physics self)) = 0%Z ->
  0 < stamina (state (physics self)) ->
  after (Game._check_game_over_conditions h self) = self.
Proof.
  intros Ht Hs. unfold Game._check_game_over_conditions, bind, get.
  unfold result, host_after, after. simpl.
  destruct (game_over self || level_complete self || all_levels_complete self);
    [reflexivity |].
  rewrite Ht. simpl.
  assert (Hq : Qle_bool (get_stamina (physics self)) 0 = false).
  { destruct (Qle_bool (get_stamina (physics self)) 0) eqn:E; [| reflexivity].
    apply Qle_bool_iff in E. unfold get_stamina in E. lra. }
  rewrite Hq. reflexivity.
Qed.

(** C10.  A first accepted pedal at timestamp 0 leaves [last_pedal_time]
    at 0 and the engine goes on as if never pedaled, through any number
    of ticks: a pedal on the other side at any time is handled as a first
    pedal (speed [min_moving_speed], stamina unchanged),
    [get_time_since_last_pedal] is 0, [update] applies no stall penalty,
    and the game-over check of the service does nothing, so the reason
    "You stopped pedaling for too long!" is never set. *)
Theorem first_pedal_at_time_zero_counts_as_never_pedaled
  (max_speed_arg : Q) (side : string) (frames : list (Q * Z)) :
  let first := handle_pedal side 0 (Physics_init max_speed_arg) in
  let self := update_all frames (snd first) in
  fst first = true
  /\ last_pedal_time (state self) = 0%Z
  /\ (forall other t,
        String.eqb other side = false ->
        let next := handle_pedal other t self in
        fst next = true
        /\ speed (state (snd next)) = min_moving_speed self
        /\ stamina (state (snd next)) = stamina (state self))
  /\ (forall now, get_time_since_last_pedal now self = 0%Z)
  /\ (forall dt now,
        stamina (state (update dt now self)) = stamina (state self)
        /\ stamina (state self) = 100.0)
  /\ (forall h service,
        physics service = self ->
        after (Game._check_game_over_conditions h service) = service).
Proof.
  cbv zeta. rewrite first_pedal_engine. simpl snd. simpl fst.
  set (self1 := set_last_pedal_time 0
                  (set_last_pedal_side (Some side)
                     (set_speed 1.0 (Physics_init max_speed_arg)))).
  assert (H1 : last_pedal_time (state self1) = 0%Z) by reflexivity.
  destruct (update_all_never_pedaled frames self1 H1) as (Hs & Hv & Ht).
  pose proof (update_all_last_pedal_side frames self1) as Hside.
  split; [reflexivity |]. split; [exact Ht |]. split; [| split; [| split]].
  - intros other t Hne.
    rewrite handle_pedal_never_pedaled.
    + repeat split; reflexivity.
    + exact Ht.
    + rewrite Hside. exact Hne.
  - intros now. unfold get_time_since_last_pedal. now rewrite Ht.
  - intros dt now. split.
    + apply (update_never_pedaled dt now _ Ht).
    + rewrite Hs. reflexivity.
  - intros h service Hp. apply check_game_over_never_pedaled.
    + rewrite Hp. exact Ht.
    + rewrite Hp, Hs. simpl. lra.
Qed.

Lemma first_pedal_at_time_zero_counts_as_never_pedaled_run :
  let self := update_all [(16, 5000%Z)]
                (snd (handle_pedal "left" 0 (Physics_init 25))) in
  let service :=
    set_physics self
      (after (Game.init 800 600 None 1
                (mkHost (fun _ => 0%Z) 0 (fun _ => false) (fun _ => None) 0 []))) in
  String.eqb "right" "left" = false
  /\ fst (handle_pedal "right" 900 self) = true
  /\ speed (state (snd (handle_pedal "right" 900 self))) = min_moving_speed self
  /\ physics service = self
  /\ after (Game._check_game_over_conditions
              (mkHost (fun _ => 9000%Z) 0 (fun _ => false) (fun _ => None) 0 [])
              service) = service.
Proof.
  cbv zeta.
  destruct (first_pedal_at_time_zero_counts_as_never_pedaled
              25 "left" [(16, 5000%Z)]) as (_ & _ & Hpedal & _ & _ & Hcheck).
  split; [reflexivity |].
  destruct (Hpedal "right" 900%Z eq_refl) as (Hok & Hspeed & _).
  split; [exact Hok |]. split; [exact Hspeed |].
  split; [reflexivity |].
  apply Hcheck. reflexivity.
Defined.

(** ** What the methods of the service do to the host and to the service *)

Ltac run :=
  unfold bind, get, modify, ret, get_ticks, is_server_available,
    end_game_session, on_stats, result, host_after, after;
  simpl.

Lemma set_stats_same (self : GameService) : set_stats (stats self) self = self.
Proof. destruct self; reflexivity. Qed.

Lemma end_level_run (level : Z) (h : Host) (self : GameStats) :
  end_level level h self
  = if match level_start_times self !! level with
       | Some _ => timer_started level self
       | None => false
       end
    then (tt, clock_read h,
          set_level_end_times
            (<[level := ticks h (reads h)]> (level_end_times self)) self)
    else (tt, h, self).
Proof.
  unfold end_level. run.
  destruct (level_start_times self !! level); [| reflexivity].
  destruct (timer_started level self); reflexivity.
Qed.

Lemma get_current_level_time_run (level : Z) (h : Host) (self : GameStats) :
  get_current_level_time level h self
  = (level_time_at (ticks h (reads h)) level self,
     match level_start_times self !! level, level_end_times self !! level with
     | Some _, None => if timer_started level self then clock_read h else h
     | _, _ => h
     end,
     self).
Proof.
  unfold get_current_level_time, level_time_at. run.
  destruct (level_start_times self !! level); [| reflexivity].
  destruct (timer_started level self);
    destruct (level_end_times self !! level); reflexivity.
Qed.

(** [get_total_time]: its value, and that it assigns nothing and reads
    the clock only for a running timer without an end time. *)
Lemma get_total_time_run (h : Host) (self : GameService) :
  Game.get_total_time h self
  = (total_time_at (ticks h (reads h)) self,
     if timer_running self
     then match level_end_times (stats self) !! current_level self with
          | Some _ => h
          | None => clock_read h
          end
     else h,
     self).
Proof.
  unfold Game.get_total_time, total_time_at, timer_running. run.
  destruct (negb (level_complete self) && Game.timer_recorded self) eqn:E;
    simpl; [| reflexivity].
  rewrite get_current_level_time_run. simpl. rewrite set_stats_same.
  apply andb_true_iff in E. destruct E as [_ E].
  unfold Game.timer_recorded in E.
  destruct (level_start_times (stats self) !! current_level self);
    [| discriminate E].
  destruct (timer_started (current_level self) (stats self));
    destruct (level_end_times (stats self) !! current_level self); reflexivity.
Qed.

Lemma timer_running_ended (now : Z) (self : GameService) :
  timer_running (ended_service now self) = timer_running self.
Proof.
  unfold ended_service. destruct (timer_running self) eqn:E; simpl.
  - exact E.
  - exact E.
Qed.

Lemma ended_service_end_time (now : Z) (self : GameService) :
  timer_running self = true ->
  level_end_times (stats (ended_service now self)) !! current_level (ended_service now self)
  = Some now.
Proof.
  intros E. unfold ended_service. rewrite E. simpl. apply lookup_insert_eq.
Qed.

(** [_end_game] in one equation: the service afterwards, the clock
    readings consumed, and the report sent when there is a session and the
    server answers. *)
Lemma end_game_run (h : Host) (self : GameService) :
  let self' := ended_service (ticks h (reads h)) self in
  let h' := if timer_running self then clock_read h else h in
  Game._end_game h self
  = (tt,
     match session_id self with
     | Some session =>
         if truthy (Some session) then
           if server_available h (requests h) then
             logged (session, max_speed_reached (stats self),
                     Game.get_total_distance_traveled self',
                     total_time_at (ticks h (reads h)) self')
                    (requested (requested h'))
           else requested h'
         else h'
     | None => h'
     end,
     self').
Proof.
  cbv zeta. unfold Game._end_game.
  unfold bind at 1. unfold modify at 1. unfold result, host_after, after. simpl.
  unfold bind at 1. unfold get at 1. unfold result, host_after, after. simpl.
  unfold bind at 1. unfold result, host_after, after.
  assert (Hstep :
    (if negb (level_complete self) && Game.timer_recorded (set_game_over true self)
     then on_stats (end_level (current_level self))
     else ret tt) h (set_game_over true self)
    = (tt, if timer_running self then clock_read h else h,
       ended_service (ticks h (reads h)) self)).
  { unfold ended_service, timer_running, Game.timer_recorded.
    change (stats (set_game_over true self)) with (stats self).
    change (current_level (set_game_over true self)) with (current_level self).
    destruct (level_complete self); [reflexivity |].
    destruct (level_start_times (stats self) !! current_level self) eqn:Es;
      [| reflexivity].
    cbn [negb andb]. unfold on_stats. rewrite end_level_run.
    change (stats (set_game_over true self)) with (stats self).
    rewrite Es.
    destruct (timer_started (current_level self) (stats self)); reflexivity. }
  rewrite Hstep. simpl.
  unfold bind at 1. unfold get at 1. unfold result, host_after, after. simpl.
  assert (Hsid : session_id (ended_service (ticks h (reads h)) self) = session_id self).
  { unfold ended_service. destruct (timer_running self); reflexivity. }
  assert (Hmax : max_speed_reached (stats (ended_service (ticks h (reads h)) self))
                 = max_speed_reached (stats self)).
  { unfold ended_service. destruct (timer_running self); reflexivity. }
  rewrite Hsid. destruct (session_id self) as [session |]; [| reflexivity].
  unfold truthy. destruct (negb (String.eqb session "")); [| reflexivity].
  unfold bind at 1. unfold is_server_available at 1.
  unfold result, host_after, after. simpl.
  assert (Hav : server_available (if timer_running self then clock_read h else h)
                  (requests (if timer_running self then clock_read h else h))
                = server_available h (requests h)).
  { destruct (timer_running self); reflexivity. }
  rewrite Hav. destruct (server_available h (requests h)); [| reflexivity].
  unfold bind at 1. rewrite get_total_time_run.
  unfold result, host_after, after. simpl.
  rewrite timer_running_ended, Hmax.
  unfold end_game_session.
  destruct (timer_running self) eqn:E.
  - rewrite (ended_service_end_time _ _ E). simpl.
    unfold total_time_at, level_time_at.
    rewrite (ended_service_end_time _ _ E).
    destruct (negb (level_complete (ended_service (ticks h (reads h)) self))
              && Game.timer_recorded (ended_service (ticks h (reads h)) self));
      [| reflexivity].
    destruct (level_start_times (stats (ended_service (ticks h (reads h)) self))
                !! current_level (ended_service (ticks h (reads h)) self));
      [| reflexivity].
    destruct (timer_started (current_level (ended_service (ticks h (reads h)) self))
                (stats (ended_service (ticks h (reads h)) self))); reflexivity.
  - simpl. unfold total_time_at, level_time_at, ended_service. rewrite E. simpl.
    unfold timer_running in E.
    destruct (negb (level_complete self) && Game.timer_recorded self) eqn:E1;
      [| reflexivity].
    simpl in E. unfold Game.timer_recorded in E1.
    apply andb_true_iff in E1. destruct E1 as [_ E1].
    destruct (level_start_times (stats self) !! current_level self);
      [| discriminate E1].
    rewrite E. reflexivity.
Qed.

Lemma ended_service_frame (now : Z) (self : GameService) :
  game_over (ended_service now self) = true
  /\ physics (ended_service now self) = physics self
  /\ game_over_reason (ended_service now self) = game_over_reason self
  /\ current_level (ended_service now self) = current_level self
  /\ level_complete (ended_service now self) = level_complete self
  /\ session_id (ended_service now self) = session_id self
  /\ level_completion_times (stats (ended_service now self))
     = level_completion_times (stats self)
  /\ completed_levels (stats (ended_service now self))
     = completed_levels (stats self)
  /\ level_start_times (stats (ended_service now self))
     = level_start_times (stats self)
  /\ max_speed_reached (stats (ended_service now self))
     = max_speed_reached (stats self).
Proof.
  unfold ended_service. destruct (timer_running self); simpl; tauto.
Qed.

(** The engine's tick when the last recorded pedal is too old. *)
Lemma update_stalled (dt : Q) (now : Z) (self : Physics) :
  (0 < last_pedal_time (state self))%Z ->
  (max_pedal_interval self < now - last_pedal_time (state self))%Z ->
  update dt now self = set_stamina (min_stamina self) self.
Proof.
  intros H1 H2. unfold update.
  apply Z.ltb_lt in H1. apply Z.ltb_lt in H2. now rewrite H1, H2.
Qed.

(** The game-over check when the last recorded pedal is too old at its
    clock reading: it sets the reason and ends the game, whatever the
    stamina. *)
Lemma check_game_over_stalled (h : Host) (self : GameService) :
  game_over self = false -> level_complete self = false ->
  all_levels_complete self = false ->
  (0 < last_pedal_time (state (physics self)))%Z ->
  (max_pedal_interval (physics self)
   < ticks h (reads h) - last_pedal_time (state (physics self)))%Z ->
  Game._check_game_over_conditions h self
  = Game._end_game (clock_read h)
      (set_game_over_reason "You stopped pedaling for too long!" self).
Proof.
  intros Hg Hl Ha H1 H2.
  unfold Game._check_game_over_conditions.
  unfold bind, get, get_ticks, modify, result, host_after, after.
  cbn [fst snd]. rewrite Hg, Hl, Ha. cbn [orb].
  apply Z.ltb_lt in H1. apply Z.ltb_lt in H2. rewrite H1, H2. reflexivity.
Qed.

(** C5, as the code has it.  In a run whose tick is live (not over, not
    paused, level not complete) and whose engine has a recorded pedal at a
    non-zero time, if the clock reading of the tick is more than
    [max_pedal_interval] after that pedal, the tick sets the stamina to 0,
    leaves [distance_traveled] as it was and ends the game with the reason
    "You stopped pedaling for too long!".  The stamina is 0 when the check
    runs, so the condition "ran out of stamina" holds as well: the
    stopped-pedaling condition is checked first and wins. *)
Theorem stalled_tick_ends_the_game (dt : Q) (h : Host) (self : GameService) :
  configured (physics self) ->
  game_over self = false -> paused self = false ->
  level_complete self = false -> all_levels_complete self = false ->
  (0 < last_pedal_time (state (physics self)))%Z ->
  (max_pedal_interval (physics self)
   < ticks h (reads h) - last_pedal_time (state (physics self)))%Z ->
  (ticks h (reads h) <= ticks h (S (reads h)))%Z ->
  let r := Game.update dt h self in
  stamina (state (physics (after r))) == 0
  /\ distance_traveled (state (physics (after r)))
     = distance_traveled (state (physics self))
  /\ game_over (after r) = true
  /\ game_over_reason (after r) = "You stopped pedaling for too long!"
  /\ Qle_bool (get_stamina (physics (after r))) 0 = true.
Proof.
  intros Hc Hg Hp Hl Ha H1 H2 Hmono.
  assert (Hrun :
    Game.update dt h self
    = Game._end_game (clock_read (clock_read h))
        (set_game_over_reason "You stopped pedaling for too long!"
           (set_physics (set_stamina (min_stamina (physics self)) (physics self))
              self))).
  { unfold Game.update.
    unfold bind, get, get_ticks, modify, result, host_after, after.
    cbn [fst snd]. rewrite Hg, Hp, Hl. cbn [orb negb].
    rewrite (update_stalled dt _ _ H1 H2).
    rewrite check_game_over_stalled; try assumption;
      [| cbn [clock_read ticks reads physics set_physics state set_stamina
              set_state last_pedal_time max_pedal_interval]; lia].
    rewrite end_game_run. cbn [fst snd].
    match goal with
    | |- context [game_over (ended_service ?now ?s)] =>
        rewrite (proj1 (ended_service_frame now s))
    end.
    reflexivity. }
  cbv zeta. rewrite Hrun, end_game_run. unfold after. cbn [snd].
  match goal with
  | |- context [ended_service ?now ?s] =>
      destruct (ended_service_frame now s) as (E1 & E2 & E3 & _)
  end.
  unfold get_stamina. rewrite E1, E2, E3. simpl.
  apply configured_fields in Hc. destruct Hc as (_ & _ & _ & _ & Hmin & _).
  rewrite Hmin. repeat split; reflexivity.
Qed.

(** A run for the stalled tick: the game is constructed, Left is pedaled
    when the clock reads 1000, and the next tick reads 5000. *)
Lemma stalled_tick_ends_the_game_run :
  let clock (k : nat) : Z := if (k <=? 2)%nat then 1000%Z else 5000%Z in
  let h0 := mkHost clock 0 (fun _ => false) (fun _ => None) 0 [] in
  let built := Game.init 800 600 None 1 h0 in
  let pedaled := Game.handle_pedal_input "left" (host_after built) (after built) in
  let r := Game.update 16 (host_after pedaled) (after pedaled) in
  result pedaled = true
  /\ last_pedal_time (state (physics (after pedaled))) = 1000%Z
  /\ stamina (state (physics (after r))) == 0
  /\ distance_traveled (state (physics (after r)))
     = distance_traveled (state (physics (after pedaled)))
  /\ game_over (after r) = true
  /\ game_over_reason (after r) = "You stopped pedaling for too long!".
Proof.
  cbv zeta.
  split; [vm_compute; reflexivity |]. split; [vm_compute; reflexivity |].
  match goal with
  | |- context [Game.update ?dt ?h ?s] =>
      destruct (stalled_tick_ends_the_game dt h s) as (H1 & H2 & H3 & H4 & _)
  end; try (vm_compute; congruence).
  split; [exact H1 |]. split; [exact H2 |]. split; [exact H3 | exact H4].
Defined.

(** Two runs in which a pedal was accepted and the clock is more than
    [max_pedal_interval] past it, yet the tick ends nothing.  In the
    first the pedal came when the clock read 0, so no pedal time is
    recorded; the tick advances the distance and leaves the stamina at
    100.  In the second the pedal came at 1000 and the game was paused;
    the tick does nothing. *)
Lemma tick_without_game_over_after_a_pedal :
  (let clock (k : nat) : Z := if (k <=? 2)%nat then 0%Z else 5000%Z in
   let h0 := mkHost clock 0 (fun _ => false) (fun _ => None) 0 [] in
   let built := Game.init 800 600 None 1 h0 in
   let pedaled := Game.handle_pedal_input "left" (host_after built) (after built) in
   let r := Game.update 16 (host_after pedaled) (after pedaled) in
   result pedaled = true
   /\ successful_pedals (stats (after pedaled)) = 1%Z
   /\ ticks (host_after pedaled) (reads (host_after pedaled)) = 5000%Z
   /\ game_over (after r) = false
   /\ stamina (state (physics (after r))) == 100
   /\ ~ (distance_traveled (state (physics (after r)))
         == distance_traveled (state (physics (after pedaled)))))
  /\
  (let clock (k : nat) : Z := if (k <=? 2)%nat then 1000%Z else 5000%Z in
   let h0 := mkHost clock 0 (fun _ => false) (fun _ => None) 0 [] in
   let built := Game.init 800 600 None 1 h0 in
   let pedaled := Game.handle_pedal_input "left" (host_after built) (after built) in
   let halted := Game.toggle_pause (host_after pedaled) (after pedaled) in
   let r := Game.update 16 (host_after halted) (after halted) in
   result pedaled = true
   /\ last_pedal_time (state (physics (after halted))) = 1000%Z
   /\ ticks (host_after halted) (reads (host_after halted)) = 5000%Z
   /\ game_over (after r) = false
   /\ stamina (state (physics (after r))) == 100
   /\ after r = after halted).
Proof.
  cbv zeta. split.
  - do 5 (split; [vm_compute; reflexivity |]).
    intros H. vm_compute in H. discriminate H.
  - do 5 (split; [vm_compute; reflexivity |]). vm_compute. reflexivity.
Qed.

(** ** Ending the game twice *)

Lemma total_distance_ended (now : Z) (self : GameService) :
  Game.get_total_distance_traveled (ended_service now self)
  = Game.get_total_distance_traveled self.
Proof.
  unfold ended_service. destruct (timer_running self); reflexivity.
Qed.

Lemma ended_service_twice_idle (now now' : Z) (self : GameService) :
  timer_running self = false ->
  ended_service now' (ended_service now self) = ended_service now self.
Proof.
  intros E. unfold ended_service at 1. rewrite timer_running_ended, E.
  unfold ended_service. rewrite E. reflexivity.
Qed.

Lemma ended_service_twice_running (now now' : Z) (self : GameService) :
  timer_running self = true ->
  level_end_times (stats (ended_service now' (ended_service now self)))
  = <[current_level self := now']> (level_end_times (stats self)).
Proof.
  intros E. unfold ended_service at 1. rewrite timer_running_ended, E.
  unfold ended_service. rewrite E. simpl. apply insert_insert_eq.
Qed.

Lemma total_time_idle (now : Z) (self : GameService) :
  timer_running self = false ->
  total_time_at now self == total_completion_time (stats self).
Proof.
  unfold timer_running, total_time_at, level_time_at, Game.timer_recorded.
  intros E.
  destruct (level_complete self); simpl in *; [reflexivity |].
  destruct (level_start_times (stats self) !! current_level self); simpl in *;
    [| reflexivity].
  rewrite E. lra.
Qed.

Lemma total_time_idle_any (now now' : Z) (self : GameService) :
  timer_running self = false ->
  total_time_at now self = total_time_at now' self.
Proof.
  unfold timer_running, total_time_at, level_time_at, Game.timer_recorded.
  intros E.
  destruct (level_complete self); simpl in *; [reflexivity |].
  destruct (level_start_times (stats self) !! current_level self); simpl in *;
    [| reflexivity].
  rewrite E. reflexivity.
Qed.

Lemma total_time_running (now : Z) (self : GameService) :
  timer_running self = true ->
  total_time_at now self
  = total_completion_time (stats self)
    + inject_Z (default now (level_end_times (stats self) !! current_level self)
                - default 0%Z (level_start_times (stats self) !! current_level self))
      / 1000.0.
Proof.
  unfold timer_running, total_time_at, level_time_at, Game.timer_recorded.
  intros E.
  destruct (level_complete self); simpl in *; [discriminate E |].
  destruct (level_start_times (stats self) !! current_level self); simpl in *;
    [| discriminate E].
  rewrite E. reflexivity.
Qed.

(** After [_end_game] the total time does not depend on the clock. *)
Lemma total_time_ended_any (now now' t : Z) (self : GameService) :
  total_time_at now (ended_service t self)
  = total_time_at now' (ended_service t self).
Proof.
  destruct (timer_running self) eqn:E.
  - unfold total_time_at, level_time_at.
    rewrite (ended_service_end_time t self E). reflexivity.
  - apply total_time_idle_any. rewrite timer_running_ended. exact E.
Qed.

(** The host after [_end_game]: same clock and server, one more clock
    reading exactly when the timer was running. *)
Lemma end_game_host (h : Host) (self : GameService) :
  let h' := host_after (Game._end_game h self) in
  ticks h' = ticks h
  /\ reads h' = (if timer_running self then S (reads h) else reads h)
  /\ server_available h' = server_available h.
Proof.
  cbv zeta. rewrite end_game_run. unfold host_after. cbn [fst snd].
  destruct (session_id self) as [session |].
  - destruct (truthy (Some session)).
    + destruct (server_available h (requests h));
        destruct (timer_running self); simpl; auto.
    + destruct (timer_running self); simpl; auto.
  - destruct (timer_running self); simpl; auto.
Qed.

Lemma end_game_after (h : Host) (self : GameService) :
  after (Game._end_game h self) = ended_service (ticks h (reads h)) self.
Proof. rewrite end_game_run. reflexivity. Qed.

(** Once [game_over] is set the tick returns at once. *)
Lemma update_after_game_over (dt : Q) (h : Host) (self : GameService) :
  game_over self = true -> Game.update dt h self = (tt, h, self).
Proof.
  intros Hg. unfold Game.update, bind, get, ret, result, host_after, after.
  cbn [fst snd]. rewrite Hg. reflexivity.
Qed.

(** The two calls, with the total time as a function of the clock. *)
Lemma end_game_twice_at (h : Host) (self : GameService) :
  let first := Game._end_game h self in
  let second := Game._end_game (host_after first) (after first) in
  let t1 := ticks h (reads h) in
  let t2 := ticks h (S (reads h)) in
  Game.get_total_distance_traveled (after second)
  = Game.get_total_distance_traveled (after first)
  /\ level_completion_times (stats (after second))
     = level_completion_times (stats (after first))
  /\ completed_levels (stats (after second))
     = completed_levels (stats (after first))
  /\ (timer_running self = false ->
      after second = after first
      /\ forall now now',
           total_time_at now' (after second) == total_time_at now (after first))
  /\ (timer_running self = true ->
      level_end_times (stats (after first))
      = <[current_level self := t1]> (level_end_times (stats self))
      /\ level_end_times (stats (after second))
         = <[current_level self := t2]> (level_end_times (stats self))
      /\ forall now now',
           total_time_at now' (after second)
           == total_time_at now (after first) + inject_Z (t2 - t1) / 1000)
  /\ (forall session,
        session_id self = Some session -> truthy (Some session) = true ->
        server_available h (requests h) = true ->
        server_available h (S (S (requests h))) = true ->
        ended (host_after second)
        = (session, max_speed_reached (stats self),
           Game.get_total_distance_traveled (after first),
           total_time_at t2 (after second))
          :: (session, max_speed_reached (stats self),
              Game.get_total_distance_traveled (after first),
              total_time_at t1 (after first))
          :: ended h)
  /\ (forall dt,
        Game.update dt (host_after first) (after first)
        = (tt, host_after first, after first)).
Proof.
  cbv zeta.
  assert (Hquiet : forall dt,
    Game.update dt (host_after (Game._end_game h self))
      (after (Game._end_game h self))
    = (tt, host_after (Game._end_game h self), after (Game._end_game h self))).
  { intros dt. apply update_after_game_over. rewrite end_game_after.
    apply ended_service_frame. }
  destruct (end_game_host h self) as (Hticks & Hreads & Hserver).
  assert (Hlog : forall session,
    session_id self = Some session -> truthy (Some session) = true ->
    server_available h (requests h) = true ->
    server_available h (S (S (requests h))) = true ->
    ended (host_after (Game._end_game (host_after (Game._end_game h self))
                         (after (Game._end_game h self))))
    = (session, max_speed_reached (stats self),
       Game.get_total_distance_traveled (after (Game._end_game h self)),
       total_time_at (ticks h (reads (host_after (Game._end_game h self))))
         (after (Game._end_game (host_after (Game._end_game h self))
                   (after (Game._end_game h self)))))
      :: (session, max_speed_reached (stats self),
          Game.get_total_distance_traveled (after (Game._end_game h self)),
          total_time_at (ticks h (reads h)) (after (Game._end_game h self)))
      :: ended h).
  { intros session Hsession Htruthy Hav1 Hav2.
    rewrite (end_game_after (host_after (Game._end_game h self))).
    rewrite !end_game_after. rewrite Hticks.
    rewrite (end_game_run (host_after (Game._end_game h self))).
    unfold host_after at 1. cbn [fst snd].
    destruct (ended_service_frame (ticks h (reads h)) self)
      as (_ & _ & _ & _ & _ & Hsid & _ & _ & _ & Hm1).
    rewrite Hsid, Hsession, Htruthy, Hm1, Hticks, Hserver, total_distance_ended.
    rewrite timer_running_ended.
    rewrite end_game_run. unfold host_after. cbn [fst snd].
    rewrite Hsession, Htruthy, Hav1.
    destruct (timer_running self);
      cbn [ticks reads requests server_available logged requested clock_read
           ended];
      rewrite Hav2; rewrite total_distance_ended; reflexivity. }
  rewrite Hreads in Hlog.
  rewrite (end_game_after (host_after (Game._end_game h self))) in *.
  rewrite !end_game_after in *. rewrite Hticks, Hreads.
  rewrite Hticks, Hreads in Hlog.
  set (t1 := ticks h (reads h)) in *.
  destruct (timer_running self) eqn:E.
  - set (t2 := ticks h (S (reads h))) in *.
    destruct (ended_service_frame t2 (ended_service t1 self))
      as (_ & _ & _ & Hl2 & _ & _ & Hc2 & Hd2 & Hs2 & _).
    destruct (ended_service_frame t1 self)
      as (_ & _ & _ & Hl1 & _ & _ & Hc1 & Hd1 & Hs1 & _).
    split; [apply total_distance_ended |].
    split; [exact Hc2 |]. split; [exact Hd2 |].
    split; [intros Hno; discriminate Hno |].
    split; [| split; [exact Hlog | exact Hquiet]].
    intros _. split; [| split].
    + unfold ended_service. rewrite E. reflexivity.
    + now apply ended_service_twice_running.
    + intros now now'.
      rewrite !total_time_running
        by (rewrite ?timer_running_ended; exact E).
      rewrite Hl2, Hl1, Hs2, Hs1.
      rewrite (ended_service_twice_running t1 t2 self E).
      rewrite lookup_insert_eq.
      assert (He1 : level_end_times (stats (ended_service t1 self))
                    !! current_level self = Some t1).
      { pose proof (ended_service_end_time t1 self E) as He.
        rewrite Hl1 in He. exact He. }
      rewrite He1. cbn [default from_option]. unfold id.
      assert (Hsum : total_completion_time (stats (ended_service t2 (ended_service t1 self)))
                     = total_completion_time (stats (ended_service t1 self))).
      { unfold total_completion_time. now rewrite Hc2. }
      rewrite Hsum.
      generalize (total_completion_time (stats (ended_service t1 self))).
      generalize (default 0%Z (level_start_times (stats self) !! current_level self)).
      intros started_at total.
      unfold Z.sub. rewrite !inject_Z_plus, !inject_Z_opp. field.
  - fold t1 in Hlog |- *.
    destruct (ended_service_frame t1 (ended_service t1 self))
      as (_ & _ & _ & _ & _ & _ & Hc2 & Hd2 & _).
    split; [apply total_distance_ended |].
    split; [exact Hc2 |]. split; [exact Hd2 |].
    split; [| split; [intros Hno; discriminate Hno |]].
    2: { split; [| exact Hquiet].
         intros session H1 H2 H3 H4.
         rewrite (total_time_idle_any (ticks h (S (reads h))) t1)
           by (rewrite !timer_running_ended; exact E).
         now apply Hlog. }
    intros _. split.
    + now apply ended_service_twice_idle.
    + intros now now'. rewrite (ended_service_twice_idle t1 _ self E).
      rewrite !total_time_idle; try reflexivity;
        rewrite timer_running_ended; exact E.
Qed.

(** C8, as the code has it.  A second [_end_game], whatever the clock
    then reads, finds the same total distance, the same completion times
    and the same set of completed levels, so no level's time is counted
    twice.  When the timer of the current level was not running at the
    first call (level complete, or timer never started), the second call
    changes nothing and the total time is the same.  When it was running,
    each call records the clock reading it makes as the end time of the
    current level: the second call replaces the end time of the first
    and the total time grows by the time between the two readings; the
    end times of the other levels stay.  With a session and the server
    answering, the two reports sent carry these totals.  The tick itself
    never makes the second call: after the first one it does nothing. *)
Theorem end_game_called_twice (h : Host) (self : GameService) :
  let first := Game._end_game h self in
  let second := Game._end_game (host_after first) (after first) in
  let t1 := ticks h (reads h) in
  let t2 := ticks h (S (reads h)) in
  Game.get_total_distance_traveled (after second)
  = Game.get_total_distance_traveled (after first)
  /\ level_completion_times (stats (after second))
     = level_completion_times (stats (after first))
  /\ completed_levels (stats (after second))
     = completed_levels (stats (after first))
  /\ (timer_running self = false ->
      after second = after first
      /\ forall ha hb,
           result (Game.get_total_time hb (after second))
           == result (Game.get_total_time ha (after first)))
  /\ (timer_running self = true ->
      level_end_times (stats (after first))
      = <[current_level self := t1]> (level_end_times (stats self))
      /\ level_end_times (stats (after second))
         = <[current_level self := t2]> (level_end_times (stats self))
      /\ forall ha hb,
           result (Game.get_total_time hb (after second))
           == result (Game.get_total_time ha (after first))
              + inject_Z (t2 - t1) / 1000)
  /\ (forall session,
        session_id self = Some session -> truthy (Some session) = true ->
        server_available h (requests h) = true ->
        server_available h (S (S (requests h))) = true ->
        forall ha hb,
        ended (host_after second)
        = (session, max_speed_reached (stats self),
           Game.get_total_distance_traveled (after first),
           result (Game.get_total_time hb (after second)))
          :: (session, max_speed_reached (stats self),
              Game.get_total_distance_traveled (after first),
              result (Game.get_total_time ha (after first)))
          :: ended h)
  /\ (forall dt,
        Game.update dt (host_after first) (after first)
        = (tt, host_after first, after first)).
Proof.
  cbv zeta.
  destruct (end_game_twice_at h self)
    as (Hdist & Hdone & Hset & Hidle & Hrunning & Hlog & Hquiet).
  split; [exact Hdist |]. split; [exact Hdone |]. split; [exact Hset |].
  split; [| split; [| split; [| exact Hquiet]]].
  - intros E. destruct (Hidle E) as [Hsame Htime]. split; [exact Hsame |].
    intros ha hb. unfold result. rewrite !get_total_time_run. cbn [fst].
    apply Htime.
  - intros E. destruct (Hrunning E) as (H1 & H2 & Htime).
    split; [exact H1 |]. split; [exact H2 |].
    intros ha hb. unfold result. rewrite !get_total_time_run. cbn [fst].
    apply Htime.
  - intros session Hs Ht Ha1 Ha2 ha hb.
    rewrite (Hlog session Hs Ht Ha1 Ha2).
    unfold result. rewrite !get_total_time_run. cbn [fst].
    rewrite (end_game_after (host_after (Game._end_game h self))).
    rewrite !end_game_after.
    rewrite (total_time_ended_any (ticks hb (reads hb)) (ticks h (S (reads h)))).
    rewrite (total_time_ended_any (ticks ha (reads ha)) (ticks h (reads h))).
    reflexivity.
Qed.

(** A run for the two calls: the game is constructed with a user and a
    session, Left is pedaled when the clock reads 1000 (the timer of
    level 1 starts), [_end_game] is called when the clock reads 2000 and
    again when it reads 5000. *)
Lemma end_game_called_twice_run :
  let clock (k : nat) : Z :=
    match k with
    | O => 0 | S O => 1000 | S (S O) => 1000 | S (S (S O)) => 2000 | _ => 5000
    end%Z in
  let h0 := mkHost clock 0 (fun _ => true) (fun _ => Some "s1") 0 [] in
  let built := Game.init 800 600 (Some "u") 1 h0 in
  let pedaled := Game.handle_pedal_input "left" (host_after built) (after built) in
  let first := Game._end_game (host_after pedaled) (after pedaled) in
  let second := Game._end_game (host_after first) (after first) in
  timer_running (after pedaled) = true
  /\ session_id (after pedaled) = Some "s1"
  /\ level_end_times (stats (after first))
     = <[1%Z := 2000%Z]> (level_end_times (stats (after pedaled)))
  /\ level_end_times (stats (after second))
     = <[1%Z := 5000%Z]> (level_end_times (stats (after pedaled)))
  /\ result (Game.get_total_time (host_after second) (after second))
     == result (Game.get_total_time (host_after first) (after first))
        + inject_Z (5000 - 2000) / 1000
  /\ ended (host_after second)
     = [("s1", max_speed_reached (stats (after pedaled)),
         Game.get_total_distance_traveled (after first),
         result (Game.get_total_time (host_after second) (after second)));
        ("s1", max_speed_reached (stats (after pedaled)),
         Game.get_total_distance_traveled (after first),
         result (Game.get_total_time (host_after first) (after first)))].
Proof.
  cbv zeta.
  match goal with
  | |- timer_running (after (Game.handle_pedal_input ?side ?h ?s)) = true /\ _ =>
      set (pedaled := Game.handle_pedal_input side h s)
  end.
  assert (E : timer_running (after pedaled) = true) by (vm_compute; reflexivity).
  assert (Es : session_id (after pedaled) = Some "s1") by (vm_compute; reflexivity).
  destruct (end_game_called_twice (host_after pedaled) (after pedaled))
    as (_ & _ & _ & _ & Hrun & Hlog & _).
  destruct (Hrun E) as (H1 & H2 & H3).
  split; [exact E |]. split; [exact Es |].
  split; [exact H1 |]. split; [exact H2 |]. split; [apply H3 |].
  apply (Hlog "s1" Es); vm_compute; reflexivity.
Defined.

(** In that run the second call replaces the end time 2000 of level 1 by
    5000, and the total time reported goes from 1 second to 4 seconds. *)
Lemma second_end_game_moves_the_end_time :
  let clock (k : nat) : Z :=
    match k with
    | O => 0 | S O => 1000 | S (S O) => 1000 | S (S (S O)) => 2000 | _ => 5000
    end%Z in
  let h0 := mkHost clock 0 (fun _ => true) (fun _ => Some "s1") 0 [] in
  let built := Game.init 800 600 (Some "u") 1 h0 in
  let pedaled := Game.handle_pedal_input "left" (host_after built) (after built) in
  let first := Game._end_game (host_after pedaled) (after pedaled) in
  let second := Game._end_game (host_after first) (after first) in
  result pedaled = true
  /\ game_over (after first) = true
  /\ level_end_times (stats (after first)) !! 1%Z = Some 2000%Z
  /\ level_end_times (stats (after second)) !! 1%Z = Some 5000%Z
  /\ level_end_times (stats (after second)) <> level_end_times (stats (after first))
  /\ map (fun report => Qred (snd report)) (ended (host_after second)) = [4; 1]
  /\ ~ (result (Game.get_total_time (host_after second) (after second))
        == result (Game.get_total_time (host_after first) (after first))).
Proof.
  cbv zeta.
  do 4 (split; [vm_compute; reflexivity |]).
  split; [| split; [vm_compute; reflexivity |]].
  - intros H.
    apply (f_equal (fun m : gmap Z Z => m !! 1%Z)) in H.
    vm_compute in H. discriminate H.
  - intros H. vm_compute in H. discriminate H.
Qed.

(** ** Advancing to the next level *)

Lemma set_level_run (level : Z) (h : Host) (self : GameService) :
  Game.set_level level h self
  = (tt, h,
     set_stats (prepare_level level (stats self))
       (set_level_start_distance 0.0
          (set_physics (reset (physics self))
             (set_cyclist
                (cyclist_at
                   (Background.get_cyclist_start_position
                      (Background.set_level level (background_service self))))
                (set_level_complete false
                   (set_background_service
                      (Background.set_level level (background_service self))
                      (set_current_level level self))))))).
Proof. reflexivity. Qed.

(** C9, as the code has it.  With [level_complete] true and
    [all_levels_complete] false, [handle_enter_key] on level 4, the last
    of the catalog (or beyond it), only sets [all_levels_complete], and a
    second call changes nothing; below level 4 it resets the engine to a
    fresh [PhysicsState], moves to the next level, and in [GameStats]
    changes only [level_started], where the next level is marked as not
    started: counters, start, end and completion times and the set of
    completed levels stay. *)
Theorem handle_enter_key_advances (h : Host) (self : GameService) :
  level_complete self = true -> all_levels_complete self = false ->
  let first := Game.handle_enter_key h self in
  ((4 <= current_level self)%Z ->
   first = (tt, h, set_all_levels_complete true self)
   /\ all_levels_complete (after first) = true
   /\ Game.handle_enter_key (host_after first) (after first)
      = (tt, host_after first, after first))
  /\ ((current_level self < 4)%Z ->
      host_after first = h
      /\ physics (after first) = reset (physics self)
      /\ state (physics (after first)) = PhysicsState_default
      /\ current_level (after first) = (current_level self + 1)%Z
      /\ stats (after first) = prepare_level (current_level self + 1) (stats self)
      /\ level_started (stats (after first))
         = <[(current_level self + 1)%Z := false]> (level_started (stats self))
      /\ max_speed_reached (stats (after first)) = max_speed_reached (stats self)
      /\ total_pedals (stats (after first)) = total_pedals (stats self)
      /\ successful_pedals (stats (after first)) = successful_pedals (stats self)
      /\ start_time (stats (after first)) = start_time (stats self)
      /\ level_start_times (stats (after first)) = level_start_times (stats self)
      /\ level_completion_times (stats (after first))
         = level_completion_times (stats self)
      /\ level_end_times (stats (after first)) = level_end_times (stats self)
      /\ completed_levels (stats (after first)) = completed_levels (stats self)).
Proof.
  intros Hl Ha. cbv zeta.
  unfold Game.handle_enter_key.
  unfold bind, get, modify, ret, result, host_after, after. cbn [fst snd].
  rewrite Hl, Ha. cbn [negb andb].
  split; intros Hlevel.
  - assert (E : (current_level self <? 4)%Z = false) by (apply Z.ltb_ge; lia).
    rewrite E. cbn [fst snd].
    split; [reflexivity |]. split; [reflexivity |].
    cbn [level_complete all_levels_complete set_all_levels_complete].
    rewrite Hl. reflexivity.
  - assert (E : (current_level self <? 4)%Z = true) by (apply Z.ltb_lt; lia).
    rewrite E, set_level_run. cbn [fst snd].
    do 13 (split; [reflexivity |]). reflexivity.
Qed.

(** Two runs for the level advance.  In both the game is constructed,
    Left is pedaled at 1000 and one long tick at 1001 carries the cyclist
    past the target distance.  The first run plays level 1 and Enter
    leads to level 2; the second plays level 4 and Enter completes the
    game, a second Enter changing nothing. *)
Lemma handle_enter_key_advances_runs :
  let clock (k : nat) : Z := match k with O => 0 | S O => 1000 | S (S O) => 1000 | _ => 1001 end%Z in
  let h0 := mkHost clock 0 (fun _ => false) (fun _ => None) 0 [] in
  (let built := Game.init 800 600 None 1 h0 in
   let pedaled := Game.handle_pedal_input "left" (host_after built) (after built) in
   let ticked := Game.update 300000 (host_after pedaled) (after pedaled) in
   let entered := Game.handle_enter_key (host_after ticked) (after ticked) in
   level_complete (after ticked) = true
   /\ current_level (after ticked) = 1%Z
   /\ current_level (after entered) = 2%Z
   /\ state (physics (after entered)) = PhysicsState_default
   /\ level_started (stats (after entered))
      = <[2%Z := false]> (level_started (stats (after ticked)))
   /\ level_completion_times (stats (after entered))
      = level_completion_times (stats (after ticked)))
  /\
  (let built := Game.init 800 600 None 4 h0 in
   let pedaled := Game.handle_pedal_input "left" (host_after built) (after built) in
   let ticked := Game.update 750000 (host_after pedaled) (after pedaled) in
   let entered := Game.handle_enter_key (host_after ticked) (after ticked) in
   level_complete (after ticked) = true
   /\ current_level (after ticked) = 4%Z
   /\ all_levels_complete (after entered) = true
   /\ Game.handle_enter_key (host_after entered) (after entered)
      = (tt, host_after entered, after entered)).
Proof.
  cbv zeta. split.
  - match goal with
    | |- level_complete (after (Game.update ?dt ?h ?s)) = true /\ _ =>
        set (ticked := Game.update dt h s)
    end.
    assert (Hl : level_complete (after ticked) = true) by (vm_compute; reflexivity).
    assert (Ha : all_levels_complete (after ticked) = false) by (vm_compute; reflexivity).
    assert (Hc : current_level (after ticked) = 1%Z) by (vm_compute; reflexivity).
    destruct (handle_enter_key_advances (host_after ticked) (after ticked) Hl Ha)
      as [_ Hnext].
    destruct Hnext as (_ & _ & Hstate & Hlevel & _ & Hstarted & _ & _ & _ & _ & _ & Hdone & _).
    { rewrite Hc. lia. }
    rewrite Hc in Hlevel, Hstarted.
    split; [exact Hl |]. split; [exact Hc |]. split; [exact Hlevel |].
    split; [exact Hstate |]. split; [exact Hstarted | exact Hdone].
  - match goal with
    | |- level_complete (after (Game.update ?dt ?h ?s)) = true /\ _ =>
        set (ticked := Game.update dt h s)
    end.
    assert (Hl : level_complete (after ticked) = true) by (vm_compute; reflexivity).
    assert (Ha : all_levels_complete (after ticked) = false) by (vm_compute; reflexivity).
    assert (Hc : current_level (after ticked) = 4%Z) by (vm_compute; reflexivity).
    destruct (handle_enter_key_advances (host_after ticked) (after ticked) Hl Ha)
      as [Hlast _].
    destruct Hlast as (_ & Hall & Hagain).
    { rewrite Hc. lia. }
    split; [exact Hl |]. split; [exact Hc |]. split; [exact Hall | exact Hagain].
Defined.

(** Enter after completing level 1: the statistics are not the ones
    before the call, [level_started] has gained an entry for level 2. *)
Lemma handle_enter_key_touches_the_statistics :
  let clock (k : nat) : Z := match k with O => 0 | S O => 1000 | S (S O) => 1000 | _ => 1001 end%Z in
  let h0 := mkHost clock 0 (fun _ => false) (fun _ => None) 0 [] in
  let built := Game.init 800 600 None 1 h0 in
  let pedaled := Game.handle_pedal_input "left" (host_after built) (after built) in
  let ticked := Game.update 300000 (host_after pedaled) (after pedaled) in
  let entered := Game.handle_enter_key (host_after ticked) (after ticked) in
  level_complete (after ticked) = true
  /\ all_levels_complete (after ticked) = false
  /\ current_level (after ticked) = 1%Z
  /\ current_level (after entered) = 2%Z
  /\ level_started (stats (after ticked)) !! 2%Z = None
  /\ level_started (stats (after entered)) !! 2%Z = Some false
  /\ stats (after entered) <> stats (after ticked).
Proof.
  cbv zeta.
  do 6 (split; [vm_compute; reflexivity |]).
  intros H.
  apply (f_equal (fun s : GameStats => level_started s !! 2%Z)) in H.
  vm_compute in H. discriminate H.
Qed.

(** * Further properties of the physics engine *)

Lemma handle_pedal_accepts_iff (side : string) (t : Z) (self : Physics) :
  fst (handle_pedal side t self) = true
  <-> last_pedal_side (state self) <> Some side.
Proof.
  unfold handle_pedal.
  destruct (last_pedal_side (state self)) as [last |].
  - destruct (String.eqb_spec side last) as [-> | Hne]; simpl.
    + split; [discriminate | intros H; now contradiction H].
    + split; [intros _ H; injection H; intros ->; now apply Hne | reflexivity].
  - simpl. split; [discriminate | reflexivity].
Qed.

Lemma handle_pedal_records_side (side : string) (t : Z) (self : Physics) :
  last_pedal_side (state (snd (handle_pedal side t self)))
  = if fst (handle_pedal side t self) then Some side
    else last_pedal_side (state self).
Proof.
  unfold handle_pedal.
  destruct (match last_pedal_side (state self) with
            | Some last => String.eqb side last | None => false end);
    reflexivity.
Qed.

Lemma update_last_pedal_side (dt : Q) (t : Z) (self : Physics) :
  last_pedal_side (state (update dt t self)) = last_pedal_side (state self).
Proof.
  unfold update. destruct (_ && _); [reflexivity |].
  destruct (Qltb _ _); reflexivity.
Qed.

Lemma accepted_sides_alternate (calls : list PhysicsCall) (self : Physics) :
  without_reset calls ->
  alternates (last_pedal_side (state self)) (accepted_sides calls self).
Proof.
  revert self. induction calls as [| c calls IH]; intros self Hno; simpl.
  - exact I.
  - inversion Hno as [| ? ? Hc Hrest]; subst.
    destruct c; try (now contradiction Hc);
      try (simpl perform; apply IH; exact Hrest).
    + pose proof (handle_pedal_accepts_iff side current_time self) as Hacc.
      pose proof (handle_pedal_records_side side current_time self) as Hrec.
      simpl perform.
      destruct (fst (handle_pedal side current_time self)); simpl.
      * split; [now apply Hacc |]. rewrite <- Hrec. apply IH. exact Hrest.
      * rewrite <- Hrec. apply IH. exact Hrest.
    + simpl perform. rewrite <- (update_last_pedal_side dt current_time self).
      apply IH. exact Hrest.
Qed.

(** X1.  Along any sequence of calls without [reset], whatever the
    timestamps, the accepted pedals alternate: no two consecutive accepted
    pedals are on the same side, the first differs from the side recorded
    before the sequence, and the side recorded at the end is the side of
    the last accepted pedal. *)
Theorem accepted_pedals_alternate (calls : list PhysicsCall) (self : Physics) :
  without_reset calls ->
  alternates (last_pedal_side (state self)) (accepted_sides calls self)
  /\ last_pedal_side (state (perform_all calls self))
     = match last (accepted_sides calls self) with
       | Some side => Some side
       | None => last_pedal_side (state self)
       end.
Proof.
  intros Hno. split; [now apply accepted_sides_alternate |].
  revert self. induction calls as [| c calls IH]; intros self; simpl.
  - reflexivity.
  - inversion Hno as [| ? ? Hc Hrest]; subst.
    destruct c; try (now contradiction Hc);
      try (simpl perform; rewrite (IH Hrest); reflexivity).
    + pose proof (handle_pedal_records_side side current_time self) as Hrec.
      simpl perform. rewrite (IH Hrest).
      destruct (fst (handle_pedal side current_time self)).
      * rewrite Hrec, last_cons.
        destruct (last (accepted_sides calls (snd (handle_pedal side current_time self))));
          reflexivity.
      * rewrite Hrec. reflexivity.
    + simpl perform. rewrite (IH Hrest), update_last_pedal_side. reflexivity.
Qed.

Lemma accepted_pedals_alternate_example :
  let calls := [call_handle_pedal "left" 1000; call_handle_pedal "left" 1400;
                call_update 16 1500; call_handle_pedal "right" 1900;
                call_handle_pedal "left" 2500] in
  without_reset calls
  /\ accepted_sides calls (Physics_init 25) = ["left"; "right"; "left"]
  /\ alternates None ["left"; "right"; "left"]
  /\ last_pedal_side (state (perform_all calls (Physics_init 25))) = Some "left".
Proof.
  cbv zeta.
  assert (Hno : without_reset
                  [call_handle_pedal "left" 1000; call_handle_pedal "left" 1400;
                   call_update 16 1500; call_handle_pedal "right" 1900;
                   call_handle_pedal "left" 2500]).
  { repeat constructor; discriminate. }
  destruct (accepted_pedals_alternate _ (Physics_init 25) Hno) as [Halt Hlast].
  split; [exact Hno |]. split; [reflexivity |].
  split; [exact Halt | exact Hlast].
Defined.

Lemma perform_distance (self : Physics) (c : PhysicsCall) :
  configured self -> in_range self ->
  c <> call_reset ->
  match c with call_update dt _ => 0 <= dt | _ => True end ->
  distance_traveled (state self) <= distance_traveled (state (perform self c)).
Proof.
  intros Hc Hr Hno Hdt. apply configured_fields in Hc.
  destruct Hc as (_ & Hmin & _).
  destruct Hr as [[Hlo _] _]. rewrite Hmin in Hlo.
  destruct c; simpl; try apply Qle_refl.
  - now contradiction Hno.
  - unfold handle_pedal.
    destruct (match last_pedal_side (state self) with
              | Some last => String.eqb side last | None => false end);
      [apply Qle_refl |].
    destruct (0 <? last_pedal_time (state self))%Z; simpl; apply Qle_refl.
  - unfold update. destruct (_ && _); simpl; [apply Qle_refl |].
    destruct (Qltb 0 (speed (state self))); simpl; [| apply Qle_refl].
    assert (0 <= speed (state self) * 10 * (dt / 1000.0)).
    { apply Qmult_le_0_compat; [lra |].
      apply Qle_shift_div_l; [reflexivity | lra]. }
    lra.
Qed.

Lemma reset_free_distance (calls : list PhysicsCall) (self : Physics) :
  configured self -> in_range self ->
  without_reset calls -> forward_in_time calls ->
  distance_traveled (state self)
  <= distance_traveled (state (perform_all calls self)).
Proof.
  revert self. induction calls as [| c calls IH]; intros self Hc Hr Hno Hdt; simpl.
  - apply Qle_refl.
  - inversion Hno as [| ? ? Hc1 Hno']; subst.
    inversion Hdt as [| ? ? Hd1 Hdt']; subst.
    apply Qle_trans with (distance_traveled (state (perform self c))).
    + now apply perform_distance.
    + apply IH; auto using perform_configured, perform_in_range.
Qed.

(** X2.  With frame times [dt >= 0], the distance travelled never goes
    down except by [reset]: after any calls on a fresh engine, a further
    sequence without [reset] leaves [distance_traveled] at least where it
    was. *)
Theorem distance_never_decreases
  (max_speed_arg : Q) (before calls : list PhysicsCall) :
  without_reset calls -> forward_in_time calls ->
  let self := perform_all before (Physics_init max_speed_arg) in
  distance_traveled (state self)
  <= distance_traveled (state (perform_all calls self)).
Proof.
  intros Hno Hdt. cbv zeta.
  destruct (perform_all_invariant before (Physics_init max_speed_arg)
              (configured_init max_speed_arg) (init_in_range max_speed_arg))
    as [Hc Hr].
  now apply reset_free_distance.
Qed.

Lemma distance_never_decreases_example :
  let before := [call_handle_pedal "left" 1000; call_update 16 1016] in
  let calls := [call_handle_pedal "right" 1600; call_update 16 1616;
                call_update 0 1616; call_update 16 9000] in
  without_reset calls /\ forward_in_time calls
  /\ distance_traveled (state (perform_all before (Physics_init 25)))
     <= distance_traveled
          (state (perform_all calls (perform_all before (Physics_init 25)))).
Proof.
  cbv zeta.
  assert (Hno : without_reset
                  [call_handle_pedal "right" 1600; call_update 16 1616;
                   call_update 0 1616; call_update 16 9000]).
  { repeat constructor; discriminate. }
  assert (Hdt : forward_in_time
                  [call_handle_pedal "right" 1600; call_update 16 1616;
                   call_update 0 1616; call_update 16 9000]).
  { repeat constructor; try exact I; vm_compute; discriminate. }
  split; [exact Hno |]. split; [exact Hdt |].
  apply (distance_never_decreases 25
           [call_handle_pedal "left" 1000; call_update 16 1016] _ Hno Hdt).
Defined.

(** ** Truncation *)

Lemma py_int_Z (z : Z) : py_int (inject_Z z) = z.
Proof.
  unfold py_int. destruct (Qle_bool 0 (inject_Z z));
    [apply Qfloor_Z | apply Qceiling_Z].
Qed.

Lemma py_int_mono (x y : Q) : x <= y -> (py_int x <= py_int y)%Z.
Proof.
  intros Hxy. unfold py_int.
  destruct (Qle_bool 0 x) eqn:Ex; destruct (Qle_bool 0 y) eqn:Ey.
  - now apply Qfloor_resp_le.
  - apply Qle_bool_iff in Ex.
    assert (~ 0 <= y) by (rewrite <- Qle_bool_iff; congruence). lra.
  - assert (Hx : ~ 0 <= x) by (rewrite <- Qle_bool_iff; congruence).
    apply Qle_bool_iff in Ey.
    apply Z.le_trans with 0%Z.
    + change 0%Z with (Qceiling (inject_Z 0)) at 1. rewrite Qceiling_Z.
      rewrite <- (Qceiling_Z 0). apply Qceiling_resp_le.
      change (inject_Z 0) with 0. lra.
    + rewrite <- (Qfloor_Z 0). apply Qfloor_resp_le. exact Ey.
  - now apply Qceiling_resp_le.
Qed.

Lemma py_int_le (x : Q) (n : Z) : x <= inject_Z n -> (py_int x <= n)%Z.
Proof. intros H. rewrite <- (py_int_Z n). now apply py_int_mono. Qed.

Lemma py_int_ge (x : Q) (n : Z) : inject_Z n <= x -> (n <= py_int x)%Z.
Proof. intros H. rewrite <- (py_int_Z n) at 1. now apply py_int_mono. Qed.

Lemma py_int_below_one (x : Q) : x < 1 -> (py_int x <= 0)%Z.
Proof.
  intros H. unfold py_int. destruct (Qle_bool 0 x) eqn:E.
  - pose proof (Qfloor_le x) as Hf.
    assert (Hlt : inject_Z (Qfloor x) < inject_Z 1)
      by (change (inject_Z 1) with 1; lra).
    rewrite <- Zlt_Qlt in Hlt. lia.
  - assert (Hx : ~ 0 <= x) by (rewrite <- Qle_bool_iff; congruence).
    rewrite <- (Qceiling_Z 0). apply Qceiling_resp_le.
    change (inject_Z 0) with 0. lra.
Qed.

(** ** The response of the engine to a pedal *)

Lemma speed_for_interval_configured (self : Physics) (interval : Z) :
  configured self ->
  speed_for_interval self interval == (700 # 19) - (7 # 570) * inject_Z interval.
Proof.
  intros Hc. apply configured_fields in Hc.
  destruct Hc as (Hms & _ & _ & _ & _ & Hlo & Hhi & H0).
  unfold speed_for_interval. rewrite Hms, Hlo, Hhi, H0. simpl.
  change (3000 - 150)%Z with 2850%Z.
  generalize (inject_Z interval). intros i. unfold inject_Z. field.
Qed.

Lemma clamp_compat (lo hi x y : Q) :
  x == y -> Qmin (Qmax lo x) hi == Qmin (Qmax lo y) hi.
Proof. intros H. now rewrite H. Qed.

Lemma clamp_mono (lo hi x y : Q) :
  x <= y -> Qmin (Qmax lo x) hi <= Qmin (Qmax lo y) hi.
Proof.
  intros H.
  destruct (Q.max_spec lo x) as [[? Hx] | [? Hx]];
    destruct (Q.max_spec lo y) as [[? Hy] | [? Hy]];
    destruct (Q.min_spec (Qmax lo x) hi) as [[? Hmx] | [? Hmx]];
    destruct (Q.min_spec (Qmax lo y) hi) as [[? Hmy] | [? Hmy]];
    rewrite Hmx, Hmy; rewrite ?Hx, ?Hy in *; lra.
Qed.

(** X3.  After an accepted pedal that comes [interval >= min_pedal_interval]
    milliseconds after a recorded pedal, the speed is the value of the
    speed formula at that interval, clamped to [[min_speed, max_speed]]:
    it does not depend on the speed before.  The shortest allowed
    interval gives [max_speed], an interval of [max_pedal_interval] or
    more gives [min_speed], and a longer interval never gives a higher
    speed. *)
Theorem pedal_speed_is_set_by_the_interval
  (self : Physics) (side : string) (interval : Z) :
  configured self ->
  (0 < last_pedal_time (state self))%Z ->
  (min_pedal_interval self <= interval)%Z ->
  last_pedal_side (state self) <> Some side ->
  let pedal i := snd (handle_pedal side (last_pedal_time (state self) + i) self) in
  speed (state (pedal interval))
  == Qmin (Qmax (min_speed self) (speed_for_interval self interval))
          (max_speed self)
  /\ (interval = min_pedal_interval self ->
      speed (state (pedal interval)) == max_speed self)
  /\ ((max_pedal_interval self <= interval)%Z ->
      speed (state (pedal interval)) == min_speed self)
  /\ (forall later, (interval <= later)%Z ->
      speed (state (pedal later)) <= speed (state (pedal interval))).
Proof.
  intros Hc Hpos Hmin Hside. cbv zeta.
  assert (Halt : match last_pedal_side (state self) with
                 | Some last => String.eqb side last = false
                 | None => True
                 end).
  { destruct (last_pedal_side (state self)) as [last |]; [| exact I].
    apply String.eqb_neq. intros ->. now apply Hside. }
  assert (Hspeed : forall i, (min_pedal_interval self <= i)%Z ->
            speed (state (snd (handle_pedal side (last_pedal_time (state self) + i) self)))
            == Qmin (Qmax (min_speed self) (speed_for_interval self i))
                    (max_speed self)).
  { intros i Hi.
    destruct (handle_pedal_after_interval self side i Hpos Hi Halt) as (_ & Hs & _).
    rewrite Hs. apply clamp_compat. ring. }
  pose proof (configured_fields self Hc)
    as (Hms & Hmn & _ & _ & _ & Hlo & Hhi & _).
  split; [now apply Hspeed |]. split; [| split].
  - intros ->. rewrite Hspeed by lia.
    rewrite (speed_for_interval_configured self _ Hc), Hms, Hmn, Hlo.
    vm_compute. reflexivity.
  - intros Hlong. rewrite Hspeed by lia.
    rewrite (speed_for_interval_configured self _ Hc), Hms, Hmn.
    rewrite Hhi in Hlong. rewrite Zle_Qle in Hlong.
    change (inject_Z 3000) with 3000 in Hlong.
    destruct (Q.max_spec 0.0 ((700 # 19) - (7 # 570) * inject_Z interval))
      as [[? Hx] | [? Hx]]; [lra |].
    rewrite Hx. apply Q.min_l. lra.
  - intros later Hlater. rewrite !Hspeed by lia.
    apply clamp_mono.
    rewrite !(speed_for_interval_configured self _ Hc).
    rewrite Zle_Qle in Hlater. lra.
Qed.

Lemma pedal_speed_is_set_by_the_interval_example :
  let self := snd (handle_pedal "left" 1000 (Physics_init 25)) in
  configured self
  /\ speed (state (snd (handle_pedal "right" (1000 + 150) self)))
     == max_speed self
  /\ speed (state (snd (handle_pedal "right" (1000 + 3000) self)))
     == min_speed self
  /\ speed (state (snd (handle_pedal "right" (1000 + 900) self)))
     <= speed (state (snd (handle_pedal "right" (1000 + 600) self))).
Proof.
  cbv zeta.
  assert (Hc : configured (snd (handle_pedal "left" 1000 (Physics_init 25))))
    by reflexivity.
  split; [exact Hc |].
  destruct (pedal_speed_is_set_by_the_interval
              (snd (handle_pedal "left" 1000 (Physics_init 25))) "right" 150 Hc)
    as (_ & Hfast & _); [reflexivity | simpl; lia | discriminate |].
  destruct (pedal_speed_is_set_by_the_interval
              (snd (handle_pedal "left" 1000 (Physics_init 25))) "right" 3000 Hc)
    as (_ & _ & Hslow & _); [reflexivity | simpl; lia | discriminate |].
  destruct (pedal_speed_is_set_by_the_interval
              (snd (handle_pedal "left" 1000 (Physics_init 25))) "right" 600 Hc)
    as (_ & _ & _ & Hmono); [reflexivity | simpl; lia | discriminate |].
  split; [exact (Hfast eq_refl) |].
  split; [apply Hslow; simpl; lia |].
  apply (Hmono 900%Z). lia.
Defined.

(** X4.  An alternating pedal that comes less than [min_pedal_interval]
    after a recorded pedal is not rejected: [handle_pedal] accepts it,
    records its side and time, leaves the speed as it is and takes 100
    from the stamina, which empties it. *)
Theorem too_fast_pedal_is_accepted_and_empties_stamina
  (self : Physics) (side : string) (now : Z) :
  configured self -> in_range self ->
  (0 < last_pedal_time (state self))%Z ->
  (now - last_pedal_time (state self) < min_pedal_interval self)%Z ->
  last_pedal_side (state self) <> Some side ->
  let r := handle_pedal side now self in
  fst r = true
  /\ speed (state (snd r)) == speed (state self)
  /\ stamina (state (snd r)) == 0
  /\ last_pedal_side (state (snd r)) = Some side
  /\ last_pedal_time (state (snd r)) = now.
Proof.
  intros Hc Hr Hpos Hfast Hside. cbv zeta.
  pose proof (configured_fields self Hc)
    as (Hms & Hmn & _ & Hmst & Hmins & _).
  destruct Hr as [[Hs1 Hs2] [Ht1 Ht2]].
  rewrite Hms in Hs2. rewrite Hmn in Hs1. rewrite Hmst in Ht2.
  unfold handle_pedal.
  assert (Halt : match last_pedal_side (state self) with
                 | Some last => String.eqb side last
                 | None => false
                 end = false).
  { destruct (last_pedal_side (state self)) as [last |]; [| reflexivity].
    apply String.eqb_neq. intros ->. now apply Hside. }
  rewrite Halt.
  assert (Hp : (0 <? last_pedal_time (state self))%Z = true) by (apply Z.ltb_lt; lia).
  rewrite Hp, predict_stamina_change_unfolded. unfold predict_speed_change.
  assert (Hz : (last_pedal_time (state self) =? 0)%Z = false) by (apply Z.eqb_neq; lia).
  assert (Hi : (now - last_pedal_time (state self) <? min_pedal_interval self)%Z = true)
    by (apply Z.ltb_lt; lia).
  rewrite Hz, Hi. simpl. rewrite Hms, Hmn, Hmst, Hmins.
  split; [reflexivity |]. split; [| split; [| split; reflexivity]].
  - destruct (Q.max_spec 0.0 (speed (state self) + 0)) as [[? Hx] | [? Hx]];
      destruct (Q.min_spec (Qmax 0.0 (speed (state self) + 0)) 35.0)
        as [[? Hn] | [? Hn]];
      rewrite Hn; rewrite ?Hx in *; lra.
  - change (inject_Z (-100)) with (-100).
    destruct (Q.max_spec 0.0 (stamina (state self) + -100)) as [[? Hx] | [? Hx]];
      destruct (Q.min_spec (Qmax 0.0 (stamina (state self) + -100)) 100.0)
        as [[? Hn] | [? Hn]];
      rewrite Hn; rewrite ?Hx in *; lra.
Qed.

Lemma too_fast_pedal_is_accepted_and_empties_stamina_example :
  let self := snd (handle_pedal "left" 1000 (Physics_init 25)) in
  let r := handle_pedal "right" 1050 self in
  fst r = true
  /\ speed (state (snd r)) == speed (state self)
  /\ stamina (state (snd r)) == 0
  /\ last_pedal_side (state (snd r)) = Some "right"
  /\ last_pedal_time (state (snd r)) = 1050%Z.
Proof.
  cbv zeta.
  apply (too_fast_pedal_is_accepted_and_empties_stamina
           (snd (handle_pedal "left" 1000 (Physics_init 25))) "right" 1050).
  - reflexivity.
  - unfold in_range. simpl. lra.
  - reflexivity.
  - reflexivity.
  - discriminate.
Defined.

(** ** The stamina response *)

Lemma stamina_branch_at_most_15 (diff : Z) : (stamina_branch diff <= 15)%Z.
Proof.
  unfold stamina_branch. destruct (0 <? diff)%Z eqn:E.
  - apply Z.ltb_lt in E. apply py_int_le.
    assert (H : inject_Z 0 <= inject_Z diff) by (rewrite <- Zle_Qle; lia).
    change (inject_Z 0) with 0 in H. change (inject_Z 15) with 15. lra.
  - apply Z.ltb_ge in E. apply py_int_le.
    assert (H : inject_Z (diff + 200) <= inject_Z 200) by (rewrite <- Zle_Qle; lia).
    change (inject_Z 200) with 200 in H. change (inject_Z 15) with 15. lra.
Qed.

Lemma stamina_branch_gain (diff : Z) :
  (1 <= stamina_branch diff)%Z <-> (-186 <= diff <= 186)%Z.
Proof.
  unfold stamina_branch. destruct (0 <? diff)%Z eqn:E.
  - apply Z.ltb_lt in E. split.
    + intros H. split; [lia |].
      destruct (Z_le_gt_dec diff 186) as [Hle | Hgt]; [exact Hle | exfalso].
      assert (Hq : inject_Z 187 <= inject_Z diff) by (rewrite <- Zle_Qle; lia).
      change (inject_Z 187) with 187 in Hq.
      assert (py_int (- 0.075 * inject_Z diff + 15) <= 0)%Z
        by (apply py_int_below_one; lra).
      lia.
    + intros [_ H]. apply py_int_ge.
      assert (Hq : inject_Z diff <= inject_Z 186) by (rewrite <- Zle_Qle; lia).
      change (inject_Z 186) with 186 in Hq. change (inject_Z 1) with 1. lra.
  - apply Z.ltb_ge in E. split.
    + intros H. split; [| lia].
      destruct (Z_le_gt_dec (-186) diff) as [Hle | Hgt]; [exact Hle | exfalso].
      assert (Hq : inject_Z (diff + 200) <= inject_Z 13) by (rewrite <- Zle_Qle; lia).
      change (inject_Z 13) with 13 in Hq.
      assert (py_int (0.075 * inject_Z (diff + 200)) <= 0)%Z
        by (apply py_int_below_one; lra).
      lia.
    + intros [H _]. apply py_int_ge.
      assert (Hq : inject_Z 14 <= inject_Z (diff + 200)) by (rewrite <- Zle_Qle; lia).
      change (inject_Z 14) with 14 in Hq. change (inject_Z 1) with 1. lra.
Qed.

(** X5.  [predict_stamina_change] never promises more than 15, and for a
    pedal at least [min_pedal_interval] after a recorded pedal it is a
    gain (at least 1) exactly when the interval is within 186 ms of
    [get_curr_interval()], on either side. *)
Theorem stamina_is_gained_within_186_ms (now : Z) (self : Physics) :
  (predict_stamina_change now self <= 15)%Z
  /\ ((last_pedal_time (state self) <> 0)%Z ->
      (min_pedal_interval self <= now - last_pedal_time (state self))%Z ->
      let diff := (now - last_pedal_time (state self) - get_curr_interval self)%Z in
      (1 <= predict_stamina_change now self)%Z <-> (-186 <= diff <= 186)%Z).
Proof.
  rewrite predict_stamina_change_unfolded. split.
  - destruct (last_pedal_time (state self) =? 0)%Z; [lia |].
    destruct (now - last_pedal_time (state self) <? min_pedal_interval self)%Z;
      [lia | apply stamina_branch_at_most_15].
  - intros Hz Hi. cbv zeta.
    apply Z.eqb_neq in Hz. apply Z.ltb_ge in Hi. rewrite Hz, Hi.
    apply stamina_branch_gain.
Qed.

Lemma stamina_is_gained_within_186_ms_example :
  let self := snd (handle_pedal "left" 1000 (Physics_init 25)) in
  get_curr_interval self = 2918%Z
  /\ (1 <= predict_stamina_change (1000 + 2918 + 186) self)%Z
  /\ ~ (1 <= predict_stamina_change (1000 + 2918 + 187) self)%Z
  /\ (1 <= predict_stamina_change (1000 + 2918 - 186) self)%Z
  /\ ~ (1 <= predict_stamina_change (1000 + 2918 - 187) self)%Z.
Proof.
  cbv zeta.
  pose (self := snd (handle_pedal "left" 1000 (Physics_init 25))).
  assert (Hz : last_pedal_time (state self) <> 0%Z) by discriminate.
  split; [reflexivity |].
  split; [| split; [| split]].
  - apply (proj2 (stamina_is_gained_within_186_ms (1000 + 2918 + 186) self) Hz);
      vm_compute; first [discriminate | split; discriminate].
  - intros H.
    apply (proj2 (stamina_is_gained_within_186_ms (1000 + 2918 + 187) self) Hz) in H;
      [vm_compute in H; destruct H as [_ H]; now apply H | vm_compute; discriminate].
  - apply (proj2 (stamina_is_gained_within_186_ms (1000 + 2918 - 186) self) Hz);
      vm_compute; first [discriminate | split; discriminate].
  - intros H.
    apply (proj2 (stamina_is_gained_within_186_ms (1000 + 2918 - 187) self) Hz) in H;
      [vm_compute in H; destruct H as [H _]; now apply H | vm_compute; discriminate].
Defined.

Lemma expected_interval_bounds (self : Physics) :
  configured self -> in_range self ->
  (min_pedal_interval self <= get_curr_interval self <= max_pedal_interval self)%Z.
Proof.
  intros Hc Hr.
  pose proof (configured_fields self Hc)
    as (Hms & Hmn & _ & _ & _ & Hlo & Hhi & H0).
  destruct Hr as [[Hs1 Hs2] _]. rewrite Hmn in Hs1. rewrite Hms in Hs2.
  unfold get_curr_interval. rewrite Hms, Hlo, Hhi, H0.
  set (v := speed (state self)) in *.
  assert (Hx : (speed_at_0ms (Physics_init 35.0) - v) * inject_Z (3000 - 150) / 35.0
               == (570 # 7) * ((700 # 19) - v)).
  { simpl. change (3000 - 150)%Z with 2850%Z. unfold inject_Z. field. }
  rewrite (py_int_comp _ _ Hx).
  split.
  - apply py_int_ge. change (inject_Z 150) with 150. lra.
  - apply py_int_le. change (inject_Z 3000) with 3000. lra.
Qed.

(** X6.  In every state reached from a fresh engine the expected interval
    [get_curr_interval()] lies between [min_pedal_interval] and
    [max_pedal_interval]. *)
Theorem expected_interval_within_pedal_bounds
  (max_speed_arg : Q) (calls : list PhysicsCall) :
  let self := perform_all calls (Physics_init max_speed_arg) in
  (min_pedal_interval self <= get_curr_interval self <= max_pedal_interval self)%Z.
Proof.
  cbv zeta.
  destruct (perform_all_invariant calls (Physics_init max_speed_arg)
              (configured_init max_speed_arg) (init_in_range max_speed_arg))
    as [Hc Hr].
  now apply expected_interval_bounds.
Qed.

(** * The bars and the engine *)

Lemma clamp_either_order (hi x : Q) :
  0 <= hi -> Qmax 0 (Qmin hi x) == Qmin (Qmax 0 x) hi.
Proof.
  intros H.
  destruct (Q.min_spec hi x) as [[? Ha] | [? Ha]];
    destruct (Q.max_spec 0 x) as [[? Hb] | [? Hb]];
    destruct (Q.max_spec 0 (Qmin hi x)) as [[? Hc] | [? Hc]];
    destruct (Q.min_spec (Qmax 0 x) hi) as [[? Hd] | [? Hd]];
    rewrite Hc, Hd; rewrite ?Ha, ?Hb in *; lra.
Qed.

(** X7.  The stamina bar shows what the pedal will do: for an engine with
    a recorded pedal, the stamina at which [_draw_prediction_line] puts
    its line for the change predicted at [now] is the stamina that an
    accepted pedal at [now] leaves. *)
Theorem stamina_prediction_line_is_what_the_pedal_gives
  (self : Physics) (side : string) (now : Z) :
  configured self ->
  (0 < last_pedal_time (state self))%Z ->
  last_pedal_side (state self) <> Some side ->
  StaminaBar.new_stamina self (predict_stamina_change now self)
  == stamina (state (snd (handle_pedal side now self))).
Proof.
  intros Hc Hpos Hside.
  pose proof (configured_fields self Hc) as (_ & _ & _ & Hmst & Hmins & _).
  unfold handle_pedal.
  assert (Halt : match last_pedal_side (state self) with
                 | Some last => String.eqb side last
                 | None => false
                 end = false).
  { destruct (last_pedal_side (state self)) as [last |]; [| reflexivity].
    apply String.eqb_neq. intros ->. now apply Hside. }
  rewrite Halt.
  assert (Hp : (0 <? last_pedal_time (state self))%Z = true) by (apply Z.ltb_lt; lia).
  rewrite Hp. simpl. unfold StaminaBar.new_stamina, get_stamina.
  rewrite Hmst, Hmins.
  rewrite clamp_either_order by lra.
  assert (E : Qmax 0 (stamina (state self) + inject_Z (predict_stamina_change now self))
              == Qmax 0.0 (stamina (state self) + inject_Z (predict_stamina_change now self))).
  { apply Q.max_compat; reflexivity. }
  rewrite E. reflexivity.
Qed.

Lemma stamina_prediction_line_is_what_the_pedal_gives_example :
  let self := snd (handle_pedal "left" 1000 (Physics_init 25)) in
  StaminaBar.new_stamina self (predict_stamina_change 3900 self)
  == stamina (state (snd (handle_pedal "right" 3900 self)))
  /\ predict_stamina_change 3900 self = 13%Z.
Proof.
  cbv zeta. split; [| reflexivity].
  apply (stamina_prediction_line_is_what_the_pedal_gives
           (snd (handle_pedal "left" 1000 (Physics_init 25))) "right" 3900).
  - reflexivity.
  - reflexivity.
  - discriminate.
Defined.

Lemma sweet_spot_inside (bar : Bar) (self : Physics) :
  configured self -> in_range self -> (0 <= bar_width bar)%Z ->
  exists rect_x rect_width,
    PedalSpeedBar._draw_sweet_spot_indicator bar self = Some (rect_x, rect_width)
    /\ (0 <= rect_width <= bar_width bar)%Z
    /\ inject_Z (bar_x bar) <= rect_x
    /\ rect_x + inject_Z rect_width <= inject_Z (bar_x bar + bar_width bar).
Proof.
  intros Hc Hr Hw.
  destruct (expected_interval_bounds self Hc Hr) as [_ Hhi].
  pose proof (configured_fields self Hc) as (_ & _ & _ & _ & _ & _ & Hmax & _).
  rewrite Hmax in Hhi.
  unfold PedalSpeedBar._draw_sweet_spot_indicator.
  assert (Hratio : Qltb 1.0 (inject_Z (get_curr_interval self) / inject_Z 3000) = false).
  { unfold Qltb. apply negb_false_iff. apply Qle_bool_iff.
    rewrite Zle_Qle in Hhi. change (inject_Z 3000) with 3000 in *.
    apply Qle_shift_div_r; [reflexivity | lra]. }
  rewrite Hratio.
  set (rect_width := py_int (100 / inject_Z 3000 * inject_Z (bar_width bar))).
  assert (HW : 0 <= inject_Z (bar_width bar)).
  { change 0 with (inject_Z 0). rewrite <- Zle_Qle. exact Hw. }
  assert (Hrw : (0 <= rect_width <= bar_width bar)%Z).
  { unfold rect_width. split.
    - apply py_int_ge. change (inject_Z 0) with 0.
      change (100 / inject_Z 3000) with (100 # 3000). lra.
    - apply py_int_le. change (100 / inject_Z 3000) with (100 # 3000). lra. }
  eexists. exists rect_width. split; [reflexivity |]. split; [exact Hrw |].
  assert (Hedge : inject_Z (bar_x bar + bar_width bar - rect_width)
                  == inject_Z (bar_x bar) + inject_Z (bar_width bar)
                     - inject_Z rect_width).
  { unfold Z.sub. rewrite !inject_Z_plus, inject_Z_opp. ring. }
  assert (Hrwq : inject_Z rect_width <= inject_Z (bar_width bar))
    by (rewrite <- Zle_Qle; lia).
  rewrite inject_Z_plus.
  match goal with
  | |- _ <= Qmax ?a (Qmin ?r ?b) /\ _ =>
      destruct (Q.min_spec r b) as [[? Hn] | [? Hn]];
        destruct (Q.max_spec a (Qmin r b)) as [[? Hm] | [? Hm]];
        rewrite Hm; rewrite ?Hn in *; rewrite ?Hedge in *; split; lra
  end.
Qed.

Lemma timing_line_inside (bar : Bar) (self : Physics) (now : Z) :
  configured self -> (0 <= bar_width bar)%Z ->
  last_pedal_time (state self) <> 0%Z ->
  (last_pedal_time (state self) <= now)%Z ->
  exists line_x,
    PedalSpeedBar._draw_timing_line bar self now = Some line_x
    /\ inject_Z (bar_x bar) <= line_x <= inject_Z (bar_x bar + bar_width bar).
Proof.
  intros Hc Hw Hz Hnow.
  pose proof (configured_fields self Hc) as (_ & _ & _ & _ & _ & Hmin & Hmax & _).
  unfold PedalSpeedBar._draw_timing_line, get_time_since_last_pedal.
  apply Z.eqb_neq in Hz. rewrite Hz, Hmin, Hmax.
  change (3000 - 150)%Z with 2850%Z.
  eexists. split; [reflexivity |].
  assert (HW : 0 <= inject_Z (bar_width bar)).
  { change 0 with (inject_Z 0). rewrite <- Zle_Qle. exact Hw. }
  rewrite inject_Z_plus.
  destruct (2850 <=? now - last_pedal_time (state self))%Z eqn:E.
  - split; lra.
  - apply Z.leb_gt in E.
    set (t := (now - last_pedal_time (state self))%Z) in *.
    assert (Ht0 : inject_Z 0 <= inject_Z t) by (rewrite <- Zle_Qle; lia).
    assert (Ht1 : inject_Z t < inject_Z 2850) by (rewrite <- Zlt_Qlt; lia).
    change (inject_Z 0) with 0 in Ht0. change (inject_Z 2850) with 2850 in *.
    assert (Hp0 : 0 <= inject_Z t / 2850)
      by (apply Qle_shift_div_l; [reflexivity | lra]).
    assert (Hp1 : inject_Z t / 2850 <= 1)
      by (apply Qle_shift_div_r; [reflexivity | lra]).
    split; nra.
Qed.

(** X8.  On a bar of non-negative width and for every state reached from
    a fresh engine, the sweet-spot rectangle is always drawn and lies
    inside the bar, and so does the white timing line once a pedal time
    is recorded and the clock has not gone back behind it. *)
Theorem bar_indicators_stay_inside_the_bar
  (max_speed_arg : Q) (calls : list PhysicsCall) (bar : Bar) :
  (0 <= bar_width bar)%Z ->
  let self := perform_all calls (Physics_init max_speed_arg) in
  (exists rect_x rect_width,
     PedalSpeedBar._draw_sweet_spot_indicator bar self = Some (rect_x, rect_width)
     /\ (0 <= rect_width <= bar_width bar)%Z
     /\ inject_Z (bar_x bar) <= rect_x
     /\ rect_x + inject_Z rect_width <= inject_Z (bar_x bar + bar_width bar))
  /\ (forall now,
        last_pedal_time (state self) <> 0%Z ->
        (last_pedal_time (state self) <= now)%Z ->
        exists line_x,
          PedalSpeedBar._draw_timing_line bar self now = Some line_x
          /\ inject_Z (bar_x bar) <= line_x <= inject_Z (bar_x bar + bar_width bar)).
Proof.
  intros Hw. cbv zeta.
  destruct (perform_all_invariant calls (Physics_init max_speed_arg)
              (configured_init max_speed_arg) (init_in_range max_speed_arg))
    as [Hc Hr].
  split.
  - now apply sweet_spot_inside.
  - intros now Hz Hnow. now apply timing_line_inside.
Qed.

Lemma bar_indicators_stay_inside_the_bar_example :
  let bar := mkBar 50 10 700 25 in
  let self := perform_all [call_handle_pedal "left" 1000] (Physics_init 25) in
  (0 <= bar_width bar)%Z
  /\ (exists rect_x rect_width,
        PedalSpeedBar._draw_sweet_spot_indicator bar self = Some (rect_x, rect_width)
        /\ (0 <= rect_width <= 700)%Z
        /\ inject_Z 50 <= rect_x
        /\ rect_x + inject_Z rect_width <= inject_Z (50 + 700))
  /\ (exists line_x,
        PedalSpeedBar._draw_timing_line bar self 2425 = Some line_x
        /\ inject_Z 50 <= line_x <= inject_Z (50 + 700)).
Proof.
  cbv zeta.
  assert (Hw : (0 <= bar_width (mkBar 50 10 700 25))%Z) by (simpl; lia).
  destruct (bar_indicators_stay_inside_the_bar
              25 [call_handle_pedal "left" 1000] (mkBar 50 10 700 25) Hw)
    as [Hspot Hline].
  split; [exact Hw |]. split; [exact Hspot |].
  apply (Hline 2425%Z); [discriminate | vm_compute; discriminate].
Defined.

(** * Further properties of the statistics *)

Lemma timer_started_insert (level : Z) (b : bool) (self : GameStats) :
  timer_started level
    (set_level_started (<[level := b]> (level_started self)) self) = b.
Proof. unfold timer_started. simpl. now rewrite lookup_insert_eq. Qed.

(** X9.  [start_level_timer] starts a timer once: it sets the start time
    of a level whose timer is not running to the clock reading, leaves a
    running timer alone without reading the clock, and a second call
    changes nothing. *)
Theorem start_level_timer_keeps_the_first_reading
  (level : Z) (h : Host) (self : GameStats) :
  let first := start_level_timer level h self in
  let second := start_level_timer level (host_after first) (after first) in
  timer_started level (after first) = true
  /\ (timer_started level self = false ->
      level_start_times (after first) !! level = Some (ticks h (reads h))
      /\ host_after first = clock_read h)
  /\ (timer_started level self = true -> first = (tt, h, self))
  /\ second = (tt, host_after first, after first).
Proof.
  cbv zeta.
  assert (Hrun : start_level_timer level h self
                 = if timer_started level self then (tt, h, self)
                   else (tt, clock_read h,
                         set_level_started
                           (<[level := true]> (level_started self))
                           (set_level_start_times
                              (<[level := ticks h (reads h)]> (level_start_times self))
                              self))).
  { unfold start_level_timer. run. destruct (timer_started level self); reflexivity. }
  assert (Hon : timer_started level (after (start_level_timer level h self)) = true).
  { rewrite Hrun. destruct (timer_started level self) eqn:E; [exact E |].
    unfold after. cbn [snd]. unfold timer_started. simpl.
    now rewrite lookup_insert_eq. }
  split; [exact Hon |]. split; [| split].
  - intros E. rewrite Hrun, E. unfold after, host_after. cbn [fst snd]. simpl.
    split; [apply lookup_insert_eq | reflexivity].
  - intros E. now rewrite Hrun, E.
  - unfold start_level_timer at 1. unfold bind at 1. unfold get at 1.
    unfold result at 1. cbn [fst snd]. unfold after at 1 in Hon.
    unfold host_after at 1, after at 1, after at 1.
    cbn [fst snd]. unfold after in Hon. rewrite Hon. reflexivity.
Qed.

Lemma start_level_timer_keeps_the_first_reading_example :
  let h := mkHost (fun k => (4000 + Z.of_nat k)%Z) 7 (fun _ => false)
             (fun _ => None) 0 [] in
  let self := prepare_level 2 (GameStats_init 0) in
  let first := start_level_timer 2 h self in
  let second := start_level_timer 2 (host_after first) (after first) in
  timer_started 2 self = false
  /\ level_start_times (after first) !! 2%Z = Some 4007%Z
  /\ reads (host_after first) = 8%nat
  /\ timer_started 2 (after first) = true
  /\ second = (tt, host_after first, after first).
Proof.
  cbv zeta.
  match goal with
  | |- context [start_level_timer ?l ?h ?s] =>
      destruct (start_level_timer_keeps_the_first_reading l h s)
        as (Hon & Hfirst & _ & Hsecond)
  end.
  assert (Hoff : timer_started 2 (prepare_level 2 (GameStats_init 0)) = false)
    by reflexivity.
  destruct (Hfirst Hoff) as [Hstart Hhost].
  split; [exact Hoff |]. split; [exact Hstart |].
  split; [rewrite Hhost; reflexivity |]. split; [exact Hon | exact Hsecond].
Defined.

(** X10.  [complete_level] on a level whose timer runs returns and records
    the time from the start to its first clock reading, adds the level to
    the completed levels (keeping the others) and records its second
    clock reading as the end time; from then on [get_current_level_time]
    is frozen at that end time and reads no clock, and with a clock that
    does not go back it is at least the recorded completion time. *)
Theorem complete_level_freezes_the_timer
  (level : Z) (h : Host) (self : GameStats) (started_at : Z) :
  level_start_times self !! level = Some started_at ->
  timer_started level self = true ->
  let r := complete_level level h self in
  let t1 := ticks h (reads h) in
  let t2 := ticks h (S (reads h)) in
  result r = inject_Z (t1 - started_at) / 1000.0
  /\ level_completion_times (after r) !! level = Some (result r)
  /\ completed_levels (after r) = {[level]} ∪ completed_levels self
  /\ level_end_times (after r) !! level = Some t2
  /\ (forall h',
        get_current_level_time level h' (after r)
        = (inject_Z (t2 - started_at) / 1000.0, h', after r))
  /\ ((t1 <= t2)%Z -> result r <= inject_Z (t2 - started_at) / 1000.0).
Proof.
  intros Hs Hon. cbv zeta.
  assert (Hrun : complete_level level h self
                 = (inject_Z (ticks h (reads h) - started_at) / 1000.0,
                    clock_read (clock_read h),
                    set_level_end_times
                      (<[level := ticks h (S (reads h))]> (level_end_times self))
                      (set_completed_levels ({[level]} ∪ completed_levels self)
                         (set_level_completion_times
                            (<[level := inject_Z (ticks h (reads h) - started_at) / 1000.0]>
                               (level_completion_times self))
                            self)))).
  { unfold complete_level. run. rewrite Hs, Hon. reflexivity. }
  rewrite Hrun. unfold result, after. cbn [fst snd].
  split; [reflexivity |]. split; [simpl; apply lookup_insert_eq |].
  split; [reflexivity |]. split; [simpl; apply lookup_insert_eq |].
  split.
  - intros h'. rewrite get_current_level_time_run. unfold level_time_at.
    simpl. rewrite Hs, lookup_insert_eq.
    unfold timer_started in *. simpl. rewrite Hon. reflexivity.
  - intros Hmono.
    apply Qmult_le_compat_r; [| vm_compute; discriminate].
    rewrite <- Zle_Qle. lia.
Qed.

Lemma complete_level_freezes_the_timer_example :
  let h := mkHost (fun k => (4000 + Z.of_nat k)%Z) 7 (fun _ => false)
             (fun _ => None) 0 [] in
  let self :=
    set_level_started {[2%Z := true]}
      (set_level_start_times {[2%Z := 1000%Z]} (GameStats_init 0)) in
  let r := complete_level 2 h self in
  result r = inject_Z (4007 - 1000) / 1000.0
  /\ completed_levels (after r) = {[2%Z]} ∪ completed_levels self
  /\ level_end_times (after r) !! 2%Z = Some 4008%Z
  /\ get_current_level_time 2 h (after r)
     = (inject_Z (4008 - 1000) / 1000.0, h, after r).
Proof.
  cbv zeta.
  match goal with
  | |- context [complete_level ?l ?h ?s] =>
      destruct (complete_level_freezes_the_timer l h s 1000%Z)
        as (H1 & _ & H3 & H4 & H5 & _)
  end; try reflexivity.
  split; [exact H1 |]. split; [exact H3 |]. split; [exact H4 |]. apply H5.
Defined.

(** X11.  [prepare_level] disarms the timer of a level, whatever is
    recorded for it: until [start_level_timer] is called, [end_level] and
    [complete_level] record nothing, [get_current_level_time] is 0, and
    none of them reads the clock; [start_level_timer] then records a new
    start time in place of an old one. *)
Theorem prepare_level_disarms_the_timer
  (level : Z) (h : Host) (self : GameStats) :
  let prepared := prepare_level level self in
  end_level level h prepared = (tt, h, prepared)
  /\ complete_level level h prepared = (0.0, h, prepared)
  /\ get_current_level_time level h prepared = (0.0, h, prepared)
  /\ level_start_times (after (start_level_timer level h prepared)) !! level
     = Some (ticks h (reads h))
  /\ level_start_times prepared = level_start_times self
  /\ level_completion_times prepared = level_completion_times self
  /\ level_end_times prepared = level_end_times self
  /\ completed_levels prepared = completed_levels self.
Proof.
  cbv zeta.
  assert (Hoff : timer_started level (prepare_level level self) = false)
    by apply timer_started_insert.
  split; [| split; [| split; [| split]]].
  - rewrite end_level_run, Hoff.
    destruct (level_start_times (prepare_level level self) !! level); reflexivity.
  - unfold complete_level. run. 
    destruct (level_start_times self !! level); [| reflexivity].
    fold (prepare_level level self). rewrite Hoff. reflexivity.
  - rewrite get_current_level_time_run. unfold level_time_at. rewrite Hoff.
    destruct (level_start_times (prepare_level level self) !! level);
      [| reflexivity].
    destruct (level_end_times (prepare_level level self) !! level); reflexivity.
  - unfold start_level_timer. run. fold (prepare_level level self).
    rewrite Hoff. simpl. apply lookup_insert_eq.
  - repeat split; reflexivity.
Qed.

(** * Further properties of the state machine *)

Lemma start_level_timer_counters (level : Z) (h : Host) (self : GameStats) :
  counters (after (start_level_timer level h self)) = counters self.
Proof.
  unfold start_level_timer. run. destruct (timer_started level self); reflexivity.
Qed.

Lemma complete_level_counters (level : Z) (h : Host) (self : GameStats) :
  counters (after (complete_level level h self)) = counters self.
Proof.
  unfold complete_level. run.
  destruct (level_start_times self !! level); [| reflexivity].
  destruct (timer_started level self); reflexivity.
Qed.

Lemma ended_service_counters (now : Z) (self : GameService) :
  counters (stats (ended_service now self)) = counters (stats self).
Proof. unfold ended_service. destruct (timer_running self); reflexivity. Qed.

(** The game-over check either leaves the service alone or, in a live
    level, sets a reason and ends the game. *)
Lemma check_game_over_shape (h : Host) (self : GameService) :
  after (Game._check_game_over_conditions h self) = self
  \/ (game_over self = false /\ level_complete self = false
      /\ all_levels_complete self = false
      /\ exists now reason,
           after (Game._check_game_over_conditions h self)
           = ended_service now (set_game_over_reason reason self)).
Proof.
  unfold Game._check_game_over_conditions.
  unfold bind, get, get_ticks, modify, ret, result, host_after, after.
  cbn [fst snd].
  destruct (game_over self) eqn:Hg; [left; reflexivity |].
  destruct (level_complete self) eqn:Hl; [left; reflexivity |].
  destruct (all_levels_complete self) eqn:Ha; [left; reflexivity |].
  cbn [orb].
  destruct (_ && _).
  - right. rewrite end_game_run. cbn [snd]. repeat split. eauto.
  - destruct (Qle_bool _ _).
    + right. rewrite end_game_run. cbn [snd]. repeat split. eauto.
    + left. reflexivity.
Qed.

(** The completion check either leaves the service alone or marks the
    level complete and lets the statistics record it. *)
Lemma check_level_completion_shape (h : Host) (self : GameService) :
  after (Game._check_level_completion h self) = self
  \/ (level_complete self = false /\ all_levels_complete self = false
      /\ Qle_bool (Game.get_level_target_distance (current_level self))
                  (get_distance_meters (physics self)) = true
      /\ after (Game._check_level_completion h self)
         = set_stats (after (complete_level (current_level self) h (stats self)))
             (set_level_complete true self)).
Proof.
  unfold Game._check_level_completion, Game._complete_level.
  unfold bind, get, modify, ret, on_stats, result, host_after, after.
  cbn [fst snd].
  destruct (level_complete self) eqn:Hl; [left; reflexivity |].
  destruct (all_levels_complete self) eqn:Ha; [left; reflexivity |].
  cbn [orb].
  destruct (Qle_bool _ _) eqn:Hd; [| left; reflexivity].
  right. rewrite Hl. cbn [negb fst snd]. repeat split.
Qed.

(** The cyclist step moves the cyclist and, once all levels are complete,
    may end the game. *)
Lemma update_cyclist_shape (dt : Q) (h : Host) (self : GameService) :
  exists c,
    after (Game.update_cyclist dt h self) = set_cyclist c self
    \/ (all_levels_complete self = true
        /\ exists now,
             after (Game.update_cyclist dt h self)
             = ended_service now (set_cyclist c self)).
Proof.
  assert (Hhold : forall h s, exists c, Game.hold_cyclist h s = (tt, h, set_cyclist c s)).
  { intros h0 s. unfold Game.hold_cyclist, modify.
    destruct (negb _); [eauto |].
    exists (cyclist s). destruct s; reflexivity. }
  unfold Game.update_cyclist.
  unfold bind, get, modify, ret, result, host_after, after. cbn [fst snd].
  destruct (level_complete self && negb (all_levels_complete self)).
  - destruct (Hhold h self) as [c Hc]. exists c. left. now rewrite Hc.
  - destruct (all_levels_complete self) eqn:Ha.
    + eexists. destruct (Qltb _ _).
      * right. split; [reflexivity |]. rewrite end_game_run. cbn [snd]. eauto.
      * left. reflexivity.
    + destruct (Hhold h self) as [c Hc]. exists c. left. now rewrite Hc.
Qed.

(** ** Soundness is kept by every step *)

Lemma sound_ext (self self' : GameService) :
  physics self' = physics self ->
  counters (stats self') = counters (stats self) ->
  game_over self' = game_over self ->
  level_complete self' = level_complete self ->
  all_levels_complete self' = all_levels_complete self ->
  sound self -> sound self'.
Proof.
  unfold sound, counters. intros Hp Hc Hg Hl Ha.
  injection Hc as Hm Ht Hs _. rewrite Hp, Hm, Ht, Hs, Hg, Hl, Ha. tauto.
Qed.

Lemma sound_ended (now : Z) (self : GameService) :
  sound self ->
  level_complete self = false \/ all_levels_complete self = true ->
  sound (ended_service now self).
Proof.
  intros Hs Hflags.
  destruct (ended_service_frame now self)
    as (_ & Hp & _ & _ & Hl & _).
  pose proof (ended_service_counters now self) as Hc.
  assert (Ha : all_levels_complete (ended_service now self)
               = all_levels_complete self).
  { unfold ended_service. destruct (timer_running self); reflexivity. }
  unfold sound, counters in *. injection Hc as Hm Ht Hsu _.
  rewrite Hp, Hm, Ht, Hsu, Hl, Ha. tauto.
Qed.

Lemma update_speed (dt : Q) (t : Z) (self : Physics) :
  speed (state (update dt t self)) = speed (state self).
Proof.
  unfold update. destruct (_ && _); [reflexivity |].
  destruct (Qltb _ _); reflexivity.
Qed.

Lemma sound_physics_update (dt : Q) (t : Z) (self : GameService) :
  sound self -> sound (set_physics (update dt t (physics self)) self).
Proof.
  unfold sound. simpl. intros (Hc & Hr & Hn & Hs & Hm & Hflags).
  rewrite update_speed.
  assert (Hpar : parameters (update dt t (physics self)) = parameters (physics self))
    by apply update_parameters.
  assert (Hmax : max_speed (update dt t (physics self)) = max_speed (physics self)).
  { unfold parameters in Hpar. now injection Hpar. }
  rewrite Hmax.
  split; [unfold configured; now rewrite Hpar |].
  split; [now apply update_in_range |]. tauto.
Qed.

Lemma sound_level_completed (st : GameStats) (self : GameService) :
  sound self -> game_over self = false ->
  counters st = counters (stats self) ->
  sound (set_stats st (set_level_complete true self)).
Proof.
  unfold sound, counters. simpl. intros Hs Hg Hc.
  injection Hc as Hm Ht Hsu _. rewrite Hm, Ht, Hsu, Hg.
  destruct Hs as (H1 & H2 & H3 & H4 & H5 & _).
  split; [exact H1 |]. split; [exact H2 |]. split; [exact H3 |].
  split; [exact H4 |]. split; [exact H5 |].
  split; [reflexivity | intros H; discriminate H].
Qed.

Lemma update_sound (dt : Q) (h : Host) (self : GameService) :
  sound self -> sound (after (Game.update dt h self)).
Proof.
  intros Hs.
  assert (Hcyc : forall h0 s0, sound s0 -> sound (after (Game.update_cyclist dt h0 s0))).
  { intros h0 s0 H0.
    destruct (update_cyclist_shape dt h0 s0) as [c [E | [Ha [now E]]]]; rewrite E.
    - apply (sound_ext s0); auto.
    - apply sound_ended; [apply (sound_ext s0); auto | right; exact Ha]. }
  unfold Game.update.
  unfold bind, get, get_ticks, modify, ret, result, host_after, after in *.
  cbn [fst snd].
  destruct (game_over self || paused self) eqn:Hquiet; [exact Hs |].
  destruct (level_complete self) eqn:Hl; cbn [negb fst snd].
  - apply Hcyc. apply (sound_ext self); auto.
  - set (s1 := set_physics (update dt (ticks h (reads h)) (physics self)) self).
    assert (H1 : sound s1) by (now apply sound_physics_update).
    assert (H2 : sound (snd (Game._check_game_over_conditions (clock_read h) s1))).
    { destruct (check_game_over_shape (clock_read h) s1)
        as [E | (Hg1 & Hl1 & Ha1 & now & reason & E)];
        unfold after in E; rewrite E; [exact H1 |].
      apply sound_ended; [apply (sound_ext s1); auto | left; exact Hl1]. }
    destruct (game_over (snd (Game._check_game_over_conditions (clock_read h) s1)))
      eqn:Hg2; [exact H2 |].
    cbn [fst snd]. apply Hcyc.
    match goal with
    | |- sound (snd (Game._check_level_completion ?h3 ?s3)) =>
        assert (H3 : sound s3)
          by (apply (sound_ext _ _ eq_refl eq_refl eq_refl eq_refl eq_refl H2));
        assert (Hg3 : game_over s3 = false) by exact Hg2;
        destruct (check_level_completion_shape h3 s3)
          as [E | (Hl3 & Ha3 & _ & E)]; unfold after in E; rewrite E;
          [exact H3 |]
    end.
    apply sound_level_completed; [exact H3 | exact Hg3 |].
    apply complete_level_counters.
Qed.

(** What [handle_pedal_input] does when it is not ignored. *)
Lemma handle_pedal_input_view (side : string) (h : Host) (self : GameService) :
  game_over self || paused self || level_complete self = false ->
  exists t,
    let outcome := handle_pedal side t (physics self) in
    let r := Game.handle_pedal_input side h self in
    result r = fst outcome
    /\ physics (after r) = snd outcome
    /\ total_pedals (stats (after r)) = (total_pedals (stats self) + 1)%Z
    /\ successful_pedals (stats (after r))
       = (successful_pedals (stats self) + if fst outcome then 1 else 0)%Z
    /\ max_speed_reached (stats (after r))
       = (if fst outcome
             && Qltb (max_speed_reached (stats self)) (speed (state (snd outcome)))
          then speed (state (snd outcome))
          else max_speed_reached (stats self))
    /\ game_over (after r) = game_over self
    /\ level_complete (after r) = level_complete self
    /\ all_levels_complete (after r) = all_levels_complete self.
Proof.
  intros Hquiet.
  pose proof (start_level_timer_counters (current_level self) h (stats self)) as Hc.
  unfold counters in Hc. injection Hc as Hm Ht Hs _.
  exists (ticks (host_after (start_level_timer (current_level self) h (stats self)))
            (reads (host_after (start_level_timer (current_level self) h (stats self))))).
  unfold Game.handle_pedal_input.
  unfold bind, get, get_ticks, modify, ret, on_stats, result, host_after, after in *.
  cbn [fst snd]. rewrite Hquiet. cbn [fst snd]. cbv zeta.
  change (background_service
            (set_stats (snd (start_level_timer (current_level self) h (stats self))) self))
    with (background_service self).
  destruct (Background.is_on_start_screen (background_service self));
    cbn [physics set_background_service set_stats];
    match goal with
    | |- context [handle_pedal side ?t (physics self)] =>
        generalize (handle_pedal side t (physics self))
    end;
    intros [success engine]; cbn [fst snd];
    (destruct success; cbn [fst snd andb]; simpl; rewrite ?Hm, ?Ht, ?Hs;
     [ destruct (Qltb (max_speed_reached (stats self)) (speed (state engine)));
       simpl; rewrite ?Hm, ?Ht, ?Hs; repeat split; reflexivity
     | repeat split; try reflexivity; lia ]).
Qed.

Lemma handle_pedal_rejected (side : string) (t : Z) (self : Physics) :
  fst (handle_pedal side t self) = false -> snd (handle_pedal side t self) = self.
Proof.
  unfold handle_pedal.
  destruct (match last_pedal_side (state self) with
            | Some last => String.eqb side last | None => false end);
    [reflexivity |].
  destruct (0 <? last_pedal_time (state self))%Z; discriminate.
Qed.

Lemma handle_pedal_input_ignored (side : string) (h : Host) (self : GameService) :
  game_over self || paused self || level_complete self = true ->
  Game.handle_pedal_input side h self = (false, h, self).
Proof.
  intros Hquiet. unfold Game.handle_pedal_input, bind, get, ret, result,
    host_after, after. cbn [fst snd]. rewrite Hquiet. reflexivity.
Qed.

Lemma Qltb_true (x y : Q) : Qltb x y = true <-> x < y.
Proof.
  unfold Qltb. rewrite negb_true_iff. split.
  - intros H. apply Qnot_le_lt. intros Hle.
    apply Qle_bool_iff in Hle. congruence.
  - intros H. destruct (Qle_bool y x) eqn:E; [| reflexivity].
    apply Qle_bool_iff in E. lra.
Qed.

Lemma Qltb_false (x y : Q) : Qltb x y = false <-> y <= x.
Proof.
  unfold Qltb. rewrite negb_false_iff. apply Qle_bool_iff.
Qed.

Lemma handle_pedal_input_sound (side : string) (h : Host) (self : GameService) :
  sound self -> sound (after (Game.handle_pedal_input side h self)).
Proof.
  intros Hs.
  destruct (game_over self || paused self || level_complete self) eqn:Hquiet.
  - rewrite handle_pedal_input_ignored by exact Hquiet. exact Hs.
  - destruct (handle_pedal_input_view side h self Hquiet) as [t Hview].
    cbv zeta in Hview.
    destruct Hview as (_ & Hp & Ht & Hsu & Hm & Hg & Hl & Ha).
    destruct Hs as (Hc & Hr & Hn & Hsp & Hmax & Hflags).
    pose proof (handle_pedal_parameters side t (physics self)) as Hpar.
    pose proof (handle_pedal_in_range side t (physics self) Hc Hr) as Hr'.
    assert (Hms : max_speed (snd (handle_pedal side t (physics self)))
                  = max_speed (physics self)).
    { unfold parameters in Hpar. now injection Hpar. }
    unfold sound. rewrite Hp, Ht, Hsu, Hm, Hg, Hl, Ha, Hms.
    split; [unfold configured; now rewrite Hpar |].
    split; [exact Hr' |].
    split; [destruct (fst (handle_pedal side t (physics self))); lia |].
    split; [| split; [| exact Hflags]].
    + destruct (fst (handle_pedal side t (physics self))) eqn:Hok; cbn [andb].
      * destruct (Qltb _ _) eqn:Hlt; [lra |].
        now apply Qltb_false in Hlt.
      * rewrite (handle_pedal_rejected _ _ _ Hok). exact Hsp.
    + destruct (fst (handle_pedal side t (physics self))) eqn:Hok; cbn [andb];
        [| exact Hmax].
      destruct (Qltb _ _); [| exact Hmax].
      destruct Hr' as [[_ Hhi] _]. now rewrite Hms in Hhi.
Qed.

Lemma handle_enter_key_sound (h : Host) (self : GameService) :
  sound self -> sound (after (Game.handle_enter_key h self)).
Proof.
  intros Hs. unfold Game.handle_enter_key.
  unfold bind, get, modify, ret, result, host_after, after. cbn [fst snd].
  destruct (level_complete self) eqn:Hl; [| exact Hs].
  destruct (all_levels_complete self) eqn:Ha; [exact Hs |].
  cbn [andb negb].
  destruct Hs as (Hc & Hr & Hn & Hsp & Hmax & Hf1 & Hf2).
  assert (Hg : game_over self = false).
  { destruct (game_over self); [| reflexivity].
    destruct (Hf2 eq_refl); congruence. }
  destruct (current_level self <? 4)%Z.
  - rewrite set_level_run. unfold sound. simpl. rewrite Ha, Hg.
    apply configured_fields in Hc as Hfields.
    destruct Hfields as (Hms & Hmin & _).
    split; [exact Hc |]. split; [now apply reset_in_range |].
    split; [exact Hn |].
    split.
    + apply Qle_trans with (speed (state (physics self))); [| exact Hsp].
      destruct Hr as [[Hlo _] _]. rewrite Hmin in Hlo. exact Hlo.
    + split; [exact Hmax |]. split; intros H; discriminate H.
  - unfold sound. simpl. rewrite Hl, Hg.
    repeat (split; [assumption |]). split; [reflexivity | discriminate].
Qed.

Lemma toggle_pause_sound (h : Host) (self : GameService) :
  sound self -> sound (after (Game.toggle_pause h self)).
Proof. intros Hs. exact Hs. Qed.

Lemma start_session_shape (h : Host) (self : GameService) :
  exists session,
    after (Game._start_session h self) = set_session_id session self.
Proof.
  unfold Game._start_session.
  unfold bind, get, modify, ret, is_server_available, start_game_session,
    result, host_after, after. cbn [fst snd].
  destruct (server_available h (requests h)).
  - destruct (user self) as [user_id |]; cbn [fst snd].
    + destruct (new_session _ _) as [session |]; cbn [fst snd].
      * eauto.
      * exists (session_id self). destruct self; reflexivity.
    + exists (session_id self). destruct self; reflexivity.
  - exists (session_id self). destruct self; reflexivity.
Qed.

Lemma fresh_sound (self : GameService) :
  physics self = reset (Physics_init 25.0) ->
  (exists now level, stats self = prepare_level level (GameStats_init now)) ->
  level_complete self = false -> all_levels_complete self = false ->
  sound self.
Proof.
  intros Hp (now & level & Hst) Hl Ha. unfold sound.
  rewrite Hp, Hst, Hl, Ha. simpl.
  split; [reflexivity |]. split; [unfold in_range; simpl; lra |].
  split; [lia |]. split; [lra |]. split; [lra |].
  split; [discriminate | auto].
Qed.

Lemma init_sound (w ht : Z) (player : option string) (level : Z) (h : Host) :
  sound (after (Game.init w ht player level h)).
Proof.
  unfold Game.init. cbv zeta.
  match goal with
  | |- sound (after (Game._start_session ?h1 ?s1)) =>
      destruct (start_session_shape h1 s1) as [session E]; rewrite E
  end.
  apply fresh_sound; simpl; eauto.
Qed.

Lemma restart_run (h : Host) (self : GameService) :
  Game.restart h self
  = Game._start_session (clock_read h)
      (set_stats (prepare_level 1 (GameStats_init (ticks h (reads h))))
         (set_physics (reset (physics self))
            (set_cyclist
               (cyclist_at
                  (Background.get_cyclist_start_position
                     (Background.set_level 1 (background_service self))))
               (set_background_service
                  (Background.set_level 1 (background_service self))
                  (set_current_level 1
                     (set_game_over_reason ""
                        (set_level_start_distance 0.0
                           (set_all_levels_complete false
                              (set_level_complete false
                                 (set_session_id None
                                    (set_paused false
                                       (set_game_over false self)))))))))))).
Proof. destruct self, h. vm_compute. reflexivity. Qed.

Lemma restart_sound (h : Host) (self : GameService) :
  sound self -> sound (after (Game.restart h self)).
Proof.
  intros (Hc & _). rewrite restart_run.
  match goal with
  | |- sound (after (Game._start_session ?h1 ?s1)) =>
      destruct (start_session_shape h1 s1) as [session E]; rewrite E
  end.
  unfold sound. simpl.
  apply configured_fields in Hc as Hfields.
  destruct Hfields as (Hms & Hmin & _ & Hmst & _).
  split; [exact Hc |]. split; [now apply reset_in_range |].
  split; [lia |]. split; [lra |]. split; [rewrite Hms; lra |].
  split; [discriminate | auto].
Qed.

(** ** From the methods of the service to the playing screen *)

Section Invariant.

Variable P : GameService -> Prop.
Hypothesis pedal_step :
  forall side h s, P s -> P (after (Game.handle_pedal_input side h s)).
Hypothesis enter_step : forall h s, P s -> P (after (Game.handle_enter_key h s)).
Hypothesis pause_step : forall h s, P s -> P (after (Game.toggle_pause h s)).
Hypothesis restart_step : forall h s, P s -> P (after (Game.restart h s)).
Hypothesis tick_step : forall dt h s, P s -> P (after (Game.update dt h s)).

Lemma feed_invariant (input : Input) (h : Host) (s : GameState) :
  P (game_service s) -> P (game_service (after (feed input h s))).
Proof.
  intros Hs. destruct input as [event | dt]; [destruct event |].
  - change (P (after (Game.handle_pedal_input "left" h (game_service s)))).
    apply pedal_step, Hs.
  - change (P (after (Game.handle_pedal_input "right" h (game_service s)))).
    apply pedal_step, Hs.
  - change (P (after (Game.handle_enter_key h (game_service s)))).
    apply enter_step, Hs.
  - change (P (after (Game.handle_enter_key h (game_service s)))).
    apply enter_step, Hs.
  - change (P (after (Game.toggle_pause h (game_service s)))).
    apply pause_step, Hs.
  - unfold feed, GameState_handle_event, bind, get, result, host_after, after.
    cbn [fst snd]. destruct (game_over (game_service s)); [| exact Hs].
    change (P (after (Game.restart h (game_service s)))).
    apply restart_step, Hs.
  - exact Hs.
  - exact Hs.
  - exact Hs.
  - change (P (after (Game.update dt h (game_service s)))).
    apply tick_step, Hs.
Qed.

Lemma play_invariant (inputs : list Input) (h : Host) (s : GameState) :
  P (game_service s) -> P (game_service (after (play inputs h s))).
Proof.
  revert h s. induction inputs as [| input rest IH]; intros h s Hs.
  - exact Hs.
  - cbn [play]. unfold bind. apply IH. now apply feed_invariant.
Qed.

End Invariant.

Lemma played_sound (w ht : Z) (player : option string) (h : Host)
  (inputs : list Input) :
  sound (game_service (after (played w ht player h inputs))).
Proof.
  unfold played, opened. cbv zeta.
  apply (play_invariant sound).
  - apply handle_pedal_input_sound.
  - apply handle_enter_key_sound.
  - apply toggle_pause_sound.
  - apply restart_sound.
  - apply update_sound.
  - apply init_sound.
Qed.

(** ** What no method but [restart] assigns *)

Lemma ended_service_settings (now : Z) (self : GameService) :
  settings (ended_service now self) = settings self
  /\ session_id (ended_service now self) = session_id self.
Proof. unfold ended_service. destruct (timer_running self); split; reflexivity. Qed.

Lemma background_update_dims (dt v : Q) (self : BackgroundService) :
  bg_screen_width (Background.update dt v self) = bg_screen_width self
  /\ bg_screen_height (Background.update dt v self) = bg_screen_height self
  /\ base_speed_multiplier (Background.update dt v self)
     = base_speed_multiplier self.
Proof.
  unfold Background.update.
  destruct (phase self); try (repeat split; reflexivity);
    destruct (Qltb 0 v); try (repeat split; reflexivity);
    destruct (Qle_bool _ _); repeat split; reflexivity.
Qed.

Lemma start_riding_dims (self : BackgroundService) :
  bg_screen_width (Background.start_riding self) = bg_screen_width self
  /\ bg_screen_height (Background.start_riding self) = bg_screen_height self
  /\ base_speed_multiplier (Background.start_riding self)
     = base_speed_multiplier self.
Proof.
  unfold Background.start_riding. destruct (phase self); repeat split; reflexivity.
Qed.

Lemma settings_ext (self self' : GameService) :
  screen_width self' = screen_width self ->
  screen_height self' = screen_height self ->
  user self' = user self ->
  cyclist_exit_speed self' = cyclist_exit_speed self ->
  bg_screen_width (background_service self')
  = bg_screen_width (background_service self)
  /\ bg_screen_height (background_service self')
     = bg_screen_height (background_service self)
  /\ base_speed_multiplier (background_service self')
     = base_speed_multiplier (background_service self) ->
  parameters (physics self') = parameters (physics self) ->
  settings self' = settings self.
Proof.
  intros H1 H2 H3 H4 (H5 & H6 & H7) H8. unfold settings.
  now rewrite H1, H2, H3, H4, H5, H6, H7, H8.
Qed.

Lemma update_settings (dt : Q) (h : Host) (self : GameService) :
  settings (after (Game.update dt h self)) = settings self
  /\ session_id (after (Game.update dt h self)) = session_id self.
Proof.
  assert (Hcyc : forall h0 s0,
             settings (after (Game.update_cyclist dt h0 s0)) = settings s0
             /\ session_id (after (Game.update_cyclist dt h0 s0)) = session_id s0).
  { intros h0 s0.
    destruct (update_cyclist_shape dt h0 s0) as [c [E | [Ha [now E]]]]; rewrite E.
    - split; reflexivity.
    - apply (ended_service_settings now (set_cyclist c s0)). }
  assert (Hbg : forall v s0,
             settings (set_background_service
                         (Background.update dt v (background_service s0)) s0)
             = settings s0).
  { intros v s0. apply settings_ext; try reflexivity.
    apply background_update_dims. }
  unfold Game.update.
  unfold bind, get, get_ticks, modify, ret, result, host_after, after in *.
  cbn [fst snd].
  destruct (game_over self || paused self); [split; reflexivity |].
  destruct (level_complete self); cbn [negb fst snd].
  - destruct (Hcyc (clock_read h)
                (set_background_service
                   (Background.update dt 2.0 (background_service self)) self))
      as [E1 E2].
    rewrite E1, E2, Hbg. split; reflexivity.
  - set (s1 := set_physics (update dt (ticks h (reads h)) (physics self)) self).
    assert (H1 : settings s1 = settings self /\ session_id s1 = session_id self).
    { split; [| reflexivity]. apply settings_ext; try reflexivity.
      - repeat split; reflexivity.
      - apply update_parameters. }
    assert (H2 : settings (snd (Game._check_game_over_conditions (clock_read h) s1))
                 = settings self
                 /\ session_id (snd (Game._check_game_over_conditions
                                       (clock_read h) s1))
                    = session_id self).
    { destruct (check_game_over_shape (clock_read h) s1)
        as [E | (_ & _ & _ & now & reason & E)];
        unfold after in E; rewrite E; [exact H1 |].
      destruct (ended_service_settings now (set_game_over_reason reason s1))
        as [E1 E2].
      rewrite E1, E2. exact H1. }
    destruct (game_over (snd (Game._check_game_over_conditions (clock_read h) s1)));
      [exact H2 |].
    cbn [fst snd].
    match goal with
    | |- settings (snd (Game.update_cyclist dt ?h4 ?s4)) = _ /\ _ =>
        destruct (Hcyc h4 s4) as [E1 E2]; rewrite E1, E2
    end.
    match goal with
    | |- settings (snd (Game._check_level_completion ?h3 ?s3)) = _ /\ _ =>
        assert (H3 : settings s3 = settings self /\ session_id s3 = session_id self)
          by (destruct H2 as [E3 E4]; split; [rewrite <- E3; apply Hbg | exact E4]);
        destruct (check_level_completion_shape h3 s3)
          as [E | (_ & _ & _ & E)]; unfold after in E; rewrite E;
          [exact H3 |]
    end.
    exact H3.
Qed.

Lemma handle_pedal_input_settings (side : string) (h : Host) (self : GameService) :
  settings (after (Game.handle_pedal_input side h self)) = settings self
  /\ session_id (after (Game.handle_pedal_input side h self)) = session_id self.
Proof.
  destruct (game_over self || paused self || level_complete self) eqn:Hquiet.
  - rewrite handle_pedal_input_ignored by exact Hquiet. split; reflexivity.
  - unfold Game.handle_pedal_input.
    unfold bind, get, get_ticks, modify, ret, on_stats, result, host_after, after.
    cbn [fst snd]. rewrite Hquiet. cbn [fst snd].
    change (background_service
              (set_stats (snd (start_level_timer (current_level self) h (stats self)))
                 self))
      with (background_service self).
    pose proof (start_riding_dims (background_service self)) as Hdims.
    destruct (Background.is_on_start_screen (background_service self));
      cbn [physics set_background_service set_stats];
      match goal with
      | |- context [handle_pedal side ?t (physics self)] =>
          pose proof (handle_pedal_parameters side t (physics self)) as Hpar;
          revert Hpar; generalize (handle_pedal side t (physics self))
      end;
      intros [success engine] Hpar; cbn [fst snd] in *;
      (destruct success; cbn [fst snd];
       [ match goal with
         | |- context [Qltb ?a ?b] => destruct (Qltb a b)
         end |];
       (split; [| reflexivity]); apply settings_ext; try reflexivity;
       try exact Hpar; try exact Hdims; repeat split; reflexivity).
Qed.

Lemma handle_enter_key_settings (h : Host) (self : GameService) :
  settings (after (Game.handle_enter_key h self)) = settings self
  /\ session_id (after (Game.handle_enter_key h self)) = session_id self.
Proof.
  unfold Game.handle_enter_key.
  unfold bind, get, modify, ret, result, host_after, after. cbn [fst snd].
  destruct (level_complete self && negb (all_levels_complete self));
    [| split; reflexivity].
  destruct (current_level self <? 4)%Z; [| split; reflexivity].
  rewrite set_level_run. split; reflexivity.
Qed.

Lemma start_session_settings (h : Host) (self : GameService) :
  settings (after (Game._start_session h self)) = settings self.
Proof.
  destruct (start_session_shape h self) as [session E]. now rewrite E.
Qed.

Lemma restart_settings (h : Host) (self : GameService) :
  settings (after (Game.restart h self)) = settings self.
Proof. rewrite restart_run, start_session_settings. reflexivity. Qed.

Lemma init_settings (w ht : Z) (player : option string) (level : Z) (h : Host) :
  settings (after (Game.init w ht player level h))
  = (w, ht, player, 100.0, (w, ht, 8.0), parameters (Physics_init 25.0)).
Proof. unfold Game.init. cbv zeta. rewrite start_session_settings. reflexivity. Qed.

Lemma played_settings (w ht : Z) (player : option string) (h : Host)
  (inputs : list Input) :
  settings (game_service (after (played w ht player h inputs)))
  = (w, ht, player, 100.0, (w, ht, 8.0), parameters (Physics_init 25.0)).
Proof.
  unfold played, opened. cbv zeta.
  apply (play_invariant
           (fun s => settings s
                     = (w, ht, player, 100.0, (w, ht, 8.0),
                        parameters (Physics_init 25.0)))).
  - intros side h0 s Hs. now rewrite (proj1 (handle_pedal_input_settings side h0 s)).
  - intros h0 s Hs. now rewrite (proj1 (handle_enter_key_settings h0 s)).
  - intros h0 s Hs. exact Hs.
  - intros h0 s Hs. now rewrite restart_settings.
  - intros dt h0 s Hs. now rewrite (proj1 (update_settings dt h0 s)).
  - apply init_settings.
Qed.

(** With the settings of the constructor, [restart] builds what the
    constructor builds for level 1. *)
Lemma restart_fresh (w ht : Z) (player : option string) (h : Host)
  (self : GameService) :
  settings self = (w, ht, player, 100.0, (w, ht, 8.0), parameters (Physics_init 25.0)) ->
  Game.restart h self = Game.init w ht player 1 h.
Proof.
  intros Hs. rewrite restart_run. unfold Game.init. cbv zeta.
  f_equal.
  destruct self as [sw sh us go pa si cl lc alc lsd gor bg cy ph st ces].
  destruct bg as [bw bh bl bp bo bt bgl bts bm].
  destruct ph as [ms pst mins mms mxs mns mpi xpi s0].
  unfold settings, parameters in Hs. simpl in Hs.
  injection Hs as -> -> -> -> -> -> -> -> -> -> -> -> -> -> ->.
  reflexivity.
Qed.

(** * The playing screen, from its construction on *)

Lemma success_ratio_bounds (self : GameStats) :
  (0 <= successful_pedals self <= total_pedals self)%Z ->
  0 <= success_ratio self <= 100.
Proof.
  intros [Hlo Hhi]. unfold success_ratio.
  destruct (total_pedals self =? 0)%Z eqn:Ez; [lra |].
  apply Z.eqb_neq in Ez.
  assert (Ht : 0 < inject_Z (total_pedals self)).
  { change 0 with (inject_Z 0). rewrite <- Zlt_Qlt. lia. }
  assert (Hs0 : 0 <= inject_Z (successful_pedals self)).
  { change 0 with (inject_Z 0). now rewrite <- Zle_Qle. }
  assert (Hst : inject_Z (successful_pedals self) <= inject_Z (total_pedals self))
    by now rewrite <- Zle_Qle.
  assert (H0 : 0 <= inject_Z (successful_pedals self) / inject_Z (total_pedals self)).
  { apply Qle_shift_div_l; [exact Ht | lra]. }
  assert (H1 : inject_Z (successful_pedals self) / inject_Z (total_pedals self) <= 1).
  { apply Qle_shift_div_r; [exact Ht | lra]. }
  split; nra.
Qed.

(** X12.  Whatever the main loop feeds the playing screen after its
    construction, and whatever the clock and the server answer, the
    figures shown to the player stay consistent: successful pedals never
    exceed the pedals counted, the success ratio lies between 0 and 100,
    the speed lies between 0 and 35 and never exceeds the recorded
    maximum speed, which itself is at most 35, and the stamina lies
    between 0 and 100. *)
Theorem figures_stay_consistent_during_play
  (w ht : Z) (player : option string) (h : Host) (inputs : list Input) :
  let service := game_service (after (played w ht player h inputs)) in
  (0 <= successful_pedals (stats service) <= total_pedals (stats service))%Z
  /\ 0 <= success_ratio (stats service) <= 100
  /\ 0 <= speed (state (physics service)) <= max_speed_reached (stats service)
  /\ max_speed_reached (stats service) <= 35
  /\ 0 <= stamina (state (physics service)) <= 100.
Proof.
  cbv zeta.
  destruct (played_sound w ht player h inputs)
    as (Hc & [[Hlo Hhi] [Hs0 Hs1]] & Hn & Hsp & Hmax & _).
  apply configured_fields in Hc.
  destruct Hc as (Hms & Hmin & _ & Hmst & _).
  rewrite Hmin in Hlo. rewrite Hms in Hmax. rewrite Hmst in Hs1.
  split; [exact Hn |]. split; [now apply success_ratio_bounds |].
  split; [split; [lra | exact Hsp] |]. split; [lra | split; lra].
Qed.

(** X13.  Along every play of the screen the flags of the service stay
    coherent: [all_levels_complete] is only set with [level_complete],
    and the game is never over while a completed level waits for Enter. *)
Theorem game_is_never_over_between_levels
  (w ht : Z) (player : option string) (h : Host) (inputs : list Input) :
  let service := game_service (after (played w ht player h inputs)) in
  (all_levels_complete service = true -> level_complete service = true)
  /\ (game_over service = true -> level_complete service = true ->
      all_levels_complete service = true).
Proof.
  cbv zeta.
  destruct (played_sound w ht player h inputs) as (_ & _ & _ & _ & _ & H1 & H2).
  split; [exact H1 |].
  intros Hg Hl. destruct (H2 Hg) as [Hl' | Ha]; [congruence | exact Ha].
Qed.

Lemma game_is_never_over_between_levels_run :
  let clock (k : nat) : Z := if (k <=? 2)%nat then 1000%Z else 5000%Z in
  let h := mkHost clock 0 (fun _ => false) (fun _ => None) 0 [] in
  let service :=
    game_service
      (after (played 800 600 None h [input_event KEYDOWN_K_LEFT; input_frame 16])) in
  game_over service = true
  /\ level_complete service = false
  /\ (level_complete service = true -> all_levels_complete service = true).
Proof.
  cbv zeta.
  match goal with
  | |- game_over (game_service (after (played ?w ?ht ?p ?h ?inputs))) = true /\ _ =>
      destruct (game_is_never_over_between_levels w ht p h inputs) as [_ H2];
        assert (Hg : game_over (game_service (after (played w ht p h inputs))) = true)
          by (vm_compute; reflexivity)
  end.
  split; [exact Hg |]. split; [vm_compute; reflexivity | exact (H2 Hg)].
Defined.

(** X14.  At any point of any play, [restart] builds exactly the service
    that the constructor builds for level 1 with the same screen and
    player, at the same host: nothing of the finished game survives in the
    flags, the level, the background, the cyclist, the engine, the
    statistics or the session. *)
Theorem restart_is_a_fresh_game
  (w ht : Z) (player : option string) (h : Host) (inputs : list Input)
  (now : Host) :
  Game.restart now (game_service (after (played w ht player h inputs)))
  = Game.init w ht player 1 now.
Proof. apply restart_fresh, played_settings. Qed.

(** ** After the game is over *)

Lemma set_paused_twice (b c : bool) (self : GameService) :
  set_paused b (set_paused c self) = set_paused b self.
Proof. reflexivity. Qed.

Lemma feed_after_game_over (input : Input) (h : Host) (s : GameState) :
  game_over (game_service s) = true ->
  (level_complete (game_service s) = true ->
   all_levels_complete (game_service s) = true) ->
  not_restart input ->
  host_after (feed input h s) = h
  /\ set_paused false (game_service (after (feed input h s)))
     = set_paused false (game_service s).
Proof.
  intros Hg Hflags Hkey.
  destruct input as [event | dt]; [destruct event |];
    try (split; reflexivity).
  - unfold feed, GameState_handle_event, on_service, bind, ret, result,
      host_after, after. cbn [fst snd game_service].
    rewrite handle_pedal_input_ignored by (rewrite Hg; reflexivity).
    split; reflexivity.
  - unfold feed, GameState_handle_event, on_service, bind, ret, result,
      host_after, after. cbn [fst snd game_service].
    rewrite handle_pedal_input_ignored by (rewrite Hg; reflexivity).
    split; reflexivity.
  - unfold feed, GameState_handle_event, on_service, Game.handle_enter_key,
      bind, get, modify, ret, result, host_after, after.
    cbn [fst snd game_service].
    destruct (level_complete (game_service s)); [| split; reflexivity].
    rewrite (Hflags eq_refl). split; reflexivity.
  - unfold feed, GameState_handle_event, on_service, Game.handle_enter_key,
      bind, get, modify, ret, result, host_after, after.
    cbn [fst snd game_service].
    destruct (level_complete (game_service s)); [| split; reflexivity].
    rewrite (Hflags eq_refl). split; reflexivity.
  - now contradiction Hkey.
  - unfold feed, GameState_update, on_service, result, host_after, after.
    rewrite update_after_game_over by exact Hg. split; reflexivity.
Qed.

Lemma play_after_game_over (inputs : list Input) (h : Host) (s : GameState) :
  game_over (game_service s) = true ->
  (level_complete (game_service s) = true ->
   all_levels_complete (game_service s) = true) ->
  Forall not_restart inputs ->
  host_after (play inputs h s) = h
  /\ set_paused false (game_service (after (play inputs h s)))
     = set_paused false (game_service s).
Proof.
  revert h s. induction inputs as [| input rest IH]; intros h s Hg Hflags Hkeys.
  - split; reflexivity.
  - inversion Hkeys as [| ? ? Hkey Hrest]; subst.
    destruct (feed_after_game_over input h s Hg Hflags Hkey) as [Hh Hs].
    cbn [play]. unfold bind.
    assert (Hg' : game_over (game_service (after (feed input h s))) = true).
    { apply (f_equal game_over) in Hs. simpl in Hs. now rewrite Hs. }
    assert (Hl' : level_complete (game_service (after (feed input h s)))
                  = level_complete (game_service s)).
    { apply (f_equal level_complete) in Hs. exact Hs. }
    assert (Ha' : all_levels_complete (game_service (after (feed input h s)))
                  = all_levels_complete (game_service s)).
    { apply (f_equal all_levels_complete) in Hs. exact Hs. }
    destruct (IH (host_after (feed input h s)) (after (feed input h s)))
      as [Hh2 Hs2]; [exact Hg' | rewrite Hl', Ha'; exact Hflags | exact Hrest |].
    split; [now rewrite Hh2 | now rewrite Hs2].
Qed.

(** X15.  Once a play has ended in game over, nothing but the R key does
    anything: whatever else the main loop feeds the screen, the clock is
    not read, the server is not contacted, and the service changes in
    nothing but its [paused] flag. *)
Theorem game_over_is_final_until_restart
  (w ht : Z) (player : option string) (h : Host) (inputs more : list Input) :
  let over := played w ht player h inputs in
  game_over (game_service (after over)) = true ->
  Forall not_restart more ->
  let r := play more (host_after over) (after over) in
  host_after r = host_after over
  /\ set_paused false (game_service (after r))
     = set_paused false (game_service (after over)).
Proof.
  cbv zeta. intros Hg Hkeys.
  apply play_after_game_over; [exact Hg | | exact Hkeys].
  intros Hl.
  destruct (played_sound w ht player h inputs) as (_ & _ & _ & _ & _ & _ & H2).
  destruct (H2 Hg) as [Hl' | Ha]; [congruence | exact Ha].
Qed.

Lemma game_over_is_final_until_restart_run :
  let clock (k : nat) : Z := if (k <=? 2)%nat then 1000%Z else 5000%Z in
  let h0 := mkHost clock 0 (fun _ => false) (fun _ => None) 0 [] in
  let inputs := [input_event KEYDOWN_K_LEFT; input_frame 16] in
  let more := [input_event KEYDOWN_K_RIGHT; input_frame 16;
               input_event KEYDOWN_K_RETURN; input_event KEYDOWN_K_ESCAPE;
               input_event KEYDOWN_K_m; input_frame 16] in
  let over := played 800 600 None h0 inputs in
  let r := play more (host_after over) (after over) in
  game_over (game_service (after over)) = true
  /\ host_after r = host_after over
  /\ set_paused false (game_service (after r))
     = set_paused false (game_service (after over)).
Proof.
  cbv zeta.
  assert (Hg : game_over
                 (game_service
                    (after (played 800 600 None
                              (mkHost (fun k => if (k <=? 2)%nat then 1000%Z
                                                else 5000%Z)
                                 0 (fun _ => false) (fun _ => None) 0 [])
                              [input_event KEYDOWN_K_LEFT; input_frame 16])))
               = true) by (vm_compute; reflexivity).
  split; [exact Hg |].
  apply game_over_is_final_until_restart; [exact Hg |].
  repeat (constructor; [unfold not_restart; discriminate |]). constructor.
Defined.

(** ** Reports to the server *)

Lemma end_game_unreported (h : Host) (self : GameService) :
  session_id self = None ->
  ended (host_after (Game._end_game h self)) = ended h.
Proof.
  intros Hs. rewrite end_game_run. unfold host_after. cbn [fst snd].
  rewrite Hs. destruct (timer_running self); reflexivity.
Qed.

Lemma complete_level_log (level : Z) (h : Host) (self : GameStats) :
  ended (host_after (complete_level level h self)) = ended h.
Proof.
  unfold complete_level. run.
  destruct (level_start_times self !! level); [| reflexivity].
  destruct (timer_started level self); reflexivity.
Qed.

Lemma start_level_timer_log (level : Z) (h : Host) (self : GameStats) :
  ended (host_after (start_level_timer level h self)) = ended h.
Proof.
  unfold start_level_timer. run. destruct (timer_started level self); reflexivity.
Qed.

Lemma check_game_over_unreported (h : Host) (self : GameService) :
  session_id self = None ->
  ended (host_after (Game._check_game_over_conditions h self)) = ended h.
Proof.
  intros Hs. unfold Game._check_game_over_conditions.
  unfold bind, get, get_ticks, modify, ret, result, host_after, after.
  cbn [fst snd].
  destruct (game_over self || level_complete self || all_levels_complete self);
    [reflexivity |].
  destruct (_ && _).
  - apply (end_game_unreported (clock_read h)). exact Hs.
  - destruct (Qle_bool _ _); [| reflexivity].
    apply (end_game_unreported (clock_read h)). exact Hs.
Qed.

Lemma check_level_completion_log (h : Host) (self : GameService) :
  ended (host_after (Game._check_level_completion h self)) = ended h.
Proof.
  unfold Game._check_level_completion, Game._complete_level.
  unfold bind, get, modify, ret, on_stats, result, host_after, after.
  cbn [fst snd].
  destruct (level_complete self || all_levels_complete self); [reflexivity |].
  destruct (Qle_bool _ _); [| reflexivity].
  destruct (negb (level_complete self)); [| reflexivity].
  cbn [fst snd]. apply complete_level_log.
Qed.

Lemma update_cyclist_unreported (dt : Q) (h : Host) (self : GameService) :
  session_id self = None ->
  ended (host_after (Game.update_cyclist dt h self)) = ended h.
Proof.
  intros Hs. unfold Game.update_cyclist, Game.hold_cyclist.
  unfold bind, get, modify, ret, result, host_after, after. cbn [fst snd].
  destruct (level_complete self && negb (all_levels_complete self));
    [reflexivity |].
  destruct (all_levels_complete self); [| reflexivity].
  cbn [fst snd]. destruct (Qltb _ _); [| reflexivity].
  apply end_game_unreported. exact Hs.
Qed.

Lemma update_unreported (dt : Q) (h : Host) (self : GameService) :
  session_id self = None ->
  ended (host_after (Game.update dt h self)) = ended h.
Proof.
  intros Hs. unfold Game.update.
  unfold bind, get, get_ticks, modify, ret, result, host_after, after.
  cbn [fst snd].
  destruct (game_over self || paused self); [reflexivity |].
  destruct (level_complete self); cbn [negb fst snd].
  - apply (update_cyclist_unreported dt (clock_read h)). exact Hs.
  - set (s1 := set_physics (update dt (ticks h (reads h)) (physics self)) self).
    assert (H1 : session_id s1 = None) by exact Hs.
    pose proof (check_game_over_unreported (clock_read h) s1 H1) as Hlog.
    unfold host_after in Hlog.
    assert (H2 : session_id (snd (Game._check_game_over_conditions (clock_read h) s1))
                 = None).
    { destruct (check_game_over_shape (clock_read h) s1)
        as [E | (_ & _ & _ & now & reason & E)];
        unfold after in E; rewrite E; [exact H1 |].
      now rewrite (proj2 (ended_service_settings now (set_game_over_reason reason s1))). }
    destruct (game_over (snd (Game._check_game_over_conditions (clock_read h) s1)));
      [exact Hlog |].
    cbn [fst snd].
    match goal with
    | |- ended (fst (Game.update_cyclist dt ?h4 ?s4)).2 = _ =>
        pose proof (update_cyclist_unreported dt h4 s4) as Hcyc;
        unfold host_after in Hcyc; rewrite Hcyc; clear Hcyc
    end.
    + match goal with
      | |- ended (fst (Game._check_level_completion ?h3 ?s3)).2 = _ =>
          pose proof (check_level_completion_log h3 s3) as Hlev;
          unfold host_after in Hlev; rewrite Hlev; clear Hlev
      end.
      exact Hlog.
    + match goal with
      | |- session_id (snd (Game._check_level_completion ?h3 ?s3)) = _ =>
          destruct (check_level_completion_shape h3 s3)
            as [E | (_ & _ & _ & E)]; unfold after in E; rewrite E; exact H2
      end.
Qed.

Lemma handle_pedal_input_log (side : string) (h : Host) (self : GameService) :
  ended (host_after (Game.handle_pedal_input side h self)) = ended h.
Proof.
  destruct (game_over self || paused self || level_complete self) eqn:Hquiet.
  - rewrite handle_pedal_input_ignored by exact Hquiet. reflexivity.
  - unfold Game.handle_pedal_input.
    unfold bind, get, get_ticks, modify, ret, on_stats, result, host_after, after.
    cbn [fst snd]. rewrite Hquiet. cbn [fst snd].
    match goal with
    | |- context [fst (handle_pedal ?s ?t ?p)] => destruct (fst (handle_pedal s t p))
    end; cbn [fst snd]; apply start_level_timer_log.
Qed.

Lemma handle_enter_key_host (h : Host) (self : GameService) :
  host_after (Game.handle_enter_key h self) = h.
Proof.
  unfold Game.handle_enter_key.
  unfold bind, get, modify, ret, result, host_after, after. cbn [fst snd].
  destruct (level_complete self && negb (all_levels_complete self));
    [| reflexivity].
  destruct (current_level self <? 4)%Z; [| reflexivity].
  rewrite set_level_run. reflexivity.
Qed.

Lemma start_session_guest (h : Host) (self : GameService) :
  user self = None ->
  ended (host_after (Game._start_session h self)) = ended h
  /\ after (Game._start_session h self) = self.
Proof.
  intros Hu. unfold Game._start_session.
  unfold bind, get, modify, ret, is_server_available, result, host_after, after.
  cbn [fst snd].
  destruct (server_available h (requests h)); cbn [fst snd];
    rewrite ?Hu; split; reflexivity.
Qed.

(** A service without a player and without a session. *)
Lemma restart_guest (h : Host) (self : GameService) :
  user self = None ->
  ended (host_after (Game.restart h self)) = ended h
  /\ session_id (after (Game.restart h self)) = None.
Proof.
  intros Hu. rewrite restart_run.
  match goal with
  | |- context [Game._start_session ?h1 ?s1] =>
      destruct (start_session_guest h1 s1 Hu) as [E1 E2]; rewrite E1, E2
  end.
  split; reflexivity.
Qed.

Lemma init_guest (w ht level : Z) (h : Host) :
  ended (host_after (Game.init w ht None level h)) = ended h
  /\ session_id (after (Game.init w ht None level h)) = None.
Proof.
  unfold Game.init. cbv zeta.
  match goal with
  | |- context [Game._start_session ?h1 ?s1] =>
      destruct (start_session_guest h1 s1 eq_refl) as [E1 E2]; rewrite E1, E2
  end.
  split; reflexivity.
Qed.

Lemma user_of_settings (self self' : GameService) :
  settings self' = settings self -> user self' = user self.
Proof. unfold settings. intros H. now injection H. Qed.

Lemma feed_guest (input : Input) (h : Host) (s : GameState) :
  user (game_service s) = None -> session_id (game_service s) = None ->
  ended (host_after (feed input h s)) = ended h
  /\ user (game_service (after (feed input h s))) = None
  /\ session_id (game_service (after (feed input h s))) = None.
Proof.
  intros Hu Hs. destruct input as [event | dt]; [destruct event |];
    try (repeat split; assumption).
  - change (ended (host_after (Game.handle_pedal_input "left" h (game_service s)))
            = ended h
            /\ user (after (Game.handle_pedal_input "left" h (game_service s))) = None
            /\ session_id (after (Game.handle_pedal_input "left" h (game_service s)))
               = None).
    destruct (handle_pedal_input_settings "left" h (game_service s)) as [E1 E2].
    rewrite (user_of_settings _ _ E1), E2, handle_pedal_input_log. auto.
  - change (ended (host_after (Game.handle_pedal_input "right" h (game_service s)))
            = ended h
            /\ user (after (Game.handle_pedal_input "right" h (game_service s))) = None
            /\ session_id (after (Game.handle_pedal_input "right" h (game_service s)))
               = None).
    destruct (handle_pedal_input_settings "right" h (game_service s)) as [E1 E2].
    rewrite (user_of_settings _ _ E1), E2, handle_pedal_input_log. auto.
  - change (ended (host_after (Game.handle_enter_key h (game_service s))) = ended h
            /\ user (after (Game.handle_enter_key h (game_service s))) = None
            /\ session_id (after (Game.handle_enter_key h (game_service s))) = None).
    destruct (handle_enter_key_settings h (game_service s)) as [E1 E2].
    rewrite (user_of_settings _ _ E1), E2, handle_enter_key_host. auto.
  - change (ended (host_after (Game.handle_enter_key h (game_service s))) = ended h
            /\ user (after (Game.handle_enter_key h (game_service s))) = None
            /\ session_id (after (Game.handle_enter_key h (game_service s))) = None).
    destruct (handle_enter_key_settings h (game_service s)) as [E1 E2].
    rewrite (user_of_settings _ _ E1), E2, handle_enter_key_host. auto.
  - unfold feed, GameState_handle_event, bind, get, result, host_after, after.
    cbn [fst snd]. destruct (game_over (game_service s));
      [| repeat split; assumption].
    change (ended (host_after (Game.restart h (game_service s))) = ended h
            /\ user (after (Game.restart h (game_service s))) = None
            /\ session_id (after (Game.restart h (game_service s))) = None).
    destruct (restart_guest h (game_service s) Hu) as [E1 E2].
    rewrite (user_of_settings _ _ (restart_settings h (game_service s))). auto.
  - change (ended (host_after (Game.update dt h (game_service s))) = ended h
            /\ user (after (Game.update dt h (game_service s))) = None
            /\ session_id (after (Game.update dt h (game_service s))) = None).
    destruct (update_settings dt h (game_service s)) as [E1 E2].
    rewrite (user_of_settings _ _ E1), E2, update_unreported; auto.
Qed.

Lemma play_guest (inputs : list Input) (h : Host) (s : GameState) :
  user (game_service s) = None -> session_id (game_service s) = None ->
  ended (host_after (play inputs h s)) = ended h
  /\ session_id (game_service (after (play inputs h s))) = None.
Proof.
  revert h s. induction inputs as [| input rest IH]; intros h s Hu Hs.
  - split; [reflexivity | exact Hs].
  - destruct (feed_guest input h s Hu Hs) as (E1 & E2 & E3).
    cbn [play]. unfold bind.
    destruct (IH (host_after (feed input h s)) (after (feed input h s)) E2 E3)
      as [E4 E5].
    split; [now rewrite E4 | exact E5].
Qed.

(** X16.  A game played without a logged-in player never reports to the
    server: whatever is fed to the screen and whatever the server
    answers, no session is opened and no [end_game_session] call is made,
    through game overs and restarts alike. *)
Theorem guest_game_is_never_reported
  (w ht : Z) (h : Host) (inputs : list Input) :
  let r := played w ht None h inputs in
  ended (host_after r) = ended h
  /\ session_id (game_service (after r)) = None.
Proof.
  cbv zeta. unfold played, opened, GameState_init. cbv zeta.
  destruct (init_guest w ht 1 h) as [E1 E2].
  match goal with
  | |- context [play inputs ?h1 ?s1] =>
      destruct (play_guest inputs h1 s1) as [E3 E4]
  end.
  - cbn [after snd game_service].
    pose proof (init_settings w ht None 1 h) as Hset.
    unfold settings in Hset. now injection Hset.
  - exact E2.
  - split; [| exact E4]. rewrite E3. exact E1.
Qed.

(** * What a live tick decides *)

Lemma check_game_over_live (h : Host) (self : GameService) :
  game_over self = false -> level_complete self = false ->
  all_levels_complete self = false ->
  let now := ticks h (reads h) in
  let stalled :=
    (0 <? last_pedal_time (state (physics self)))%Z
    && (max_pedal_interval (physics self)
        <? now - last_pedal_time (state (physics self)))%Z in
  let exhausted := Qle_bool (get_stamina (physics self)) 0 in
  let self' := after (Game._check_game_over_conditions h self) in
  game_over self' = stalled || exhausted
  /\ physics self' = physics self
  /\ level_complete self' = false
  /\ all_levels_complete self' = false
  /\ current_level self' = current_level self
  /\ game_over_reason self'
     = (if stalled then "You stopped pedaling for too long!"
        else if exhausted then "You ran out of stamina!"
        else game_over_reason self).
Proof.
  intros Hg Hl Ha. cbv zeta. unfold Game._check_game_over_conditions.
  unfold bind, get, get_ticks, modify, ret, result, host_after, after.
  cbn [fst snd]. rewrite Hg, Hl, Ha. cbn [orb].
  assert (Hend : forall reason,
             let ended := snd (Game._end_game (clock_read h)
                                 (set_game_over_reason reason self)) in
             game_over ended = true /\ physics ended = physics self
             /\ level_complete ended = false /\ all_levels_complete ended = false
             /\ current_level ended = current_level self
             /\ game_over_reason ended = reason).
  { intros reason. cbv zeta. rewrite end_game_run. cbn [snd].
    destruct (ended_service_frame (ticks (clock_read h) (reads (clock_read h)))
                (set_game_over_reason reason self))
      as (E1 & E2 & E3 & E4 & E5 & _).
    rewrite E1, E2, E3, E4, E5. repeat split; try assumption.
    unfold ended_service. destruct (timer_running _); exact Ha. }
  destruct (_ && _).
  - apply Hend.
  - cbn [orb]. destruct (Qle_bool _ _); [apply Hend |].
    cbn [snd]. repeat split; assumption.
Qed.

Lemma check_level_completion_live (h : Host) (self : GameService) :
  level_complete self = false -> all_levels_complete self = false ->
  let reached :=
    Qle_bool (Game.get_level_target_distance (current_level self))
             (get_distance_meters (physics self)) in
  let self' := after (Game._check_level_completion h self) in
  level_complete self' = reached
  /\ physics self' = physics self
  /\ game_over self' = game_over self
  /\ all_levels_complete self' = false
  /\ game_over_reason self' = game_over_reason self.
Proof.
  intros Hl Ha. cbv zeta.
  destruct (check_level_completion_shape h self) as [E | (_ & _ & Hd & E)].
  - revert E. unfold Game._check_level_completion, Game._complete_level.
    unfold bind, get, modify, ret, on_stats, result, host_after, after.
    cbn [fst snd]. rewrite Hl, Ha. cbn [orb negb].
    destruct (Qle_bool _ _).
    + cbn [fst snd]. intros E. rewrite E. apply (f_equal level_complete) in E.
      simpl in E. rewrite Hl in E. discriminate E.
    + intros _. cbn [snd]. repeat split; assumption.
  - rewrite E, Hd. repeat split. exact Ha.
Qed.

Lemma update_cyclist_live (dt : Q) (h : Host) (self : GameService) :
  all_levels_complete self = false ->
  exists c, after (Game.update_cyclist dt h self) = set_cyclist c self.
Proof.
  intros Ha.
  destruct (update_cyclist_shape dt h self) as [c [E | [Ha' _]]];
    [eauto | congruence].
Qed.

(** X17.  What a tick decides for a running level.  The engine is advanced
    with the first clock reading of the tick; then the game is over when
    the second reading is more than [max_pedal_interval] after the last
    recorded pedal or the stamina is used up, with the reason of the first
    of the two that holds; the level is complete when the game is not
    over and the distance has reached the target of the level.  Game over
    is decided first: a tick that reaches the target with the stamina
    used up ends the game and does not complete the level. *)
Theorem live_tick_decides_game_over_before_completion
  (dt : Q) (h : Host) (self : GameService) :
  game_over self = false -> paused self = false ->
  level_complete self = false -> all_levels_complete self = false ->
  let engine := update dt (ticks h (reads h)) (physics self) in
  let now := ticks h (S (reads h)) in
  let stalled :=
    (0 <? last_pedal_time (state engine))%Z
    && (max_pedal_interval engine <? now - last_pedal_time (state engine))%Z in
  let exhausted := Qle_bool (get_stamina engine) 0 in
  let reached :=
    Qle_bool (Game.get_level_target_distance (current_level self))
             (get_distance_meters engine) in
  let self' := after (Game.update dt h self) in
  physics self' = engine
  /\ game_over self' = stalled || exhausted
  /\ level_complete self' = negb (stalled || exhausted) && reached
  /\ all_levels_complete self' = false
  /\ game_over_reason self'
     = (if stalled then "You stopped pedaling for too long!"
        else if exhausted then "You ran out of stamina!"
        else game_over_reason self).
Proof.
  intros Hg Hp Hl Ha. cbv zeta. unfold Game.update.
  unfold bind, get, get_ticks, modify, ret, result, host_after, after.
  cbn [fst snd]. rewrite Hg, Hp, Hl. cbn [orb negb fst snd].
  set (s1 := set_physics (update dt (ticks h (reads h)) (physics self)) self).
  destruct (check_game_over_live (clock_read h) s1 Hg Hl Ha)
    as (E1 & E2 & E3 & E4 & E5 & E6).
  cbv zeta in E1, E6. unfold after in E1, E2, E3, E4, E5, E6.
  change (physics s1) with (update dt (ticks h (reads h)) (physics self)) in *.
  change (ticks (clock_read h) (reads (clock_read h)))
    with (ticks h (S (reads h))) in *.
  change (game_over_reason s1) with (game_over_reason self) in E6.
  change (current_level s1) with (current_level self) in E5.
  destruct (game_over (snd (Game._check_game_over_conditions (clock_read h) s1)))
    eqn:Hover.
  - rewrite <- E1. cbn [negb andb]. repeat split; assumption.
  - rewrite <- E1. cbn [negb andb fst snd].
    match goal with
    | |- context [Game.update_cyclist dt ?h4 ?s4] =>
        destruct (check_level_completion_live
                    (fst (Game._check_game_over_conditions (clock_read h) s1)).2
                    (set_background_service
                       (Background.update dt
                          (speed (state (physics
                             (snd (Game._check_game_over_conditions
                                     (clock_read h) s1)))))
                          (background_service
                             (snd (Game._check_game_over_conditions
                                     (clock_read h) s1))))
                       (snd (Game._check_game_over_conditions (clock_read h) s1)))
                    E3 E4)
          as (F1 & F2 & F3 & F4 & F5);
        destruct (update_cyclist_live dt h4 s4) as [c Ec];
          [exact F4 |]
    end.
    unfold after in Ec, F1, F2, F3, F4, F5. cbv zeta in F1.
    rewrite Ec. cbn [physics game_over level_complete all_levels_complete
                       game_over_reason set_cyclist].
    rewrite F1, F2, F3, F4, F5.
    cbn [physics current_level game_over game_over_reason set_background_service].
    rewrite E2, E5, E6, Hover. repeat split.
Qed.

Lemma live_tick_decides_game_over_before_completion_example :
  let h := mkHost (fun _ => 1500%Z) 0 (fun _ => false) (fun _ => None) 0 [] in
  let built := Game.init 800 600 None 1 h in
  let engine :=
    set_state {| speed := 20; distance_traveled := 2999; stamina := 0;
                 last_pedal_side := Some "left"; last_pedal_time := 1000;
                 last_pedal_interval := 500 |} (Physics_init 25.0) in
  let self := set_physics engine (after built) in
  let self' := after (Game.update 16 (host_after built) self) in
  Qle_bool (Game.get_level_target_distance 1) (get_distance_meters (physics self'))
  = true
  /\ game_over self' = true
  /\ level_complete self' = false
  /\ game_over_reason self' = "You ran out of stamina!".
Proof.
  cbv zeta.
  match goal with
  | |- context [Game.update ?dt ?h ?s] =>
      destruct (live_tick_decides_game_over_before_completion dt h s)
        as (E1 & E2 & E3 & _ & E5); try (vm_compute; reflexivity)
  end.
  rewrite E1, E2, E3, E5.
  split; [vm_compute; reflexivity |]. split; [vm_compute; reflexivity |].
  split; [vm_compute; reflexivity |]. vm_compute. reflexivity.
Defined.

(** * Distances *)

Lemma level_target_at_least_1000 (level : Z) :
  1000 <= Game.get_level_target_distance level.
Proof.
  unfold Game.get_level_target_distance, Game.LEVEL_DISTANCES.
  destruct (decide (level = 1%Z)) as [-> | H1];
    [rewrite lookup_insert_eq; simpl; lra | rewrite lookup_insert_ne by congruence].
  destruct (decide (level = 2%Z)) as [-> | H2];
    [rewrite lookup_insert_eq; simpl; lra | rewrite lookup_insert_ne by congruence].
  destruct (decide (level = 3%Z)) as [-> | H3];
    [rewrite lookup_insert_eq; simpl; lra | rewrite lookup_insert_ne by congruence].
  destruct (decide (level = 4%Z)) as [-> | H4];
    [rewrite lookup_insert_eq; simpl; lra | rewrite lookup_insert_ne by congruence].
  rewrite lookup_empty. simpl. lra.
Qed.

(** X18.  The progress shown for the level lies between 0 and 1 when the
    distance is not negative, and it is full exactly when the distance
    has reached the target of the level, which is the condition on which
    [_check_level_completion] completes the level. *)
Theorem level_progress_is_full_exactly_at_the_target (self : GameService) :
  0 <= distance_traveled (state (physics self)) ->
  0 <= Game.get_level_progress self <= 1
  /\ (Game.get_level_progress self == 1
      <-> Qle_bool (Game.get_level_target_distance (current_level self))
                   (get_distance_meters (physics self)) = true).
Proof.
  intros Hd. unfold Game.get_level_progress, get_distance_meters. cbv zeta.
  pose proof (level_target_at_least_1000 (current_level self)) as Ht.
  set (target := Game.get_level_target_distance (current_level self)) in *.
  set (d := distance_traveled (state (physics self))) in *.
  assert (Hpos : 0 < target) by lra.
  assert (Hq : 0 <= d / 3.0 / target).
  { apply Qle_shift_div_l; [exact Hpos |].
    rewrite Qmult_0_l. apply Qle_shift_div_l; lra. }
  rewrite Qle_bool_iff.
  destruct (Q.min_spec (d / 3.0 / target) 1.0) as [[Hlt E] | [Hle E]]; rewrite E.
  - split; [lra |]. split; [lra |].
    intros Hreach. exfalso.
    assert (1 <= d / 3.0 / target)
      by (apply Qle_shift_div_l; [exact Hpos | lra]).
    lra.
  - split; [lra |]. split; [| lra].
    intros _.
    assert (H1 : 1 <= d / 3.0 / target) by lra.
    apply (Qmult_le_compat_r _ _ target) in H1; [| lra].
    rewrite Qmult_1_l in H1.
    assert (Heq : d / 3.0 / target * target == d / 3.0) by (field; lra).
    lra.
Qed.

Lemma level_progress_is_full_exactly_at_the_target_example :
  let h := mkHost (fun _ => 1500%Z) 0 (fun _ => false) (fun _ => None) 0 [] in
  let engine := set_distance_traveled 1500 (Physics_init 25.0) in
  let self := set_physics engine (after (Game.init 800 600 None 1 h)) in
  Game.get_level_progress self == 1 # 2
  /\ 0 <= Game.get_level_progress self <= 1
  /\ Qle_bool (Game.get_level_target_distance (current_level self))
              (get_distance_meters (physics self)) = false.
Proof.
  cbv zeta.
  match goal with
  | |- ?p == _ /\ _ =>
      match p with
      | Game.get_level_progress ?s =>
          destruct (level_progress_is_full_exactly_at_the_target s)
            as [Hrange Hfull]; [vm_compute; discriminate |]
      end
  end.
  split; [vm_compute; reflexivity |]. split; [exact Hrange |].
  vm_compute. reflexivity.
Defined.

(** * The statistics keep up with the ride *)

Lemma recorded_ext (self self' : GameService) :
  timers (stats self') = timers (stats self) ->
  physics self' = physics self ->
  current_level self' = current_level self ->
  level_complete self' = level_complete self ->
  recorded self -> recorded self'.
Proof.
  unfold recorded, timers, timer_started. intros Ht Hp Hc Hl.
  injection Ht as H1 H2 H3. rewrite Hp, Hc, Hl, H1, H2, H3. tauto.
Qed.

Lemma ended_service_timers (now : Z) (self : GameService) :
  timers (stats (ended_service now self)) = timers (stats self).
Proof. unfold ended_service. destruct (timer_running self); reflexivity. Qed.

Lemma recorded_ended (now : Z) (self : GameService) :
  recorded self -> recorded (ended_service now self).
Proof.
  destruct (ended_service_frame now self) as (_ & Hp & _ & Hc & Hl & _).
  apply recorded_ext; auto using ended_service_timers.
Qed.

Lemma start_level_timer_timers (level : Z) (h : Host) (self : GameStats) :
  let self' := after (start_level_timer level h self) in
  timer_started level self' = true
  /\ (is_Some (level_start_times self !! level) \/ timer_started level self = false ->
      is_Some (level_start_times self' !! level))
  /\ (forall other, other <> level ->
        timer_started other self' = timer_started other self
        /\ level_start_times self' !! other = level_start_times self !! other)
  /\ completed_levels self' = completed_levels self.
Proof.
  cbv zeta. unfold start_level_timer. run.
  destruct (timer_started level self) eqn:Hon; simpl.
  - split; [exact Hon |]. split; [intros [H | H]; [exact H | discriminate H] |].
    split; [intros; split; reflexivity | reflexivity].
  - split; [unfold timer_started; simpl; now rewrite lookup_insert_eq |].
    split; [intros _; rewrite lookup_insert_eq; eauto |].
    split; [| reflexivity].
    intros other Hne. split.
    + unfold timer_started. simpl. now rewrite lookup_insert_ne by congruence.
    + now rewrite lookup_insert_ne by congruence.
Qed.

Lemma complete_level_timers (level : Z) (h : Host) (self : GameStats) :
  let self' := after (complete_level level h self) in
  level_started self' = level_started self
  /\ level_start_times self' = level_start_times self
  /\ (timer_started level self = true ->
      is_Some (level_start_times self !! level) ->
      level ∈ completed_levels self')
  /\ (forall other, other ∈ completed_levels self -> other ∈ completed_levels self').
Proof.
  cbv zeta. unfold complete_level. run.
  destruct (level_start_times self !! level) as [started_at |] eqn:Hs.
  - destruct (timer_started level self) eqn:Hon; simpl.
    + repeat split; try reflexivity; intros; set_solver.
    + repeat split; try reflexivity; [intros H; discriminate H | auto].
  - simpl. repeat split; try reflexivity; [| auto].
    intros _ [x Hx]. discriminate Hx.
Qed.

Lemma timers_fields (self self' : GameStats) :
  timers self' = timers self ->
  (forall level, timer_started level self' = timer_started level self)
  /\ level_start_times self' = level_start_times self
  /\ completed_levels self' = completed_levels self.
Proof.
  unfold timers, timer_started. intros H. injection H as H1 H2 H3.
  rewrite H1, H2, H3. auto.
Qed.

Lemma handle_pedal_input_timers (side : string) (h : Host) (self : GameService) :
  game_over self || paused self || level_complete self = false ->
  let r := Game.handle_pedal_input side h self in
  timers (stats (after r))
  = timers (after (start_level_timer (current_level self) h (stats self)))
  /\ current_level (after r) = current_level self.
Proof.
  intros Hquiet. cbv zeta. unfold Game.handle_pedal_input.
  unfold bind, get, get_ticks, modify, ret, on_stats, result, host_after, after.
  cbn [fst snd]. rewrite Hquiet. cbn [fst snd].
  change (background_service
            (set_stats (snd (start_level_timer (current_level self) h (stats self)))
               self))
    with (background_service self).
  destruct (Background.is_on_start_screen (background_service self));
    cbn [physics set_background_service set_stats];
    match goal with
    | |- context [handle_pedal side ?t (physics self)] =>
        generalize (handle_pedal side t (physics self))
    end;
    intros [success engine]; cbn [fst snd];
    (destruct success; cbn [fst snd];
     [ match goal with
       | |- context [Qltb ?a ?b] => destruct (Qltb a b)
       end |];
     split; reflexivity).
Qed.

Lemma handle_pedal_input_recorded (side : string) (h : Host) (self : GameService) :
  recorded self -> recorded (after (Game.handle_pedal_input side h self)).
Proof.
  intros Hrec.
  destruct (game_over self || paused self || level_complete self) eqn:Hquiet.
  - rewrite handle_pedal_input_ignored by exact Hquiet. exact Hrec.
  - destruct (handle_pedal_input_view side h self Hquiet) as [t Hview].
    cbv zeta in Hview. destruct Hview as (_ & _ & _ & _ & _ & _ & Hl & _).
    destruct (handle_pedal_input_timers side h self Hquiet) as [Ht Hc].
    apply timers_fields in Ht. destruct Ht as (Hon & Hst & Hco).
    destruct (start_level_timer_timers (current_level self) h (stats self))
      as (T1 & T2 & T3 & _).
    destruct Hrec as (R1 & R2 & R3).
    assert (Hlive : level_complete self = false).
    { destruct (level_complete self); [| reflexivity].
      rewrite !orb_true_r in Hquiet. discriminate Hquiet. }
    unfold recorded. rewrite Hc, Hl, Hst. split; [| split].
    + intros level. rewrite Hon.
      destruct (decide (level = current_level self)) as [-> | Hne].
      * intros _. apply T2.
        destruct (timer_started (current_level self) (stats self)) eqn:E;
          [left; now apply R1 | now right].
      * destruct (T3 level Hne) as [E1 E2]. rewrite E1, E2. apply R1.
    + intros _. rewrite Hon. exact T1.
    + rewrite Hlive. discriminate.
Qed.

Lemma update_distance_cases (dt : Q) (t : Z) (self : Physics) :
  distance_traveled (state (update dt t self)) = distance_traveled (state self)
  \/ Qltb 0 (speed (state self)) = true.
Proof.
  unfold update. destruct (_ && _); [left; reflexivity |].
  destruct (Qltb 0 (speed (state self))); [right | left]; reflexivity.
Qed.

Lemma recorded_physics_update (dt : Q) (t : Z) (self : GameService) :
  recorded self -> recorded (set_physics (update dt t (physics self)) self).
Proof.
  intros (R1 & R2 & R3). unfold recorded. simpl. rewrite update_speed.
  split; [exact R1 |]. split; [| exact R3].
  intros [Hs | Hd]; [apply R2; now left |].
  destruct (update_distance_cases dt t (physics self)) as [E | Hmove].
  - rewrite E in Hd. apply R2. now right.
  - apply Qltb_true in Hmove. apply R2. left. lra.
Qed.

Lemma recorded_level_completed (h : Host) (self : GameService) :
  recorded self ->
  Qle_bool (Game.get_level_target_distance (current_level self))
           (get_distance_meters (physics self)) = true ->
  recorded (set_stats (after (complete_level (current_level self) h (stats self)))
              (set_level_complete true self)).
Proof.
  intros (R1 & R2 & R3) Hreach.
  destruct (complete_level_timers (current_level self) h (stats self))
    as (C1 & C2 & C3 & C4).
  assert (Hon : timer_started (current_level self) (stats self) = true).
  { apply R2. right. apply Qle_bool_iff in Hreach.
    pose proof (level_target_at_least_1000 (current_level self)) as Ht.
    unfold get_distance_meters in Hreach. intros Hz.
    assert (Hq : distance_traveled (state (physics self)) / 3.0 == 0)
      by (rewrite Hz; reflexivity).
    lra. }
  unfold recorded, timer_started in *. simpl. rewrite C1, C2.
  split; [exact R1 |]. split; [exact R2 |].
  intros _. apply C3; [exact Hon | now apply R1].
Qed.

Lemma update_recorded (dt : Q) (h : Host) (self : GameService) :
  recorded self -> recorded (after (Game.update dt h self)).
Proof.
  intros Hs.
  assert (Hcyc : forall h0 s0,
             recorded s0 -> recorded (after (Game.update_cyclist dt h0 s0))).
  { intros h0 s0 H0.
    destruct (update_cyclist_shape dt h0 s0) as [c [E | [Ha [now E]]]]; rewrite E.
    - apply (recorded_ext s0); auto.
    - apply recorded_ended. apply (recorded_ext s0); auto. }
  unfold Game.update.
  unfold bind, get, get_ticks, modify, ret, result, host_after, after in *.
  cbn [fst snd].
  destruct (game_over self || paused self); [exact Hs |].
  destruct (level_complete self) eqn:Hl; cbn [negb fst snd].
  - apply Hcyc. apply (recorded_ext self); auto.
  - set (s1 := set_physics (update dt (ticks h (reads h)) (physics self)) self).
    assert (H1 : recorded s1) by (now apply recorded_physics_update).
    assert (H2 : recorded (snd (Game._check_game_over_conditions (clock_read h) s1))).
    { destruct (check_game_over_shape (clock_read h) s1)
        as [E | (_ & _ & _ & now & reason & E)];
        unfold after in E; rewrite E; [exact H1 |].
      apply recorded_ended. apply (recorded_ext s1); auto. }
    destruct (game_over (snd (Game._check_game_over_conditions (clock_read h) s1)));
      [exact H2 |].
    cbn [fst snd]. apply Hcyc.
    match goal with
    | |- recorded (snd (Game._check_level_completion ?h3 ?s3)) =>
        assert (H3 : recorded s3)
          by (apply (recorded_ext _ _ eq_refl eq_refl eq_refl eq_refl H2));
        destruct (check_level_completion_shape h3 s3)
          as [E | (_ & _ & Hreach & E)]; unfold after in E; rewrite E;
          [exact H3 |]
    end.
    now apply recorded_level_completed.
Qed.

Lemma timer_started_prepared (level other : Z) (self : GameStats) :
  timer_started other (prepare_level level self) = true ->
  other <> level /\ timer_started other self = true.
Proof.
  unfold timer_started, prepare_level. simpl.
  destruct (decide (other = level)) as [-> | Hne].
  - rewrite lookup_insert_eq. discriminate.
  - rewrite lookup_insert_ne by congruence. auto.
Qed.

Lemma handle_enter_key_recorded (h : Host) (self : GameService) :
  recorded self -> recorded (after (Game.handle_enter_key h self)).
Proof.
  intros Hrec. unfold Game.handle_enter_key.
  unfold bind, get, modify, ret, result, host_after, after. cbn [fst snd].
  destruct (level_complete self && negb (all_levels_complete self));
    [| exact Hrec].
  destruct (current_level self <? 4)%Z.
  - rewrite set_level_run. cbn [snd].
    destruct Hrec as (R1 & _ & _). unfold recorded. simpl.
    split; [| split].
    + intros level Hon. apply timer_started_prepared in Hon. now apply R1.
    + intros [H | H]; exfalso; apply H; reflexivity.
    + discriminate.
  - apply (recorded_ext self); auto.
Qed.

Lemma fresh_recorded (now : Z) (level : Z) (self : GameService) :
  stats self = prepare_level level (GameStats_init now) ->
  physics self = reset (physics self) ->
  level_complete self = false ->
  recorded self.
Proof.
  intros Hst Hp Hl. unfold recorded. rewrite Hst, Hp, Hl.
  split; [| split].
  - intros other Hon. apply timer_started_prepared in Hon.
    destruct Hon as [_ Hon]. discriminate Hon.
  - simpl. intros [H | H]; exfalso; apply H; reflexivity.
  - discriminate.
Qed.

Lemma restart_recorded (h : Host) (self : GameService) :
  recorded (after (Game.restart h self)).
Proof.
  rewrite restart_run.
  match goal with
  | |- recorded (after (Game._start_session ?h1 ?s1)) =>
      destruct (start_session_shape h1 s1) as [session E]; rewrite E
  end.
  apply (fresh_recorded (ticks h (reads h)) 1); reflexivity.
Qed.

Lemma init_recorded (w ht : Z) (player : option string) (level : Z) (h : Host) :
  recorded (after (Game.init w ht player level h)).
Proof.
  unfold Game.init. cbv zeta.
  match goal with
  | |- recorded (after (Game._start_session ?h1 ?s1)) =>
      destruct (start_session_shape h1 s1) as [session E]; rewrite E
  end.
  apply (fresh_recorded (ticks h (reads h)) level); reflexivity.
Qed.

Lemma played_recorded (w ht : Z) (player : option string) (h : Host)
  (inputs : list Input) :
  recorded (game_service (after (played w ht player h inputs))).
Proof.
  unfold played, opened. cbv zeta.
  apply (play_invariant recorded).
  - apply handle_pedal_input_recorded.
  - apply handle_enter_key_recorded.
  - intros h0 s Hs. exact Hs.
  - intros h0 s _. apply restart_recorded.
  - apply update_recorded.
  - apply init_recorded.
Qed.

Lemma enter_keeps_the_distance (h : Host) (self : GameService) :
  (level_complete self = true ->
   current_level self ∈ completed_levels (stats self)) ->
  Game.get_total_distance_traveled (after (Game.handle_enter_key h self))
  == Game.get_total_distance_traveled self.
Proof.
  intros Hin. unfold Game.handle_enter_key.
  unfold bind, get, modify, ret, result, host_after, after. cbn [fst snd].
  destruct (level_complete self) eqn:Hl; [| reflexivity].
  destruct (all_levels_complete self); [reflexivity |]. cbn [andb negb].
  destruct (current_level self <? 4)%Z.
  - rewrite set_level_run. cbn [snd].
    unfold Game.get_total_distance_traveled. cbv zeta. rewrite Hl.
    cbn [negb level_complete set_stats set_level_start_distance set_physics
         set_cyclist set_level_complete set_background_service set_current_level].
    rewrite (bool_decide_eq_true_2 _ (Hin eq_refl)). cbn [negb].
    change (completed_levels (stats (set_stats (prepare_level (current_level self + 1)
                                                   (stats self)) _)))
      with (completed_levels (stats self)).
    match goal with
    | |- ?total + ?d == ?total' =>
        change total' with total; assert (Hd : d == 0) by reflexivity
    end.
    rewrite Hd. apply Qplus_0_r.
  - cbn [snd]. reflexivity.
Qed.

(** X19.  Along every play a level that is complete is among the
    completed levels of the statistics, and so the total distance
    reported for the game is the same before and after Enter takes the
    player to the next level: the distance ridden in the level just
    finished is replaced by the target of that level at its completion,
    not at the change of level. *)
Theorem enter_keeps_the_total_distance
  (w ht : Z) (player : option string) (h : Host) (inputs : list Input)
  (now : Host) :
  let service := game_service (after (played w ht player h inputs)) in
  (level_complete service = true ->
   current_level service ∈ completed_levels (stats service))
  /\ Game.get_total_distance_traveled (after (Game.handle_enter_key now service))
     == Game.get_total_distance_traveled service.
Proof.
  cbv zeta.
  destruct (played_recorded w ht player h inputs) as (_ & _ & R3).
  split; [exact R3 | now apply enter_keeps_the_distance].
Qed.

Lemma enter_keeps_the_total_distance_run :
  let h := mkHost (fun k => (1000 + 150 * Z.of_nat k)%Z) 0 (fun _ => false)
             (fun _ => None) 0 [] in
  let run := played 800 600 None h [input_event KEYDOWN_K_LEFT; input_frame 300000] in
  let service := game_service (after run) in
  let next := after (Game.handle_enter_key (host_after run) service) in
  level_complete service = true
  /\ 1%Z ∈ completed_levels (stats service)
  /\ current_level next = 2%Z
  /\ Game.get_total_distance_traveled service == 1000
  /\ Game.get_total_distance_traveled next == 1000.
Proof.
  cbv zeta.
  match goal with
  | |- level_complete (game_service (after (played ?w ?ht ?p ?h ?inputs))) = true
       /\ _ =>
      destruct (enter_keeps_the_total_distance w ht p h inputs
                  (host_after (played w ht p h inputs))) as [Hin Heq];
        assert (Hl : level_complete (game_service (after (played w ht p h inputs)))
                     = true) by (vm_compute; reflexivity);
        assert (Hc : current_level (game_service (after (played w ht p h inputs)))
                     = 1%Z) by (vm_compute; reflexivity)
  end.
  specialize (Hin Hl). rewrite Hc in Hin.
  split; [exact Hl |]. split; [exact Hin |].
  split; [vm_compute; reflexivity |].
  split; [| rewrite Heq]; vm_compute; reflexivity.
Defined.

(** * The start screen and the pause *)

Lemma ended_service_scene (now : Z) (self : GameService) :
  background_service (ended_service now self) = background_service self
  /\ cyclist (ended_service now self) = cyclist self
  /\ all_levels_complete (ended_service now self) = all_levels_complete self.
Proof.
  unfold ended_service. destruct (timer_running self); repeat split; reflexivity.
Qed.

Lemma check_game_over_scene (h : Host) (self : GameService) :
  let self' := after (Game._check_game_over_conditions h self) in
  background_service self' = background_service self
  /\ cyclist self' = cyclist self
  /\ all_levels_complete self' = all_levels_complete self.
Proof.
  cbv zeta.
  destruct (check_game_over_shape h self)
    as [E | (_ & _ & _ & now & reason & E)]; rewrite E;
    [repeat split; reflexivity |].
  apply (ended_service_scene now (set_game_over_reason reason self)).
Qed.

Lemma check_level_completion_scene (h : Host) (self : GameService) :
  let self' := after (Game._check_level_completion h self) in
  background_service self' = background_service self
  /\ cyclist self' = cyclist self
  /\ all_levels_complete self' = all_levels_complete self.
Proof.
  cbv zeta.
  destruct (check_level_completion_shape h self) as [E | (_ & _ & _ & E)];
    rewrite E; repeat split; reflexivity.
Qed.

Lemma update_cyclist_on_start_screen (dt : Q) (h : Host) (self : GameService) :
  Background.is_on_start_screen (background_service self) = true ->
  all_levels_complete self = false ->
  after (Game.update_cyclist dt h self) = self.
Proof.
  intros Hstart Ha. unfold Game.update_cyclist, Game.hold_cyclist.
  unfold bind, get, modify, ret, result, host_after, after. cbn [fst snd].
  rewrite Ha.
  destruct (level_complete self); cbn [andb negb fst snd]; cbv beta;
    rewrite Hstart; reflexivity.
Qed.

Lemma update_cyclist_scene (dt : Q) (h : Host) (self : GameService) :
  background_service (after (Game.update_cyclist dt h self))
  = background_service self.
Proof.
  destruct (update_cyclist_shape dt h self) as [c [E | [_ [now E]]]]; rewrite E;
    [reflexivity |].
  apply (ended_service_scene now (set_cyclist c self)).
Qed.

Lemma background_update_on_start_screen (dt v : Q) (self : BackgroundService) :
  Background.is_on_start_screen self = true -> Background.update dt v self = self.
Proof.
  unfold Background.is_on_start_screen, Background.update.
  destruct (phase self); [reflexivity | discriminate ..].
Qed.

Lemma background_update_riding (dt v : Q) (self : BackgroundService) :
  Background.is_on_start_screen self = false ->
  Background.is_on_start_screen (Background.update dt v self) = false.
Proof.
  unfold Background.is_on_start_screen, Background.update.
  destruct (phase self) eqn:Hp; [discriminate | | | ]; intros _.
  - destruct (Qltb 0 v); [| now rewrite Hp].
    destruct (Qle_bool _ _); simpl; [reflexivity | now rewrite Hp].
  - destruct (Qltb 0 v); [| now rewrite Hp].
    destruct (Qle_bool _ _); simpl; [reflexivity | now rewrite Hp].
  - now rewrite Hp.
Qed.

Lemma update_scene (dt : Q) (h : Host) (self : GameService) :
  exists v,
    background_service (after (Game.update dt h self)) = background_service self
    \/ background_service (after (Game.update dt h self))
       = Background.update dt v (background_service self).
Proof.
  unfold Game.update.
  unfold bind, get, get_ticks, modify, ret, result, host_after, after.
  cbn [fst snd].
  destruct (game_over self || paused self); [exists 0; now left |].
  destruct (level_complete self); cbn [negb fst snd].
  - exists 2.0. right.
    match goal with
    | |- context [Game.update_cyclist dt ?h4 ?s4] =>
        pose proof (update_cyclist_scene dt h4 s4) as E; unfold after in E;
          rewrite E
    end.
    reflexivity.
  - set (s1 := set_physics (update dt (ticks h (reads h)) (physics self)) self).
    destruct (check_game_over_scene (clock_read h) s1) as (E1 & _).
    unfold after in E1.
    destruct (game_over (snd (Game._check_game_over_conditions (clock_read h) s1))).
    + exists 0. left. exact E1.
    + cbn [fst snd].
      exists (speed (state (physics
                (snd (Game._check_game_over_conditions (clock_read h) s1))))).
      right.
      match goal with
      | |- context [Game.update_cyclist dt ?h4 ?s4] =>
          pose proof (update_cyclist_scene dt h4 s4) as E; unfold after in E;
            rewrite E
      end.
      match goal with
      | |- context [Game._check_level_completion ?h3 ?s3] =>
          destruct (check_level_completion_scene h3 s3) as (E3 & _);
            unfold after in E3; rewrite E3
      end.
      cbn [background_service set_background_service]. now rewrite E1.
Qed.

Lemma update_on_start_screen (dt : Q) (h : Host) (self : GameService) :
  Background.is_on_start_screen (background_service self) = true ->
  all_levels_complete self = false ->
  background_service (after (Game.update dt h self)) = background_service self
  /\ cyclist (after (Game.update dt h self)) = cyclist self.
Proof.
  intros Hstart Ha. unfold Game.update.
  unfold bind, get, get_ticks, modify, ret, result, host_after, after.
  cbn [fst snd].
  destruct (game_over self || paused self); [split; reflexivity |].
  destruct (level_complete self); cbn [negb fst snd].
  - rewrite (background_update_on_start_screen _ _ _ Hstart).
    match goal with
    | |- context [Game.update_cyclist dt ?h4 ?s4] =>
        pose proof (update_cyclist_on_start_screen dt h4 s4 Hstart Ha) as E;
          unfold after in E; rewrite E
    end.
    split; reflexivity.
  - set (s1 := set_physics (update dt (ticks h (reads h)) (physics self)) self).
    destruct (check_game_over_scene (clock_read h) s1) as (E1 & E2 & E3).
    unfold after in E1, E2, E3.
    destruct (game_over (snd (Game._check_game_over_conditions (clock_read h) s1)));
      [split; assumption |].
    cbn [fst snd].
    rewrite (background_update_on_start_screen dt _
               (background_service
                  (snd (Game._check_game_over_conditions (clock_read h) s1))))
      by (rewrite E1; exact Hstart).
    match goal with
    | |- context [Game._check_level_completion ?h3 ?s3] =>
        destruct (check_level_completion_scene h3 s3) as (F1 & F2 & F3);
          unfold after in F1, F2, F3;
          cbn [background_service cyclist all_levels_complete
               set_background_service] in F1, F2, F3
    end.
    match goal with
    | |- context [Game.update_cyclist dt ?h4 ?s4] =>
        pose proof (update_cyclist_on_start_screen dt h4 s4) as E;
          unfold after in E; rewrite E
    end.
    + rewrite F1, F2, E1, E2. split; reflexivity.
    + rewrite F1, E1. exact Hstart.
    + rewrite F3, E3. exact Ha.
Qed.

Lemma handle_pedal_input_scene (side : string) (h : Host) (self : GameService) :
  game_over self || paused self || level_complete self = false ->
  background_service (after (Game.handle_pedal_input side h self))
  = Background.start_riding (background_service self).
Proof.
  intros Hquiet. unfold Game.handle_pedal_input.
  unfold bind, get, get_ticks, modify, ret, on_stats, result, host_after, after.
  cbn [fst snd]. rewrite Hquiet. cbn [fst snd].
  change (background_service
            (set_stats (snd (start_level_timer (current_level self) h (stats self)))
               self))
    with (background_service self).
  assert (Hride : Background.is_on_start_screen (background_service self) = false ->
                  Background.start_riding (background_service self)
                  = background_service self).
  { unfold Background.is_on_start_screen, Background.start_riding.
    destruct (phase (background_service self)); [discriminate | reflexivity ..]. }
  destruct (Background.is_on_start_screen (background_service self));
    [| rewrite (Hride eq_refl)];
    cbn [physics set_background_service set_stats];
    match goal with
    | |- context [handle_pedal side ?t (physics self)] =>
        generalize (handle_pedal side t (physics self))
    end;
    intros [success engine]; cbn [fst snd];
    (destruct success; cbn [fst snd];
     [ match goal with
       | |- context [Qltb ?a ?b] => destruct (Qltb a b)
       end |];
     reflexivity).
Qed.

Lemma start_riding_leaves (self : BackgroundService) :
  Background.is_on_start_screen (Background.start_riding self) = false.
Proof.
  unfold Background.is_on_start_screen, Background.start_riding.
  destruct (phase self) eqn:Hp; simpl; [reflexivity | now rewrite Hp ..].
Qed.

(** X20.  The scenery waits for the first pedal.  While the background
    shows the start screen of a level, a tick moves neither the
    background nor the cyclist, whatever else it decides; a pedal
    that is not ignored (the game is not over, not paused, the level not
    complete) takes the background off the start screen, whether or not
    the engine accepts the pedal. *)
Theorem scenery_waits_for_the_first_pedal
  (dt : Q) (side : string) (h : Host) (self : GameService) :
  Background.is_on_start_screen (background_service self) = true ->
  all_levels_complete self = false ->
  (background_service (after (Game.update dt h self)) = background_service self
   /\ cyclist (after (Game.update dt h self)) = cyclist self)
  /\ (game_over self || paused self || level_complete self = false ->
      phase (background_service (after (Game.handle_pedal_input side h self)))
      = TRANSITION).
Proof.
  intros Hstart Ha. split; [now apply update_on_start_screen |].
  intros Hquiet. rewrite handle_pedal_input_scene by exact Hquiet.
  revert Hstart. unfold Background.is_on_start_screen, Background.start_riding.
  destruct (phase (background_service self)); [reflexivity | discriminate ..].
Qed.

Lemma scenery_waits_for_the_first_pedal_example :
  let h := mkHost (fun k => (1000 + 16 * Z.of_nat k)%Z) 0 (fun _ => false)
             (fun _ => None) 0 [] in
  let built := Game.init 800 600 None 1 h in
  let ticked := Game.update 16 (host_after built) (after built) in
  let pedaled := Game.handle_pedal_input "left" (host_after built) (after built) in
  Background.is_on_start_screen (background_service (after built)) = true
  /\ background_service (after ticked) = background_service (after built)
  /\ cyclist (after ticked) = cyclist_at (100, 450)%Z
  /\ phase (background_service (after pedaled)) = TRANSITION.
Proof.
  cbv zeta.
  match goal with
  | |- context [Game.update ?dt ?h ?s] =>
      destruct (scenery_waits_for_the_first_pedal dt "left" h s)
        as [[E1 E2] E3]; try (vm_compute; reflexivity)
  end.
  split; [vm_compute; reflexivity |]. split; [exact E1 |].
  split; [rewrite E2; vm_compute; reflexivity |].
  apply E3. vm_compute. reflexivity.
Defined.

Lemma feed_riding (input : Input) (h : Host) (s : GameState) :
  keeps_level input ->
  Background.is_on_start_screen (background_service (game_service s)) = false ->
  Background.is_on_start_screen
    (background_service (game_service (after (feed input h s)))) = false.
Proof.
  intros Hkey Hride.
  assert (Hpedal : forall side,
             Background.is_on_start_screen
               (background_service
                  (after (Game.handle_pedal_input side h (game_service s)))) = false).
  { intros side.
    destruct (game_over (game_service s) || paused (game_service s)
              || level_complete (game_service s)) eqn:Hquiet.
    - rewrite handle_pedal_input_ignored by exact Hquiet. exact Hride.
    - rewrite handle_pedal_input_scene by exact Hquiet. apply start_riding_leaves. }
  destruct input as [event | dt]; [destruct event |];
    try contradiction; try exact Hride.
  - apply (Hpedal "left").
  - apply (Hpedal "right").
  - change (Background.is_on_start_screen
              (background_service (after (Game.update dt h (game_service s))))
            = false).
    destruct (update_scene dt h (game_service s)) as [v [E | E]]; rewrite E;
      [exact Hride | now apply background_update_riding].
Qed.

(** X21.  Once the ride has begun it is not interrupted by the start
    screen: as long as neither Enter nor the R key is fed to the screen,
    a background that has left the start screen never shows it again. *)
Theorem ride_never_returns_to_the_start_screen
  (inputs : list Input) (h : Host) (s : GameState) :
  Forall keeps_level inputs ->
  Background.is_on_start_screen (background_service (game_service s)) = false ->
  Background.is_on_start_screen
    (background_service (game_service (after (play inputs h s)))) = false.
Proof.
  revert h s. induction inputs as [| input rest IH]; intros h s Hkeys Hride.
  - exact Hride.
  - inversion Hkeys as [| ? ? Hkey Hrest]; subst.
    cbn [play]. unfold bind. apply IH; [exact Hrest |].
    now apply feed_riding.
Qed.

Lemma ride_never_returns_to_the_start_screen_run :
  let h := mkHost (fun k => (1000 + 400 * Z.of_nat k)%Z) 0 (fun _ => false)
             (fun _ => None) 0 [] in
  let begun := played 800 600 None h [input_event KEYDOWN_K_LEFT] in
  let inputs := [input_frame 16; input_event KEYDOWN_K_RIGHT; input_frame 16;
                 input_event KEYDOWN_K_ESCAPE; input_event KEYDOWN_K_m;
                 input_event KEYDOWN_K_LEFT] in
  Background.is_on_start_screen
    (background_service (game_service (after begun))) = false
  /\ Background.is_on_start_screen
       (background_service
          (game_service (after (play inputs (host_after begun) (after begun)))))
     = false.
Proof.
  cbv zeta. split; [vm_compute; reflexivity |].
  apply ride_never_returns_to_the_start_screen.
  - repeat (constructor; [exact I |]). constructor.
  - vm_compute. reflexivity.
Defined.

(** ** The pause *)

Lemma feed_paused (input : Input) (h : Host) (s : GameState) :
  pedal_or_frame input -> paused (game_service s) = true ->
  feed input h s = (tt, h, s).
Proof.
  intros Hkind Hp.
  assert (Hpedal : forall side,
             Game.handle_pedal_input side h (game_service s)
             = (false, h, game_service s)).
  { intros side. apply handle_pedal_input_ignored.
    rewrite Hp. now rewrite orb_true_r. }
  assert (Htick : forall dt, Game.update dt h (game_service s)
                             = (tt, h, game_service s)).
  { intros dt. unfold Game.update, bind, get, ret, result, host_after, after.
    cbn [fst snd]. rewrite Hp. now rewrite orb_true_r. }
  destruct s as [service next].
  destruct input as [event | dt]; [destruct event |]; try contradiction;
    unfold feed, GameState_handle_event, GameState_update, on_service, bind, ret,
      result, host_after, after; cbn [fst snd game_service next_state] in *.
  - now rewrite Hpedal.
  - now rewrite Hpedal.
  - now rewrite Htick.
Qed.

Lemma play_paused (inputs : list Input) (h : Host) (s : GameState) :
  Forall pedal_or_frame inputs -> paused (game_service s) = true ->
  play inputs h s = (tt, h, s).
Proof.
  induction inputs as [| input rest IH]; intros Hkinds Hp; [reflexivity |].
  inversion Hkinds as [| ? ? Hkind Hrest]; subst.
  cbn [play]. unfold bind. rewrite (feed_paused input h s Hkind Hp).
  unfold result, host_after, after. cbn [fst snd]. now apply IH.
Qed.

Lemma play_app (first second : list Input) (h : Host) (s : GameState) :
  play (first ++ second) h s
  = play second (host_after (play first h s)) (after (play first h s)).
Proof.
  revert h s. induction first as [| input rest IH]; intros h s; [reflexivity |].
  cbn [app play]. unfold bind at 1 3. apply IH.
Qed.

(** X22.  A pause is invisible to the simulation.  Between an Escape
    that pauses a running game and the Escape that resumes it, pedal keys
    and frames do nothing: the clock is not read, the server is not
    contacted and, after the second Escape, the screen is exactly as it
    was before the first. *)
Theorem pause_is_invisible_to_the_simulation
  (inputs : list Input) (h : Host) (s : GameState) :
  paused (game_service s) = false ->
  Forall pedal_or_frame inputs ->
  play (input_event KEYDOWN_K_ESCAPE :: inputs ++ [input_event KEYDOWN_K_ESCAPE])
       h s
  = (tt, h, s).
Proof.
  intros Hp Hkinds.
  set (s1 := mkGameState (set_paused true (game_service s)) (next_state s)).
  assert (H1 : feed (input_event KEYDOWN_K_ESCAPE) h s = (tt, h, s1)).
  { unfold feed, GameState_handle_event, on_service, Game.toggle_pause, modify,
      result, host_after, after. cbn [fst snd]. now rewrite Hp. }
  assert (H2 : feed (input_event KEYDOWN_K_ESCAPE) h s1 = (tt, h, s)).
  { unfold feed, GameState_handle_event, on_service, Game.toggle_pause, modify,
      result, host_after, after, s1. cbn [fst snd].
    destruct s as [service next]. destruct service. simpl in *. now rewrite Hp. }
  cbn [play]. unfold bind at 1. rewrite H1.
  unfold result, host_after, after. cbn [fst snd].
  rewrite play_app. rewrite (play_paused inputs h s1 Hkinds eq_refl).
  unfold host_after, after. cbn [fst snd play]. unfold bind. rewrite H2.
  reflexivity.
Qed.

Lemma pause_is_invisible_to_the_simulation_run :
  let h := mkHost (fun k => (1000 + 400 * Z.of_nat k)%Z) 0 (fun _ => false)
             (fun _ => None) 0 [] in
  let begun := played 800 600 None h [input_event KEYDOWN_K_LEFT; input_frame 16] in
  let inputs := [input_frame 16; input_event KEYDOWN_K_RIGHT; input_frame 16;
                 input_event KEYDOWN_K_LEFT] in
  paused (game_service (after begun)) = false
  /\ play (input_event KEYDOWN_K_ESCAPE :: inputs ++ [input_event KEYDOWN_K_ESCAPE])
          (host_after begun) (after begun)
     = (tt, host_after begun, after begun).
Proof.
  cbv zeta.
  assert (Hp : paused
                 (game_service
                    (after (played 800 600 None
                              (mkHost (fun k => (1000 + 400 * Z.of_nat k)%Z) 0
                                 (fun _ => false) (fun _ => None) 0 [])
                              [input_event KEYDOWN_K_LEFT; input_frame 16])))
               = false) by (vm_compute; reflexivity).
  split; [exact Hp |].
  apply pause_is_invisible_to_the_simulation; [exact Hp |].
  repeat (constructor; [exact I |]). constructor.
Defined.

(** * The rhythm bar *)

(** What the rhythm bar is configured with, and its pedal state. *)
Lemma attempt_pedal_cases (side : string) (cs ms : Q) (h : Host)
  (self : Timing.TimingSystem) :
  let r := Timing.attempt_pedal side cs ms h self in
  let now := ticks h (reads h) in
  host_after r = clock_read h
  /\ Timing.rhythm_tolerance_min (after r) = Timing.rhythm_tolerance_min self
  /\ Timing.rhythm_tolerance_max (after r) = Timing.rhythm_tolerance_max self
  /\ Timing.timing_position (after r) = Timing.timing_position self
  /\ Timing.timing_speed (after r) = Timing.timing_speed self
  /\ Timing.green_zone_center (after r) = Timing.green_zone_center self
  /\ if Timing.success (result r)
     then Timing.last_pedal_side (after r) = Some side
          /\ Timing.last_pedal_time (after r) = now
          /\ match Timing.last_pedal_side self with
             | Some last =>
                 last <> side
                 /\ (Timing.rhythm_tolerance_min self
                     <= now - Timing.last_pedal_time self
                     <= Timing.rhythm_tolerance_max self)%Z
             | None => True
             end
     else after r = self.
Proof.
  cbv zeta. unfold Timing.attempt_pedal.
  unfold bind, get, get_ticks, modify, ret, result, host_after, after.
  cbn [fst snd].
  destruct (Timing.last_pedal_side self) as [last |] eqn:Hlast.
  - destruct (String.eqb_spec last side) as [-> | Hne];
      [cbn; repeat split; reflexivity |].
    destruct (_ <? _)%Z eqn:Hfast; [cbn; repeat split; reflexivity |].
    destruct (Timing.rhythm_tolerance_max self <? _)%Z eqn:Hslow;
      [cbn; repeat split; reflexivity |].
    apply Z.ltb_ge in Hfast. apply Z.ltb_ge in Hslow.
    cbv beta zeta.
    repeat match goal with
           | |- context [Qle_bool ?a ?b] => destruct (Qle_bool a b)
           | |- context [Qltb ?a ?b] => destruct (Qltb a b)
           end;
      cbn; repeat split; try reflexivity; try exact Hne; lia.
  - cbv beta zeta.
    repeat match goal with
           | |- context [Qle_bool ?a ?b] => destruct (Qle_bool a b)
           | |- context [Qltb ?a ?b] => destruct (Qltb a b)
           end;
      cbn; repeat split; reflexivity.
Qed.

Lemma timing_update_fields (dt : Q) (self : Timing.TimingSystem) :
  Timing.rhythm_tolerance_min (Timing.update dt self)
  = Timing.rhythm_tolerance_min self
  /\ Timing.rhythm_tolerance_max (Timing.update dt self)
     = Timing.rhythm_tolerance_max self
  /\ Timing.last_pedal_side (Timing.update dt self) = Timing.last_pedal_side self
  /\ Timing.last_pedal_time (Timing.update dt self) = Timing.last_pedal_time self
  /\ Timing.timing_speed (Timing.update dt self) = Timing.timing_speed self
  /\ Timing.green_zone_center (Timing.update dt self)
     = Timing.green_zone_center self.
Proof.
  unfold Timing.update. cbv zeta.
  destruct (Qle_bool _ _); repeat split; reflexivity.
Qed.

Lemma in_rhythm_after (calls : list Timing.Call) (h : Host)
  (self : Timing.TimingSystem) :
  Timing.in_rhythm (Timing.rhythm_tolerance_min self)
    (Timing.rhythm_tolerance_max self)
    (match Timing.last_pedal_side self with
     | Some last => Some (last, Timing.last_pedal_time self)
     | None => None
     end)
    (result (Timing.attempts calls h self)).
Proof.
  revert h self. induction calls as [| c rest IH]; intros h self; [exact I |].
  destruct c as [side cs ms | dt | cs ms].
  - cbn [Timing.attempts]. cbv zeta. unfold result at 1. cbn [fst snd].
    cbn [Timing.in_rhythm].
    destruct (attempt_pedal_cases side cs ms h self)
      as (_ & Hmin & Hmax & _ & _ & _ & Hcase).
    cbv zeta in Hcase.
    specialize (IH (host_after (Timing.attempt_pedal side cs ms h self))
                  (after (Timing.attempt_pedal side cs ms h self))).
    rewrite Hmin, Hmax in IH.
    destruct (Timing.success (result (Timing.attempt_pedal side cs ms h self))).
    + destruct Hcase as (Hside & Htime & Hprev).
      rewrite Hside, Htime in IH. split; [| exact IH].
      destruct (Timing.last_pedal_side self); exact Hprev.
    + rewrite Hcase in IH. rewrite Hcase. exact IH.
  - cbn [Timing.attempts].
    destruct (timing_update_fields dt self) as (E1 & E2 & E3 & E4 & _).
    specialize (IH h (Timing.update dt self)).
    now rewrite E1, E2, E3, E4 in IH.
  - cbn [Timing.attempts]. exact (IH h (Timing.update_green_zone cs ms self)).
Qed.

(** X23.  On the rhythm bar the successful pedals keep the rhythm: in any
    sequence of calls on a new bar, whatever the clock reads, every
    successful pedal after the first is on the other side than the
    successful pedal before it and comes between 200 and 1200 ms after
    it. *)
Theorem successful_pedals_keep_the_rhythm
  (w : Z) (h : Host) (calls : list Timing.Call) :
  let built := Timing.init w h in
  Timing.in_rhythm 200 1200 None
    (result (Timing.attempts calls (host_after built) (after built))).
Proof.
  cbv zeta.
  exact (in_rhythm_after calls (host_after (Timing.init w h))
           (after (Timing.init w h))).
Qed.

Lemma attempts_after_lost_rhythm (calls : list Timing.Call) (h : Host)
  (self : Timing.TimingSystem) (last : string) :
  Timing.last_pedal_side self = Some last ->
  (forall k, (reads h <= k)%nat ->
     (Timing.rhythm_tolerance_max self
      < ticks h k - Timing.last_pedal_time self)%Z) ->
  let r := Timing.attempts calls h self in
  Forall (fun made => Timing.success (snd made) = false) (result r)
  /\ Timing.last_pedal_side (after r) = Some last
  /\ Timing.last_pedal_time (after r) = Timing.last_pedal_time self.
Proof.
  revert h self. induction calls as [| c rest IH]; intros h self Hlast Hlate;
    cbv zeta.
  - split; [constructor | split; [exact Hlast | reflexivity]].
  - destruct c as [side cs ms | dt | cs ms].
    + cbn [Timing.attempts]. cbv zeta.
      destruct (attempt_pedal_cases side cs ms h self)
        as (Hhost & _ & Hmax & _ & _ & _ & Hcase).
      cbv zeta in Hcase.
      destruct (Timing.success (result (Timing.attempt_pedal side cs ms h self)))
        eqn:Hok.
      * exfalso. destruct Hcase as (_ & _ & Hprev). rewrite Hlast in Hprev.
        destruct Hprev as [_ [_ Hhi]].
        specialize (Hlate (reads h) (le_n _)). lia.
      * destruct (IH (clock_read h) self Hlast) as (F1 & F2 & F3).
        { intros k Hk. apply Hlate. simpl in Hk. lia. }
        unfold result, host_after, after in *. cbn [fst snd] in *.
        rewrite Hcase, Hhost.
        split; [| split; assumption].
        constructor; [exact Hok | exact F1].
    + cbn [Timing.attempts].
      destruct (timing_update_fields dt self) as (_ & E2 & E3 & E4 & _).
      destruct (IH h (Timing.update dt self)) as (F1 & F2 & F3).
      * now rewrite E3.
      * intros k Hk. rewrite E2, E4. now apply Hlate.
      * rewrite E4 in F3. auto.
    + cbn [Timing.attempts].
      destruct (IH h (Timing.update_green_zone cs ms self) Hlast Hlate)
        as (F1 & F2 & F3).
      auto.
Qed.

(** X24.  On the rhythm bar a lost rhythm is never regained.  A failed
    attempt does not move the recorded pedal time, so once the clock is
    more than [rhythm_tolerance_max] past the last successful pedal, and
    stays so, every later attempt fails, on either side, and the recorded
    side and time never change again. *)
Theorem lost_rhythm_is_never_regained
  (calls : list Timing.Call) (h : Host) (self : Timing.TimingSystem)
  (last : string) :
  Timing.last_pedal_side self = Some last ->
  (forall k, (reads h <= k)%nat ->
     (Timing.rhythm_tolerance_max self
      < ticks h k - Timing.last_pedal_time self)%Z) ->
  let r := Timing.attempts calls h self in
  Forall (fun made => Timing.success (snd made) = false) (result r)
  /\ Timing.last_pedal_side (after r) = Some last
  /\ Timing.last_pedal_time (after r) = Timing.last_pedal_time self.
Proof. apply attempts_after_lost_rhythm. Qed.

Lemma lost_rhythm_is_never_regained_run :
  let h := mkHost (fun k => (2000 * Z.of_nat k)%Z) 0 (fun _ => false)
             (fun _ => None) 0 [] in
  let built := Timing.init 800 h in
  let first := Timing.attempt_pedal "left" 0 35 (host_after built) (after built) in
  let calls := [Timing.call_attempt_pedal "right" 1 35; Timing.call_update 16;
                Timing.call_attempt_pedal "left" 1 35;
                Timing.call_attempt_pedal "right" 1 35] in
  let r := Timing.attempts calls (host_after first) (after first) in
  Timing.success (result first) = true
  /\ Timing.last_pedal_time (after first) = 2000%Z
  /\ Forall (fun made => Timing.success (snd made) = false) (result r)
  /\ Timing.last_pedal_side (after r) = Some "left"
  /\ Timing.last_pedal_time (after r) = 2000%Z.
Proof.
  cbv zeta.
  split; [vm_compute; reflexivity |]. split; [vm_compute; reflexivity |].
  match goal with
  | |- context [Timing.attempts ?calls ?h ?s] =>
      destruct (lost_rhythm_is_never_regained calls h s "left")
        as (F1 & F2 & F3)
  end.
  - vm_compute. reflexivity.
  - intros k Hk. change (2 <= k)%nat in Hk.
    change (1200 < 2000 * Z.of_nat k - 2000)%Z. lia.
  - split; [exact F1 |]. split; [exact F2 |]. rewrite F3. vm_compute. reflexivity.
Defined.

Lemma green_zone_center_range (cs ms : Q) (self : Timing.TimingSystem) :
  0 <= cs <= ms ->
  0.3 <= Timing.green_zone_center (Timing.update_green_zone cs ms self) <= 0.9.
Proof.
  intros [Hlo Hhi]. unfold Timing.update_green_zone. cbv zeta. simpl.
  destruct (Qltb 0 ms) eqn:Hpos.
  - apply Qltb_true in Hpos.
    assert (H0 : 0 <= cs / ms) by (apply Qle_shift_div_l; lra).
    assert (H1 : cs / ms <= 1) by (apply Qle_shift_div_r; lra).
    split; nra.
  - split; lra.
Qed.

Lemma timing_position_range (dt : Q) (self : Timing.TimingSystem) :
  Timing.timing_speed self = 0.01 ->
  0 <= Timing.timing_position self < 1 ->
  0 <= Timing.timing_position (Timing.update dt self) < 1.
Proof.
  intros Hspeed [Hlo Hhi]. unfold Timing.update. cbv zeta. simpl.
  rewrite Hspeed.
  destruct (Qle_bool 1.0 (Timing.timing_position self + 0.01)) eqn:Hwrap; simpl.
  - lra.
  - assert (Hlt : ~ 1.0 <= Timing.timing_position self + 0.01).
    { intros H. apply Qle_bool_iff in H. congruence. }
    lra.
Qed.

Lemma bar_geometry (calls : list Timing.Call) (h : Host)
  (self : Timing.TimingSystem) :
  Forall Timing.speed_in_range calls ->
  Timing.timing_speed self = 0.01 ->
  0 <= Timing.timing_position self < 1 ->
  0.3 <= Timing.green_zone_center self <= 0.9 ->
  let self' := after (Timing.attempts calls h self) in
  0 <= Timing.timing_position self' < 1
  /\ 0.3 <= Timing.green_zone_center self' <= 0.9.
Proof.
  revert h self. induction calls as [| c rest IH];
    intros h self Hsane Hspeed Hpos Hzone; cbv zeta.
  - split; assumption.
  - inversion Hsane as [| ? ? Hc Hrest]; subst.
    destruct c as [side cs ms | dt | cs ms]; cbn [Timing.attempts].
    + destruct (attempt_pedal_cases side cs ms h self)
        as (_ & _ & _ & E1 & E2 & E3 & _).
      change (0 <= Timing.timing_position
                     (after (Timing.attempts rest
                               (host_after (Timing.attempt_pedal side cs ms h self))
                               (after (Timing.attempt_pedal side cs ms h self))))
              < 1
              /\ 0.3 <= Timing.green_zone_center
                          (after (Timing.attempts rest
                                    (host_after
                                       (Timing.attempt_pedal side cs ms h self))
                                    (after (Timing.attempt_pedal side cs ms h self))))
                 <= 0.9).
      apply IH; [exact Hrest | | |].
      * now rewrite E2.
      * now rewrite E1.
      * now rewrite E3.
    + destruct (timing_update_fields dt self) as (_ & _ & _ & _ & E5 & E6).
      apply IH; [exact Hrest | | |].
      * now rewrite E5.
      * now apply timing_position_range.
      * now rewrite E6.
    + apply IH; [exact Hrest | exact Hspeed | exact Hpos |].
      now apply green_zone_center_range.
Qed.

(** X25.  The timing line and the green zone stay on the bar: after any
    sequence of calls on a new rhythm bar in which the green zone is
    always asked for a speed between 0 and the maximum speed, the
    position of the timing line lies in [[0, 1)] and the centre of the
    green zone between 0.3 and 0.9. *)
Theorem timing_line_and_green_zone_stay_on_the_bar
  (w : Z) (h : Host) (calls : list Timing.Call) :
  Forall Timing.speed_in_range calls ->
  let built := Timing.init w h in
  let self := after (Timing.attempts calls (host_after built) (after built)) in
  0 <= Timing.timing_position self < 1
  /\ 0.3 <= Timing.green_zone_center self <= 0.9.
Proof.
  intros Hsane. cbv zeta.
  apply bar_geometry; [exact Hsane | reflexivity | | ]; simpl; lra.
Qed.

Lemma timing_line_and_green_zone_stay_on_the_bar_run :
  let h := mkHost (fun k => (400 * Z.of_nat k)%Z) 0 (fun _ => false)
             (fun _ => None) 0 [] in
  let calls := [Timing.call_update_green_zone 35 35; Timing.call_update 16;
                Timing.call_attempt_pedal "left" 35 35; Timing.call_update 16] in
  let built := Timing.init 800 h in
  let self := after (Timing.attempts calls (host_after built) (after built)) in
  Timing.green_zone_center self == 0.9
  /\ 0 <= Timing.timing_position self < 1
  /\ 0.3 <= Timing.green_zone_center self <= 0.9.
Proof.
  cbv zeta. split; [vm_compute; reflexivity |].
  apply timing_line_and_green_zone_stay_on_the_bar.
  constructor; [simpl; lra |]. repeat (constructor; [exact I |]). constructor.
Defined.

(** * Further properties of the engine's ticks *)

Lemma perform_last_pedal_interval (self : Physics) (c : PhysicsCall) :
  last_pedal_interval (state self) = 0%Z ->
  last_pedal_interval (state (perform self c)) = 0%Z.
Proof.
  intros H. destruct c as [| side t | dt t | t | t | | t]; simpl;
    try exact H; try reflexivity.
  - unfold handle_pedal.
    destruct (match last_pedal_side (state self) with
              | Some last => String.eqb side last | None => false end);
      [exact H |].
    destruct (0 <? last_pedal_time (state self))%Z; exact H.
  - unfold update. destruct (_ && _); [exact H |].
    destruct (Qltb _ _); exact H.
Qed.

(** X26.  The interval of the last pedal stroke is never recorded: no
    method assigns [last_pedal_interval], so after any sequence of calls
    on a new engine [get_last_pedal_interval()] returns 0. *)
Theorem last_pedal_interval_is_never_recorded
  (max_speed_arg : Q) (calls : list PhysicsCall) :
  get_last_pedal_interval (perform_all calls (Physics_init max_speed_arg)) = 0%Z.
Proof.
  unfold get_last_pedal_interval, perform_all.
  assert (H : last_pedal_interval (state (Physics_init max_speed_arg)) = 0%Z)
    by reflexivity.
  revert H. generalize (Physics_init max_speed_arg).
  induction calls as [| c rest IH]; intros self H; [exact H |].
  simpl. apply IH. now apply perform_last_pedal_interval.
Qed.

Lemma update_in_time (dt : Q) (now : Z) (self : Physics) :
  in_time self (dt, now) ->
  speed (state (update dt now self)) = speed (state self)
  /\ stamina (state (update dt now self)) = stamina (state self)
  /\ last_pedal_time (state (update dt now self)) = last_pedal_time (state self)
  /\ max_pedal_interval (update dt now self) = max_pedal_interval self
  /\ distance_traveled (state (update dt now self))
     == distance_traveled (state self)
        + (if Qltb 0 (speed (state self))
           then speed (state self) * 10 * (dt / 1000.0) else 0).
Proof.
  unfold in_time, update. cbn [fst snd]. intros Hin.
  destruct (0 <? last_pedal_time (state self))%Z eqn:Hp; cbn [andb].
  - apply Z.ltb_lt in Hp. specialize (Hin Hp).
    assert (Hs : (max_pedal_interval self <? now - last_pedal_time (state self))%Z
                 = false) by (apply Z.ltb_ge; lia).
    rewrite Hs. destruct (Qltb 0 (speed (state self))); simpl;
      repeat split; try reflexivity; lra.
  - destruct (Qltb 0 (speed (state self))); simpl;
      repeat split; try reflexivity; lra.
Qed.

Lemma update_all_in_time (frames : list (Q * Z)) (self : Physics) :
  Forall (in_time self) frames ->
  speed (state (update_all frames self)) = speed (state self)
  /\ stamina (state (update_all frames self)) = stamina (state self)
  /\ distance_traveled (state (update_all frames self))
     == distance_traveled (state self)
        + (if Qltb 0 (speed (state self))
           then speed (state self) * 10 * (total_dt frames / 1000.0) else 0).
Proof.
  revert self. induction frames as [| [dt now] rest IH]; intros self Hin.
  - simpl. repeat split; try reflexivity.
    destruct (Qltb 0 (speed (state self))); unfold total_dt; simpl; field.
  - inversion Hin as [| ? ? Hfirst Hrest]; subst.
    destruct (update_in_time dt now self Hfirst) as (E1 & E2 & E3 & E4 & E5).
    unfold update_all. cbn [fold_left fst snd].
    fold (update_all rest (update dt now self)).
    destruct (IH (update dt now self)) as (F1 & F2 & F3).
    { eapply Forall_impl; [exact Hrest |].
      intros frame. unfold in_time. now rewrite E3, E4. }
    rewrite F1, F2, E1, E2. split; [reflexivity |]. split; [reflexivity |].
    rewrite F3, E5, E1.
    destruct (Qltb 0 (speed (state self)));
      unfold total_dt; cbn [fold_right fst];
      fold (total_dt rest); field.
Qed.

(** X27.  The distance does not depend on the frame rate.  Over any
    sequence of ticks none of which finds the last pedal too old, the
    engine keeps its speed and stamina, and the distance grows by the
    speed times 10 pixels per second of the total time of the ticks,
    however that time is cut into frames. *)
Theorem distance_does_not_depend_on_the_frame_rate
  (frames : list (Q * Z)) (self : Physics) :
  Forall (in_time self) frames ->
  speed (state (update_all frames self)) = speed (state self)
  /\ stamina (state (update_all frames self)) = stamina (state self)
  /\ distance_traveled (state (update_all frames self))
     == distance_traveled (state self)
        + (if Qltb 0 (speed (state self))
           then speed (state self) * 10 * (total_dt frames / 1000.0) else 0).
Proof. apply update_all_in_time. Qed.

Lemma distance_does_not_depend_on_the_frame_rate_example :
  let self := snd (handle_pedal "right" 1400
                     (snd (handle_pedal "left" 1000 (Physics_init 25.0)))) in
  let coarse := [(48, 1500%Z)] in
  let fine := [(16, 1416%Z); (16, 1432%Z); (16, 1500%Z)] in
  distance_traveled (state (update_all coarse self))
  == distance_traveled (state (update_all fine self))
  /\ ~ distance_traveled (state (update_all fine self))
       == distance_traveled (state self).
Proof.
  cbv zeta.
  match goal with
  | |- distance_traveled (state (update_all ?c ?s))
       == distance_traveled (state (update_all ?f ?s)) /\ _ =>
      destruct (distance_does_not_depend_on_the_frame_rate c s) as (_ & _ & Ec);
        [repeat (constructor; [unfold in_time; intros _; vm_compute; discriminate |]);
         constructor |];
      destruct (distance_does_not_depend_on_the_frame_rate f s) as (_ & _ & Ef);
        [repeat (constructor; [unfold in_time; intros _; vm_compute; discriminate |]);
         constructor |]
  end.
  split.
  - rewrite Ec, Ef. vm_compute. reflexivity.
  - intros H. vm_compute in H. discriminate H.
Defined.
